(** * MCP servers for full-stack development: the tool-invocation runtime

  A shallow embedding of the dispatch handlers of [git-server.js], of the
  earlier git server and of the dev-tools server, and of the algorithmic
  tool bodies: the blame parser, the commit-message classifier, the
  structural validator of [validate_response] and the statistics of
  [performance_test]; then of the request tools of the API-testing server,
  of [generate_migration] of the database server and of the tool names
  each server advertises.

  JavaScript strings are modelled as [string]: sequences of code units
  below 256, so that the model is exact for ASCII and Latin-1 text and
  silent on other text.  Numbers are integers [Z], and everything the
  servers obtain from their host (child processes, files, the clock's
  locale, JSON text) comes from a [Host] record of oracles. *)

From Stdlib Require Import String Ascii List ZArith QArith Bool Lia Arith.
From Stdlib Require Import Numbers.DecimalString Floats.SpecFloat.
Import ListNotations.
Local Close Scope Q_scope.
Local Open Scope list_scope.
Local Open Scope string_scope.
Set Warnings "-register-all".

(** ** String primitives of the JavaScript runtime *)

Module JsString.

Definition LF : ascii := "010"%char.
Definition TAB : ascii := "009"%char.
Definition SPACE : ascii := " "%char.

(** One-character strings that cannot be written inside a literal. *)
Definition nl : string := String LF EmptyString.
Definition tab : string := String TAB EmptyString.
Definition dquote : string := String (ascii_of_nat 34) EmptyString.
Definition backslash : string := String (ascii_of_nat 92) EmptyString.
Definition backtick : string := String (ascii_of_nat 96) EmptyString.

(** [s.startsWith(p)] *)
Fixpoint startsWith (s p : string) {struct p} : bool :=
  match p with
  | EmptyString => true
  | String c p' =>
      match s with
      | EmptyString => false
      | String d s' => Ascii.eqb c d && startsWith s' p'
      end
  end.

(** [s.substring(n)]: everything from index [n] on. *)
Fixpoint substringFrom (n : nat) (s : string) : string :=
  match n, s with
  | O, _ => s
  | S _, EmptyString => EmptyString
  | S n', String _ s' => substringFrom n' s'
  end.

(** [s.substring(0, n)]: the first [n] code units (fewer if [s] is short). *)
Fixpoint substringTo (n : nat) (s : string) : string :=
  match n, s with
  | O, _ => EmptyString
  | S _, EmptyString => EmptyString
  | S n', String c s' => String c (substringTo n' s')
  end.

(** [s.split(sep)] for a one-character separator: never empty, the empty
    string splits into one empty piece. *)
Fixpoint split (sep : ascii) (s : string) : list string :=
  match s with
  | EmptyString => [EmptyString]
  | String c s' =>
      if Ascii.eqb c sep then EmptyString :: split sep s'
      else match split sep s' with
           | [] => [String c EmptyString]
           | piece :: pieces => String c piece :: pieces
           end
  end.

(** [pieces.join(sep)] on strings. *)
Definition join (sep : string) (pieces : list string) : string :=
  String.concat sep pieces.

(** [s.includes(sub)] *)
Fixpoint includes (s sub : string) : bool :=
  startsWith s sub ||
  match s with
  | EmptyString => false
  | String _ s' => includes s' sub
  end.

(** [s.endsWith(suf)] *)
Definition endsWith (s suf : string) : bool :=
  (String.length suf <=? String.length s)%nat &&
  String.eqb (substringFrom (String.length s - String.length suf) s) suf.

(** The lower-case form of a code unit below 256: the letters A to Z,
    and the Latin-1 capitals from U+00C0 to U+00DE but for the
    multiplication sign U+00D7, have theirs 32 places further. *)
Definition lower_char (c : ascii) : ascii :=
  let n := nat_of_ascii c in
  if ((65 <=? n) && (n <=? 90)
      || (192 <=? n) && (n <=? 222) && negb (n =? 215))%nat
  then ascii_of_nat (n + 32) else c.

(** [s.toLowerCase()] *)
Fixpoint toLowerCase (s : string) : string :=
  match s with
  | EmptyString => EmptyString
  | String c s' => String (lower_char c) (toLowerCase s')
  end.

Fixpoint spaces (n : nat) : string :=
  match n with
  | O => EmptyString
  | S n' => String SPACE (spaces n')
  end.

(** [s.padEnd(n)] *)
Definition padEnd (n : nat) (s : string) : string :=
  s ++ spaces (n - String.length s).

(** [s.replace(/\|/g, "\\|")]: a backslash before every vertical bar. *)
Fixpoint escape_bars (s : string) : string :=
  match s with
  | EmptyString => EmptyString
  | String c s' =>
      if Ascii.eqb c "|"%char
      then String (ascii_of_nat 92) (String c (escape_bars s'))
      else String c (escape_bars s')
  end.

(** White space and line ends, as stripped by [trim], skipped by
    [parseInt] and matched by [\s]: among the code units below 256, the
    controls from tab to carriage return, the space and the no-break
    space U+00A0. *)
Definition is_space (c : ascii) : bool :=
  let n := nat_of_ascii c in
  ((9 <=? n) && (n <=? 13) || (n =? 32) || (n =? 160))%nat.

Fixpoint trimStart (s : string) : string :=
  match s with
  | EmptyString => EmptyString
  | String c s' => if is_space c then trimStart s' else s
  end.

(** Drops trailing white space: a piece is kept when something that is
    not white space follows or stands at its head. *)
Fixpoint trimEnd (s : string) : string :=
  match s with
  | EmptyString => EmptyString
  | String c s' =>
      match trimEnd s' with
      | EmptyString => if is_space c then EmptyString else String c EmptyString
      | rest => String c rest
      end
  end.

(** [s.trim()] *)
Definition trim (s : string) : string := trimEnd (trimStart s).

(** The character class [[0-9a-f]]. *)
Definition is_hex_lower (c : ascii) : bool :=
  let n := nat_of_ascii c in
  ((48 <=? n) && (n <=? 57) || (97 <=? n) && (n <=? 102))%nat.

(** [n] leading characters of [s] exist and satisfy [p]. *)
Fixpoint leading (p : ascii -> bool) (n : nat) (s : string) : bool :=
  match n, s with
  | O, _ => true
  | S _, EmptyString => false
  | S n', String c s' => p c && leading p n' s'
  end.

(** [s.match(/^[0-9a-f]{40}/)] is not null. *)
Definition matches_hex40 (s : string) : bool := leading is_hex_lower 40 s.

Definition digit_value (c : ascii) : option Z :=
  let n := nat_of_ascii c in
  if ((48 <=? n) && (n <=? 57))%nat then Some (Z.of_nat (n - 48))
  else if ((97 <=? n) && (n <=? 122))%nat then Some (Z.of_nat (n - 87))
  else if ((65 <=? n) && (n <=? 90))%nat then Some (Z.of_nat (n - 55))
  else None.

(** Value of the longest prefix of [s] made of digits below [radix];
    [acc] carries the digits read so far, [None] while there are none. *)
Fixpoint digits (radix : Z) (acc : option Z) (s : string) : option Z :=
  match s with
  | EmptyString => acc
  | String c s' =>
      match digit_value c with
      | Some d =>
          if (d <? radix)%Z
          then digits radix
                 (Some (match acc with Some a => a * radix + d | None => d end)%Z) s'
          else acc
      | None => acc
      end
  end.

(** [parseInt(s)] without a radix: leading white space, an optional sign,
    an optional [0x]/[0X] prefix selecting base 16, then digits; [None]
    is NaN. *)
Definition parseInt (s : string) : option Z :=
  let s1 := trimStart s in
  let '(negative, s2) :=
    match s1 with
    | String "-"%char r => (true, r)
    | String "+"%char r => (false, r)
    | _ => (false, s1)
    end in
  let '(radix, s3) :=
    match s2 with
    | String "0"%char (String "x"%char r) => (16%Z, r)
    | String "0"%char (String "X"%char r) => (16%Z, r)
    | _ => (10%Z, s2)
    end in
  match digits radix None s3 with
  | Some v => Some (if negative then (- v)%Z else v)
  | None => None
  end.

(** Decimal rendering of an integer, as [String(n)] gives it for a
    number up to 2^53. *)
Definition of_Z (z : Z) : string := NilZero.string_of_int (Z.to_int z).
Definition of_nat (n : nat) : string := of_Z (Z.of_nat n).

(** *** Numbers beyond 2^53

    A number is a double.  Up to 2^53 every integer is one and [of_Z]
    prints it as the language does; beyond, an integer stands for the
    double nearest to it, and the language prints the shortest numeral
    that reads back as this double, padded with zeros below 10^21 and in
    exponent form from there on. *)

(** The double nearest to a positive integer, ties to the even
    significand. *)
Definition nearest_double (v : Z) : Z :=
  let bits := (Z.log2 v + 1)%Z in
  if (bits <=? 53)%Z then v
  else
    let shift := (bits - 53)%Z in
    let m := Z.shiftr v shift in
    let r := (v - Z.shiftl m shift)%Z in
    let half := Z.shiftl 1 (shift - 1) in
    let m' :=
      if (r <? half)%Z then m
      else if (half <? r)%Z then (m + 1)%Z
      else if Z.even m then m else (m + 1)%Z in
    Z.shiftl m' shift.

(** The numeral with [k] significant digits that reads back as the double
    [x], if there is one: the closest to [x], the even one on a tie. *)
Definition with_digits (x : Z) (size : nat) (k : nat) : option Z :=
  let q := (10 ^ Z.of_nat (size - k))%Z in
  let lo := (x / q * q)%Z in
  let hi := (lo + q)%Z in
  let lo_ok := (nearest_double lo =? x)%Z in
  let hi_ok := (nearest_double hi =? x)%Z in
  if lo_ok && hi_ok then
    if (x - lo <? hi - x)%Z then Some lo
    else if (hi - x <? x - lo)%Z then Some hi
    else if Z.even (lo / q) then Some lo else Some hi
  else if lo_ok then Some lo
  else if hi_ok then Some hi
  else None.

(** The shortest such numeral, trying [k], [k + 1], ... *)
Fixpoint shortest (x : Z) (size : nat) (k : nat) (fuel : nat) : Z :=
  match fuel with
  | O => x
  | S fuel' =>
      match with_digits x size k with
      | Some v => v
      | None => shortest x size (S k) fuel'
      end
  end.

Fixpoint strip_zeros (reversed : string) : string :=
  match reversed with
  | String "0"%char rest => strip_zeros rest
  | _ => reversed
  end.

Fixpoint reverse (s : string) : string :=
  match s with
  | EmptyString => EmptyString
  | String c s' => reverse s' ++ String c EmptyString
  end.

(** Number::toString for a positive integer beyond 2^53. *)
Definition large_to_string (x : Z) : string :=
  let x := nearest_double x in
  let v := shortest x (String.length (of_Z x)) 1 17 in
  let numeral := of_Z v in
  let n := String.length numeral in
  if (n <=? 21)%nat then numeral
  else
    match reverse (strip_zeros (reverse numeral)) with
    | String d EmptyString =>
        String d EmptyString ++ "e+" ++ of_nat (n - 1)
    | String d more =>
        String d EmptyString ++ "." ++ more ++ "e+" ++ of_nat (n - 1)
    | EmptyString => numeral
    end.

(** Number::toString for an integer. *)
Definition number_to_string (z : Z) : string :=
  if (Z.abs z <=? 2 ^ 53)%Z then of_Z z
  else if (z <? 0)%Z then "-" ++ large_to_string (- z)
  else large_to_string z.

End JsString.

(** ** Values, property access and completions *)

Module Js.
Import JsString.

(** The values that reach a handler: what [JSON.parse] can build, plus
    [undefined].  The fields of [JObj] are the own properties in the order
    of their creation, which for a parsed text is the order of the text;
    [entries] below gives the order in which [Object.entries] enumerates
    them. *)
Inductive jsval : Type :=
| JUndefined
| JNull
| JBool (b : bool)
| JNum (n : Z)
| JStr (s : string)
| JArr (items : list jsval)
| JObj (fields : list (string * jsval)).

(** Evaluating an expression either gives a value or throws an [Error]
    whose [message] is kept. *)
Inductive result (A : Type) : Type :=
| Ok (a : A)
| Throw (message : string).
Arguments Ok {A} a.
Arguments Throw {A} message.

Definition bind {A B : Type} (r : result A) (k : A -> result B) : result B :=
  match r with
  | Ok a => k a
  | Throw m => Throw m
  end.

(** ToBoolean *)
Definition truthy (v : jsval) : bool :=
  match v with
  | JUndefined | JNull => false
  | JBool b => b
  | JNum n => negb (n =? 0)%Z
  | JStr s => negb (String.eqb s EmptyString)
  | JArr _ | JObj _ => true
  end.

(** [v || d] *)
Definition or_else (v d : jsval) : jsval := if truthy v then v else d.

(** ToString, as a template literal applies it, where the conversion
    returns and for numbers up to 2^53; [to_string] below is the
    conversion with its [TypeError] and with the numerals of larger
    numbers. *)
Fixpoint to_str (v : jsval) : string :=
  match v with
  | JUndefined => "undefined"
  | JNull => "null"
  | JBool true => "true"
  | JBool false => "false"
  | JNum n => of_Z n
  | JStr s => s
  | JArr items =>
      join ","
        (map (fun item =>
                match item with
                | JUndefined | JNull => EmptyString
                | _ => to_str item
                end) items)
  | JObj _ => "[object Object]"
  end.

(** [typeof v] *)
Definition typeof (v : jsval) : string :=
  match v with
  | JUndefined => "undefined"
  | JBool _ => "boolean"
  | JNum _ => "number"
  | JStr _ => "string"
  | JNull | JArr _ | JObj _ => "object"
  end.

(** [Array.isArray(v)] *)
Definition isArray (v : jsval) : bool :=
  match v with
  | JArr _ => true
  | _ => false
  end.

Definition is_undefined (v : jsval) : bool :=
  match v with
  | JUndefined => true
  | _ => false
  end.

(** [v === s] for a string [s]. *)
Definition is_string (v : jsval) (s : string) : bool :=
  match v with
  | JStr s' => String.eqb s' s
  | _ => false
  end.

Fixpoint lookup (fields : list (string * jsval)) (key : string) : jsval :=
  match fields with
  | [] => JUndefined
  | (k, v) :: rest => if String.eqb k key then v else lookup rest key
  end.

(** [obj.key = v]: an existing property keeps its place, a new one goes
    last. *)
Fixpoint set_prop (fields : list (string * jsval)) (key : string) (v : jsval)
  : list (string * jsval) :=
  match fields with
  | [] => [(key, v)]
  | (k, v') :: rest =>
      if String.eqb k key then (k, v) :: rest
      else (k, v') :: set_prop rest key v
  end.

(** Pairs an array-like with its indices, from [i] on. *)
Fixpoint indexed {A : Type} (i : nat) (l : list A) : list (string * A) :=
  match l with
  | [] => []
  | x :: rest => (of_nat i, x) :: indexed (S i) rest
  end.

Fixpoint chars (s : string) : list jsval :=
  match s with
  | EmptyString => []
  | String c s' => JStr (String c EmptyString) :: chars s'
  end.

(** V8's messages for the type errors that handlers can run into. *)
Definition cannot_read (base key : string) : string :=
  "Cannot read properties of " ++ base ++ " (reading '" ++ key ++ "')".
Definition cannot_set (base key : string) : string :=
  "Cannot set properties of " ++ base ++ " (setting '" ++ key ++ "')".
Definition not_a_function (expr : string) : string :=
  expr ++ " is not a function".

(** [base.key] for the property names that the handlers write in their
    text ([args.repoPath], [schema.type], [test.name], [items.length] and
    the like), none of which names a member of a built-in prototype: the
    own property, or [undefined].  Reading a property of [undefined] or
    [null] throws.  A read [base[key]] with a computed key is [read] of
    the host module. *)
Definition get (base : jsval) (key : string) : result jsval :=
  match base with
  | JUndefined => Throw (cannot_read "undefined" key)
  | JNull => Throw (cannot_read "null" key)
  | JBool _ | JNum _ => Ok JUndefined
  | JStr s =>
      if String.eqb key "length" then Ok (JNum (Z.of_nat (String.length s)))
      else Ok (lookup (indexed 0 (chars s)) key)
  | JArr items =>
      if String.eqb key "length" then Ok (JNum (Z.of_nat (List.length items)))
      else Ok (lookup (indexed 0 items) key)
  | JObj fields => Ok (lookup fields key)
  end.

(** An array index: the canonical numeral of an integer below 2^32 - 1. *)
Fixpoint numeral (s : string) (acc : Z) : option Z :=
  match s with
  | EmptyString => Some acc
  | String c s' =>
      let n := nat_of_ascii c in
      if ((48 <=? n) && (n <=? 57))%nat
      then numeral s' (10 * acc + Z.of_nat (n - 48))%Z
      else None
  end.

Definition array_index (key : string) : option Z :=
  match key with
  | EmptyString => None
  | _ =>
      match numeral key 0 with
      | Some n =>
          if String.eqb (of_Z n) key && (n <? 4294967295)%Z then Some n
          else None
      | None => None
      end
  end.

Definition is_named (entry : string * jsval) : bool :=
  match array_index (fst entry) with
  | Some _ => false
  | None => true
  end.

Fixpoint insert_index (n : Z) (entry : string * jsval)
  (sorted : list (Z * (string * jsval))) : list (Z * (string * jsval)) :=
  match sorted with
  | [] => [(n, entry)]
  | (m, e) :: rest =>
      if (n <? m)%Z then (n, entry) :: sorted
      else (m, e) :: insert_index n entry rest
  end.

(** The own properties whose keys are array indices, in ascending order. *)
Definition index_entries (fields : list (string * jsval))
  : list (Z * (string * jsval)) :=
  fold_left (fun sorted entry =>
               match array_index (fst entry) with
               | Some n => insert_index n entry sorted
               | None => sorted
               end) fields [].

(** The order in which the own properties of an object are enumerated
    ([Object.entries], [for ... in], the spread syntax): the array indices
    first, in ascending order, then the other keys in the order of their
    creation. *)
Definition own_entries (fields : list (string * jsval))
  : list (string * jsval) :=
  (map snd (index_entries fields) ++ filter is_named fields)%list.

(** [Object.entries(v)] for a truthy [v]. *)
Definition entries (v : jsval) : list (string * jsval) :=
  match v with
  | JObj fields => own_entries fields
  | JArr items => indexed 0 items
  | JStr s => indexed 0 (chars s)
  | _ => []
  end.

Fixpoint find_field (fields : list (string * jsval)) (key : string)
  : option jsval :=
  match fields with
  | [] => None
  | (k, v) :: rest => if String.eqb k key then Some v else find_field rest key
  end.

(** The own property [key] of [base], if it has one. *)
Definition own (base : jsval) (key : string) : option jsval :=
  match base with
  | JStr s =>
      if String.eqb key "length" then Some (JNum (Z.of_nat (String.length s)))
      else find_field (indexed 0 (chars s)) key
  | JArr items =>
      if String.eqb key "length" then Some (JNum (Z.of_nat (List.length items)))
      else find_field (indexed 0 items) key
  | JObj fields => find_field fields key
  | _ => None
  end.

(** What a read [base[key]] finds: an own property, or a member that
    [base] inherits from a built-in prototype.  Such a member is a method
    ([toString], [constructor], ...) or the prototype itself
    ([__proto__]); what a handler can tell of it is its type tag, the
    [typeof] of the member, or ["array"] when [Array.isArray] holds of
    it. *)
Inductive member : Type :=
| Own (v : jsval)
| Inherited (tag : string).

(** ToString with its failure.  An object is converted by its [toString]
    and then its [valueOf]: a parsed object inherits both from
    [Object.prototype], whose [toString] gives ["[object Object]"] and
    whose [valueOf] gives the object back, unless it has an own property
    [toString], which a parsed text cannot make callable: then neither
    gives a primitive and the conversion throws.  An array is converted by
    joining the conversions of its items. *)
Definition cannot_convert : string := "Cannot convert object to primitive value".

Fixpoint all_ok {A : Type} (l : list (result A)) : result (list A) :=
  match l with
  | [] => Ok []
  | r :: rest => bind r (fun a => bind (all_ok rest) (fun others => Ok (a :: others)))
  end.

Fixpoint to_string (v : jsval) : result string :=
  match v with
  | JNum n => Ok (number_to_string n)
  | JArr items =>
      bind (all_ok (map (fun item =>
                           match item with
                           | JUndefined | JNull => Ok EmptyString
                           | _ => to_string item
                           end) items))
        (fun parts => Ok (join "," parts))
  | JObj fields =>
      match find_field fields "toString" with
      | Some _ => Throw cannot_convert
      | None => Ok "[object Object]"
      end
  | JUndefined => Ok "undefined"
  | JNull => Ok "null"
  | JBool true => Ok "true"
  | JBool false => Ok "false"
  | JStr s => Ok s
  end.

(** The receiver of a string method call [v.method(...)]: [v] must be a
    string here, an undefined or null [v] throws on the property read. *)
Definition receiver (v : jsval) (expr method : string) : result string :=
  match v with
  | JStr s => Ok s
  | JUndefined => Throw (cannot_read "undefined" method)
  | JNull => Throw (cannot_read "null" method)
  | _ => Throw (not_a_function (expr ++ "." ++ method))
  end.

(** [items.map(f)] with a callback that may throw: left to right, the
    first throw ends the traversal. *)
Fixpoint traverse {A B : Type} (f : A -> result B) (l : list A) : result (list B) :=
  match l with
  | [] => Ok []
  | x :: rest =>
      bind (f x) (fun y => bind (traverse f rest) (fun ys => Ok (y :: ys)))
  end.

(** [items.every(p)] and [items.some(p)], short-circuiting, with a
    predicate that may throw. *)
Fixpoint every {A : Type} (p : A -> result bool) (l : list A) : result bool :=
  match l with
  | [] => Ok true
  | x :: rest => bind (p x) (fun b => if b then every p rest else Ok false)
  end.

Fixpoint some {A : Type} (p : A -> result bool) (l : list A) : result bool :=
  match l with
  | [] => Ok false
  | x :: rest => bind (p x) (fun b => if b then Ok true else some p rest)
  end.

End Js.

(** ** The host: everything a handler obtains from outside the process *)

Module HostEnv.
Import Js.

(** How a child process started by [exec] ended: it ran to its end with
    an exit status, having written no more than [maxBuffer] (1 MiB unless
    the caller asks for more, and no handler does) to either stream; or
    one [stream], ["stdout"] or ["stderr"], passed that limit, at which
    [exec] gives up on the child whatever its exit status; or it could not
    be started. *)
Inductive proc_outcome : Type :=
| Exited (code : Z) (stdout stderr : string)
| Overflowed (stream : string)
| NotSpawned (message : string).

(** One [makeRequest] call: a response with its measured duration in
    milliseconds, or a rejection. *)
Inductive request_outcome : Type :=
| Responded (duration : Z)
| RequestFailed (message : string).

Record Host : Type := {
  (** [exec(command, options)] of [child_process] *)
  run_process : jsval -> jsval -> proc_outcome;
  (** [fs.readFile(path, "utf-8")]: the text, or the error's message *)
  read_file : jsval -> string + string;
  (** [JSON.parse(text)]: the value, or the [SyntaxError]'s message *)
  json_parse : string -> jsval + string;
  (** [JSON.stringify(v, null, 2)] *)
  json_stringify : jsval -> string;
  (** StringToNumber of the language; [None] is NaN *)
  string_to_number : string -> option Z;
  (** [new Date(ms).toLocaleDateString()]; [None] is the invalid date *)
  locale_date : option Z -> string;
  (** the [i]-th [makeRequest(method, url, headers, body)] of an invocation *)
  make_request : nat -> jsval -> jsval -> jsval -> request_outcome;
  (** the built-in prototypes of the runtime: the type tag of the member
      that a value like [base] inherits under [key], if it inherits one *)
  inherited : jsval -> string -> option string
}.

(** ToNumber, where the conversion returns; [to_numeric] below is the
    conversion with its [TypeError]. *)
Definition to_number (h : Host) (v : jsval) : option Z :=
  match v with
  | JUndefined => None
  | JNull => Some 0%Z
  | JBool b => Some (if b then 1 else 0)%Z
  | JNum n => Some n
  | JStr s => string_to_number h s
  | JArr _ => string_to_number h (to_str v)
  | JObj _ => None
  end.

(** ToNumber with its failure: an array or an object is converted to a
    string first, which can throw; ["[object Object]"] is not a
    numeral. *)
Definition to_numeric (h : Host) (v : jsval) : result (option Z) :=
  match v with
  | JArr _ => bind (to_string v) (fun s => Ok (string_to_number h s))
  | JObj _ => bind (to_string v) (fun _ => Ok None)
  | _ => Ok (to_number h v)
  end.

(** [base[key]] with a key computed at run time: the own property, else
    the member inherited from the built-in prototypes, else [undefined].
    Reading a property of [undefined] or [null] throws. *)
Definition read (h : Host) (base : jsval) (key : string) : result member :=
  match base with
  | JUndefined => Throw (cannot_read "undefined" key)
  | JNull => Throw (cannot_read "null" key)
  | _ =>
      match own base key with
      | Some v => Ok (Own v)
      | None =>
          match inherited h base key with
          | Some tag => Ok (Inherited tag)
          | None => Ok (Own JUndefined)
          end
      end
  end.

End HostEnv.

(** ** Result envelopes and the dispatch handler *)

Module Dispatch.
Import JsString Js.

Record block : Type := { kind : string; text : string }.

(** [{content: [...]}] with [isError] absent is modelled by [isError = false]. *)
Record envelope : Type := { content : list block; isError : bool }.

(** [{content: [{type: "text", text: s}]}] *)
Definition ok (s : string) : envelope :=
  {| content := [ {| kind := "text"; text := s |} ]; isError := false |}.

(** [{content: [{type: "text", text: s}], isError: true}] *)
Definition failure (s : string) : envelope :=
  {| content := [ {| kind := "text"; text := s |} ]; isError := true |}.

(** How the block of one [case] ends: by [return], by an exception leaving
    it, or by running off its closing brace. *)
Inductive outcome : Type :=
| Returned (e : envelope)
| Threw (message : string)
| Completed.

(** Sequencing of an expression that may throw with the rest of a block. *)
Definition and_then {A : Type} (r : result A) (k : A -> outcome) : outcome :=
  match r with
  | Ok a => k a
  | Throw m => Threw m
  end.

(** [try { block } catch (error) { handler(error.message) }] *)
Definition try_catch (block : outcome) (handler : string -> outcome) : outcome :=
  match block with
  | Threw m => handler m
  | o => o
  end.

Definition case_body : Type := jsval -> outcome.
Definition case_table : Type := list (string * case_body).

(** [default: throw new Error(`Unknown tool: ${name}`)] *)
Definition default_clause (name : string) : outcome :=
  Threw ("Unknown tool: " ++ name).

(** The statements of a [switch] from an entry point on: a block that
    completes without [return] or [throw] runs on into the next clause,
    the last of which is [default]. *)
Fixpoint run_from (name : string) (clauses : case_table) (args : jsval) : outcome :=
  match clauses with
  | [] => default_clause name
  | (_, body) :: rest =>
      match body args with
      | Completed => run_from name rest args
      | o => o
      end
  end.

(** [switch (name) { case ...: ... default: ... }]: entry at the first
    clause whose label is strictly equal to [name]. *)
Fixpoint switch (name : string) (clauses : case_table) (args : jsval) : outcome :=
  match clauses with
  | [] => default_clause name
  | (label, _) :: rest =>
      if String.eqb name label then run_from name clauses args
      else switch name rest args
  end.

(** The [CallToolRequestSchema] handler shared by every server:
    [try { switch ... } catch (error) { return failure }]. *)
Definition handle (clauses : case_table) (name : string) (args : jsval) : outcome :=
  try_catch (switch name clauses args)
    (fun message => Returned (failure ("Error: " ++ message))).

(** The block bound to [name], when a clause carries that label. *)
Fixpoint matched (name : string) (clauses : case_table) : option case_body :=
  match clauses with
  | [] => None
  | (label, body) :: rest =>
      if String.eqb name label then Some body else matched name rest
  end.

End Dispatch.

Declare Scope outcome_scope.
Notation "'let*' x ':=' r 'in' k" :=
  (Dispatch.and_then r (fun x => k))
  (at level 10, x pattern, r at level 100, k at level 200)
  : outcome_scope.
Delimit Scope outcome_scope with out.

Declare Scope result_scope.
Notation "'let*' x ':=' r 'in' k" :=
  (Js.bind r (fun x => k))
  (at level 10, x pattern, r at level 100, k at level 200)
  : result_scope.
Delimit Scope result_scope with res.

(** ** The process runner *)

Module Runner.
Import JsString Js HostEnv.

(** [execAsync = promisify(exec)]: resolves with both streams when the
    callback of [exec] gets no error, that is on exit status 0 with both
    streams within [maxBuffer]; any other exit status, like a stream that
    passed the limit or a process that could not be started, rejects with
    the error.  The comment above the call in [git_push] relies on it:
    [execAsync] throws on a non-zero exit code. *)
Definition execAsync (h : Host) (command options : jsval)
  : result (string * string) :=
  match run_process h command options with
  | Exited 0 stdout stderr => Ok (stdout, stderr)
  | Exited _ _ stderr =>
      Throw ("Command failed: " ++ to_str command ++ nl ++ stderr)
  | Overflowed stream => Throw (stream ++ " maxBuffer length exceeded")
  | NotSpawned message => Throw message
  end.

(** [execAsync(`...`)] with a command line built by a template. *)
Definition exec_line (h : Host) (command : string) : result (string * string) :=
  execAsync h (JStr command) JUndefined.

(** A caller-supplied string between double quotes. *)
Definition quoted (s : string) : string := dquote ++ s ++ dquote.

End Runner.

(** ** The git server ([git-server.js]) *)

Module GitServer.
Import JsString Js HostEnv Dispatch Runner.
Local Open Scope outcome_scope.

(** *** The commit-message classifier *)

(** One line of [git diff --staged --name-status], destructured by
    [const [status, file] = line.split('\t')]: [file] is [undefined] when
    the line has no tab. *)
Record ChangeRecord : Type := { status : string; file : jsval }.

Definition parse_change (line : string) : ChangeRecord :=
  match split TAB line with
  | s :: f :: _ => {| status := s; file := JStr f |}
  | s :: [] => {| status := s; file := JUndefined |}
  | [] => {| status := EmptyString; file := JUndefined |}
  end.

(** [f.file.endsWith('.md') || f.file.toLowerCase().includes('readme')] *)
Definition is_doc (f : ChangeRecord) : result bool :=
  (let* p := receiver (file f) "f.file" "endsWith" in
   Ok (endsWith p ".md" || includes (toLowerCase p) "readme"))%res.

(** [f.file.includes('test') || f.file.includes('spec')] *)
Definition is_test (f : ChangeRecord) : result bool :=
  (let* p := receiver (file f) "f.file" "includes" in
   Ok (includes p "test" || includes p "spec"))%res.

(** [f.file === 'package.json' || f.file === 'package-lock.json'] *)
Definition is_manifest (f : ChangeRecord) : bool :=
  is_string (file f) "package.json" || is_string (file f) "package-lock.json".

(** [f.status.startsWith(letter)] *)
Definition has_status (letter : string) (f : ChangeRecord) : bool :=
  startsWith (status f) letter.

(** [files.filter(f => f.status.startsWith(letter))] *)
Definition with_status (letter : string) (files : list ChangeRecord)
  : list ChangeRecord :=
  filter (has_status letter) files.

(** The record carries a path. *)
Definition has_path (f : ChangeRecord) : bool :=
  match file f with
  | JStr _ => true
  | _ => false
  end.

(** [`'${group[0].file}'`] *)
Definition first_file (group : list ChangeRecord) : string :=
  match group with
  | f :: _ => "'" ++ to_str (file f) ++ "'"
  | [] => "'undefined'"
  end.

(** The [if]/[else if] chain that picks [type] and [summary]. *)
Definition classify_chain (files : list ChangeRecord) : result (string * string) :=
  let added := with_status "A" files in
  let modified := with_status "M" files in
  let deleted := with_status "D" files in
  (if (0 <? length added)%nat && (length modified =? 0)%nat
      && (length deleted =? 0)%nat
   then
     Ok ("feat",
         "add " ++ (if (1 <? length added)%nat
                    then of_nat (length added) ++ " new files"
                    else first_file added))
   else
     let* docs := every is_doc files in
     if docs then Ok ("docs", "update documentation")
     else
       let* tests := some is_test files in
       if tests then Ok ("test", "update tests")
       else if (0 <? length modified)%nat then
         Ok ("fix",
             "update " ++ (if (1 <? length modified)%nat
                           then of_nat (length modified) ++ " files"
                           else first_file modified))
       else Ok ("chore", "update project structure"))%res.

(** The classifier: the chain, then the dependency-manifest override. *)
Definition classify (files : list ChangeRecord) : result (string * string) :=
  (let* chosen := classify_chain files in
   if existsb is_manifest files
   then Ok ("chore", "update dependencies or project config")
   else Ok chosen)%res.

(** [`- ${f.status}: ${f.file}`] joined by newlines. *)
Definition change_list (files : list ChangeRecord) : string :=
  join nl (map (fun f => "- " ++ status f ++ ": " ++ to_str (file f)) files).

(** *** The blame parser *)

Definition table_header : string :=
  "| Line | Commit   | Author        | Date       | Content                  |".
Definition table_separator : string :=
  "|------|----------|---------------|------------|--------------------------|".

(** One row of the table; every field but [hash] is the receiver of a
    string method, so an absent one throws. *)
Definition render_row (l : jsval) : result string :=
  (let* line := get l "line" in
   let* line := receiver line "l.line" "padEnd" in
   let* hash := get l "hash" in
   let* author := get l "author" in
   let* author := receiver author "l.author" "padEnd" in
   let* date := get l "date" in
   let* date := receiver date "l.date" "padEnd" in
   let* text := get l "content" in
   let* text := receiver text "l.content" "replace" in
   Ok ("| " ++ padEnd 4 line ++ " | " ++ to_str hash ++ " | "
       ++ substringTo 13 (padEnd 13 author) ++ " | " ++ padEnd 10 date
       ++ " | " ++ backtick ++ escape_bars text ++ backtick ++ " |"))%res.

Section Handlers.
Variable h : Host.

(** The loop state: [currentCommitInfo] and [blameLines]. *)
Definition blame_state : Type := (list (string * jsval) * list jsval)%type.

Definition blame_step (st : blame_state) (line : string) : blame_state :=
  let '(currentCommitInfo, blameLines) := st in
  if matches_hex40 line then
    let parts := split SPACE line in
    ([("hash", JStr (substringTo 8 (hd EmptyString parts)));
      ("line", nth 2 (map JStr parts) JUndefined)],
     blameLines)
  else if startsWith line "author " then
    (set_prop currentCommitInfo "author" (JStr (substringFrom 7 line)), blameLines)
  else if startsWith line "author-time " then
    let timestamp := parseInt (substringFrom 12 line) in
    (set_prop currentCommitInfo "date"
       (JStr (locale_date h (option_map (fun t => t * 1000)%Z timestamp))),
     blameLines)
  else if startsWith line tab then
    (currentCommitInfo,
     (blameLines
        ++ [JObj (set_prop currentCommitInfo "content"
                    (JStr (substringFrom 1 line)))])%list)
  else st.

(** The parse loop over [stdout.split("\n")], starting from
    [currentCommitInfo = {}] and [blameLines = []]. *)
Definition parse_lines (lines : list string) : list jsval :=
  snd (fold_left blame_step lines ([], [])).

Definition parse_blame (stdout : string) : list jsval :=
  parse_lines (split LF stdout).

(** *** The tool bodies *)

(** [`git -C "${args.repoPath}"`] *)
Definition git_c (repoPath : jsval) : string :=
  "git -C " ++ quoted (to_str repoPath).

Definition pretty_format : string :=
  "--pretty=format:" ++ quoted "%h | %an | %ar | %s".

Definition git_status (args : jsval) : outcome :=
  let* repoPath := get args "repoPath" in
  let* (stdout, _) := exec_line h (git_c repoPath ++ " status --porcelain -b") in
  let* (statusLong, _) := exec_line h (git_c repoPath ++ " status") in
  Returned (ok ("Short status:" ++ nl ++ stdout ++ nl ++ nl
                ++ "Detailed status:" ++ nl ++ statusLong)).

Definition git_log (args : jsval) : outcome :=
  let* limit := get args "limit" in
  let limit := or_else limit (JNum 10) in
  let* branch := get args "branch" in
  let branch := or_else branch (JStr EmptyString) in
  let* repoPath := get args "repoPath" in
  let* (stdout, _) :=
    exec_line h (git_c repoPath ++ " log " ++ to_str branch
                 ++ " --oneline --decorate -n " ++ to_str limit ++ " "
                 ++ pretty_format) in
  Returned (ok ("Recent commits:" ++ nl ++ stdout)).

Definition git_diff (args : jsval) : outcome :=
  let* repoPath := get args "repoPath" in
  let command := git_c repoPath ++ " diff" in
  let* staged := get args "staged" in
  let command := if truthy staged then command ++ " --staged" else command in
  let* commit1 := get args "commit1" in
  let* commit2 := get args "commit2" in
  let command :=
    if truthy commit1 && truthy commit2
    then git_c repoPath ++ " diff " ++ to_str commit1 ++ " " ++ to_str commit2
    else command in
  let* path := get args "file" in
  let command :=
    if truthy path then command ++ " -- " ++ quoted (to_str path) else command in
  let* (stdout, _) := exec_line h command in
  Returned (ok (if String.eqb stdout EmptyString then "No changes found" else stdout)).

Definition git_branches (args : jsval) : outcome :=
  let* remote := get args "remote" in
  let flag := if truthy remote then "-a" else EmptyString in
  let* repoPath := get args "repoPath" in
  let* (stdout, _) :=
    exec_line h (git_c repoPath ++ " branch " ++ flag ++ " -v") in
  Returned (ok ("Branches:" ++ nl ++ stdout)).

Definition generate_commit_message (args : jsval) : outcome :=
  let* repoPath := get args "repoPath" in
  let* (diff, _) :=
    exec_line h (git_c repoPath ++ " diff --staged --name-status") in
  if String.eqb diff EmptyString then
    Returned (ok "No staged changes to create a commit message from.")
  else
    let files := map parse_change (split LF (trim diff)) in
    let* (type, summary) := classify files in
    let commitMessage := type ++ ": " ++ summary in
    let body := nl ++ nl ++ "Changes:" ++ nl ++ change_list files in
    Returned (ok ("Suggested commit message:" ++ nl ++ nl ++ commitMessage ++ body)).

(** [`git -C "${args.repoPath}" blame "${args.file}" --line-porcelain`] *)
Definition blame_command (repoPath path : jsval) : string :=
  git_c repoPath ++ " blame " ++ quoted (to_str path) ++ " --line-porcelain".

Definition git_blame (args : jsval) : outcome :=
  let* repoPath := get args "repoPath" in
  let* path := get args "file" in
  let* (stdout, _) := exec_line h (blame_command repoPath path) in
  let blameLines := parse_blame stdout in
  let* rows := traverse render_row blameLines in
  Returned (ok ("Blame for " ++ to_str path ++ ":" ++ nl ++ nl ++ table_header
                ++ nl ++ table_separator ++ nl ++ join nl rows)).

Definition git_search_commits (args : jsval) : outcome :=
  let* repoPath := get args "repoPath" in
  let command := git_c repoPath ++ " log --all " ++ pretty_format in
  let* searchType := get args "searchType" in
  let* query := get args "query" in
  let command :=
    if is_string searchType "message"
    then command ++ " --grep=" ++ quoted (to_str query)
    else if is_string searchType "author"
    then command ++ " --author=" ++ quoted (to_str query)
    else if is_string searchType "content"
    then command ++ " -S" ++ quoted (to_str query)
    else command in
  let* (stdout, _) := exec_line h command in
  Returned (ok (if String.eqb stdout EmptyString
                then "No commits found matching " ++ quoted (to_str query)
                else stdout)).

(** [n > 0] after ToNumber. *)
Definition positive (v : jsval) : bool :=
  match to_number h v with
  | Some n => (0 <? n)%Z
  | None => false
  end.

(** The command line of [git_stage]: the listed files, each between double
    quotes, or [add -A]. *)
Definition stage_command (args : jsval) : result string :=
  (let* files := get args "files" in
   let* listed :=
     if truthy files
     then (let* len := get files "length" in Ok (positive len))
     else Ok false in
   if listed then
     match files with
     | JArr items =>
         let filesToStage := join " " (map (fun f => quoted (to_str f)) items) in
         let* repoPath := get args "repoPath" in
         Ok (git_c repoPath ++ " add " ++ filesToStage)
     | _ => Throw (not_a_function "args.files.map")
     end
   else
     let* repoPath := get args "repoPath" in
     Ok (git_c repoPath ++ " add -A"))%res.

Definition git_stage (args : jsval) : outcome :=
  let* command := stage_command args in
  let* _ := exec_line h command in
  let* repoPath := get args "repoPath" in
  let* (status, _) := exec_line h (git_c repoPath ++ " status --short") in
  Returned (ok ("Staging successful. Current status:" ++ nl ++ status)).

Definition git_commit (args : jsval) : outcome :=
  let* repoPath := get args "repoPath" in
  let* message := get args "message" in
  let* (commitOutput, _) :=
    exec_line h (git_c repoPath ++ " commit -m " ++ quoted (to_str message)) in
  let* (log, _) :=
    exec_line h (git_c repoPath ++ " log -1 --oneline --decorate "
                 ++ pretty_format) in
  Returned (ok ("Commit successful!" ++ nl ++ nl ++ commitOutput ++ nl ++ nl
                ++ "Latest commit:" ++ nl ++ log)).

(** [`git -C "${args.repoPath}" push ${forceFlag} ${remote} ${branch}`.trim()],
    the substitutions converted from left to right. *)
Definition push_command (repoPath remote branch force : jsval) : result string :=
  (let* path := to_string repoPath in
   let* remote := to_string (or_else remote (JStr "origin")) in
   let* branch := to_string (or_else branch (JStr EmptyString)) in
   Ok (trim ("git -C " ++ quoted path ++ " push "
             ++ (if truthy force then "--force" else EmptyString) ++ " "
             ++ remote ++ " " ++ branch)))%res.

Definition git_push (args : jsval) : outcome :=
  let* remote := get args "remote" in
  let* branch := get args "branch" in
  let* force := get args "force" in
  let* repoPath := get args "repoPath" in
  let* command := push_command repoPath remote branch force in
  let* (stdout, stderr) := exec_line h command in
  Returned (ok ("Push command executed." ++ nl ++ nl ++ "STDOUT:" ++ nl ++ stdout
                ++ nl ++ nl ++ "STDERR:" ++ nl ++ stderr)).

(** The clauses of the [switch], in source order. *)
Definition cases : case_table :=
  [ ("git_status", git_status);
    ("git_log", git_log);
    ("git_diff", git_diff);
    ("git_branches", git_branches);
    ("generate_commit_message", generate_commit_message);
    ("git_blame", git_blame);
    ("git_search_commits", git_search_commits);
    ("git_stage", git_stage);
    ("git_commit", git_commit);
    ("git_push", git_push) ].

Definition call_tool (name : string) (args : jsval) : outcome :=
  handle cases name args.

End Handlers.
End GitServer.

(** ** The earlier git server (source file [unnamed/part_002]) *)

Module GitServerEarly.
Import JsString Js HostEnv Dispatch Runner.

Section Handlers.
Variable h : Host.

(** The loop state: [currentCommit], which starts as [null] ([None]), and
    [blameInfo]. *)
Definition blame_state : Type := (option (list (string * jsval)) * list jsval)%type.

(** [{...currentCommit}]: spreading [null] gives no property. *)
Definition spread (currentCommit : option (list (string * jsval)))
  : list (string * jsval) :=
  match currentCommit with
  | Some fields => fields
  | None => []
  end.

(** [currentCommit.key = v]: throws while [currentCommit] is [null]. *)
Definition assign (currentCommit : option (list (string * jsval)))
  (key : string) (v : jsval) : result (option (list (string * jsval))) :=
  match currentCommit with
  | Some fields => Ok (Some (set_prop fields key v))
  | None => Throw (cannot_set "null" key)
  end.

Definition blame_step (st : blame_state) (line : string) : result blame_state :=
  let '(currentCommit, blameInfo) := st in
  (if matches_hex40 line then
     Ok (Some [("hash", JStr (substringTo 8 (hd EmptyString (split SPACE line))))],
         blameInfo)
   else if startsWith line "author " then
     let* c := assign currentCommit "author" (JStr (substringFrom 7 line)) in
     Ok (c, blameInfo)
   else if startsWith line "author-time " then
     let timestamp := parseInt (substringFrom 12 line) in
     let* c := assign currentCommit "date"
                 (JStr (locale_date h (option_map (fun t => t * 1000)%Z timestamp))) in
     Ok (c, blameInfo)
   else if startsWith line tab then
     Ok (currentCommit,
         (blameInfo
            ++ [JObj (set_prop (spread currentCommit) "content"
                        (JStr (substringFrom 1 line)))])%list)
   else Ok st)%res.

(** [for (const line of lines) ...]: the first throw ends the loop. *)
Fixpoint blame_loop (lines : list string) (st : blame_state) : result blame_state :=
  match lines with
  | [] => Ok st
  | line :: rest => bind (blame_step st line) (blame_loop rest)
  end.

Definition parse_lines (lines : list string) : result (list jsval) :=
  bind (blame_loop lines (None, [])) (fun st => Ok (snd st)).

Definition parse_blame (stdout : string) : result (list jsval) :=
  parse_lines (split LF stdout).

Definition git_blame (args : jsval) : outcome :=
  (let* repoPath := get args "repoPath" in
   let* path := get args "file" in
   let* (stdout, _) :=
     exec_line h ("git -C " ++ quoted (to_str repoPath) ++ " blame "
                  ++ quoted (to_str path) ++ " --line-porcelain") in
   let* blameInfo := parse_blame stdout in
   Returned (ok (json_stringify h (JArr blameInfo))))%out.

End Handlers.
End GitServerEarly.

(** ** The dev-tools server (source file [unnamed/part_001]) *)

Module DevTools.
Import JsString Js HostEnv Dispatch Runner.
Local Open Scope outcome_scope.

(** [items.slice(start)] for a relative start [k] ([None] is NaN and
    counts as 0). *)
Definition slice {A : Type} (k : option Z) (items : list A) : list A :=
  let len := Z.of_nat (length items) in
  let k := match k with Some z => z | None => 0%Z end in
  skipn (Z.to_nat (if (k <? 0)%Z then Z.max (len + k) 0 else Z.min k len)) items.

Section Handlers.
Variable h : Host.

Definition streams (stdout stderr : string) : string :=
  "STDOUT:" ++ nl ++ stdout ++ nl ++ nl ++ "STDERR:" ++ nl ++ stderr.

Definition docker_ps (args : jsval) : outcome :=
  let* all := get args "all" in
  let flag := if truthy all then "-a" else EmptyString in
  let* (stdout, _) :=
    exec_line h ("docker ps " ++ flag ++ " --format "
                 ++ quoted "table {{.ID}}\t{{.Names}}\t{{.Status}}\t{{.Image}}\t{{.Ports}}") in
  Returned (ok stdout).

Definition docker_logs (args : jsval) : outcome :=
  let* tail := get args "tail" in
  let tail := or_else tail (JNum 100) in
  let* follow := get args "follow" in
  let followFlag := if truthy follow then "-f" else EmptyString in
  let* container := get args "container" in
  let* (stdout, _) :=
    exec_line h ("docker logs " ++ to_str container ++ " --tail " ++ to_str tail
                 ++ " " ++ followFlag) in
  Returned (ok (if String.eqb stdout EmptyString then "No logs available" else stdout)).

Definition docker_exec (args : jsval) : outcome :=
  let* container := get args "container" in
  let* command := get args "command" in
  let* (stdout, stderr) :=
    exec_line h ("docker exec " ++ to_str container ++ " " ++ to_str command) in
  Returned (ok (streams stdout stderr)).

Definition docker_compose (args : jsval) : outcome :=
  let* projectPath := get args "projectPath" in
  let* action := get args "action" in
  let command :=
    "docker-compose -f " ++ to_str projectPath ++ "/docker-compose.yml "
    ++ to_str action in
  let* service := get args "service" in
  let command :=
    if truthy service then command ++ " " ++ to_str service else command in
  let command := if is_string action "up" then command ++ " -d" else command in
  let* (stdout, stderr) := exec_line h command in
  Returned (ok (stdout ++ nl ++ stderr)).

Definition docker_stats (args : jsval) : outcome :=
  let* container := get args "container" in
  let container := or_else container (JStr EmptyString) in
  let* (stdout, _) :=
    exec_line h ("docker stats " ++ to_str container ++ " --no-stream --format "
                 ++ quoted "table {{.Name}}\t{{.CPUPerc}}\t{{.MemUsage}}\t{{.NetIO}}\t{{.BlockIO}}") in
  Returned (ok stdout).

Definition run_command (args : jsval) : outcome :=
  let* workingDir := get args "workingDir" in
  let options :=
    if truthy workingDir then JObj [("cwd", workingDir)] else JObj [] in
  let* command := get args "command" in
  let* (stdout, stderr) := execAsync h command options in
  Returned (ok (streams stdout stderr)).

Definition monitor_logs (args : jsval) : outcome :=
  let* lines := get args "lines" in
  let lines := or_else lines (JNum 50) in
  try_catch
    (let* logPath := get args "logPath" in
     match read_file h logPath with
     | inr message => Threw message
     | inl content =>
         let logLines := split LF content in
         let recentLines :=
           join nl (slice (option_map Z.opp (to_number h lines)) logLines) in
         Returned (ok ("Last " ++ to_str lines ++ " lines from " ++ to_str logPath
                       ++ ":" ++ nl ++ nl ++ recentLines))
     end)
    (fun message => Returned (failure ("Error reading log file: " ++ message))).

(** Every [${args.port}] converts the same value, so the first of a
    block decides for the others. *)
Definition check_ports (args : jsval) : outcome :=
  try_catch
    (let* port := get args "port" in
     let* port := to_string port in
     let* (stdout, _) :=
       exec_line h ("lsof -i :" ++ port ++ " || netstat -an | grep " ++ port) in
     Returned (ok (if String.eqb stdout EmptyString
                   then "No process found using port " ++ port
                   else stdout)))
    (fun _ =>
       let* port := get args "port" in
       let* port := to_string port in
       Returned (ok ("Port " ++ port ++ " appears to be free"))).

(** [`  ${name}: ${command}`] for every entry of [scripts]. *)
Definition script_list (scripts : jsval) : string :=
  join nl (map (fun entry => "  " ++ fst entry ++ ": " ++ to_str (snd entry))
             (entries scripts)).

(** The block of [case "npm_scripts"]: when [action] is neither ["list"]
    nor ["run"] the [try] ends without [return], and so does the block. *)
Definition npm_scripts (args : jsval) : outcome :=
  let* projectPath := get args "projectPath" in
  let packageJsonPath := to_str projectPath ++ "/package.json" in
  try_catch
    (match read_file h (JStr packageJsonPath) with
     | inr message => Threw message
     | inl source =>
         match json_parse h source with
         | inr message => Threw message
         | inl packageJson =>
             let* action := get args "action" in
             if is_string action "list" then
               let* scripts := get packageJson "scripts" in
               let scripts := or_else scripts (JObj []) in
               Returned (ok ("Available scripts:" ++ nl ++ script_list scripts))
             else if is_string action "run" then
               let* scriptName := get args "scriptName" in
               if negb (truthy scriptName) then
                 Threw "scriptName is required for 'run' action"
               else
                 let* (stdout, stderr) :=
                   execAsync h (JStr ("npm run " ++ to_str scriptName))
                     (JObj [("cwd", projectPath)]) in
                 Returned (ok ("Output from '" ++ to_str scriptName ++ "':"
                               ++ nl ++ nl ++ stdout ++ nl ++ stderr))
             else Completed
         end
     end)
    (fun message => Returned (failure ("Error: " ++ message))).

(** The clauses of the [switch], in source order. *)
Definition cases : case_table :=
  [ ("docker_ps", docker_ps);
    ("docker_logs", docker_logs);
    ("docker_exec", docker_exec);
    ("docker_compose", docker_compose);
    ("docker_stats", docker_stats);
    ("run_command", run_command);
    ("monitor_logs", monitor_logs);
    ("check_ports", check_ports);
    ("npm_scripts", npm_scripts) ].

Definition call_tool (name : string) (args : jsval) : outcome :=
  handle cases name args.

End Handlers.
End DevTools.

(** ** The API-testing server ([api-testing-server.js]) *)

Module ApiTesting.
Import JsString Js HostEnv Dispatch Runner.

(** *** The structural validator *)

(** [schema.required && schema.required.includes(key)] *)
Definition listed_in (required : jsval) (key : string) : result bool :=
  if truthy required then
    match required with
    | JArr items => Ok (existsb (fun item => is_string item key) items)
    | JStr s => Ok (includes s key)
    | _ => Throw (not_a_function "schema.required.includes")
    end
  else Ok false.

(** [path ? `${path}.${key}` : key] *)
Definition current_path (path key : string) : string :=
  if String.eqb path EmptyString then key else path ++ "." ++ key.

Definition missing_required (currentPath : string) : string :=
  "Missing required field: " ++ currentPath.

Definition type_mismatch (currentPath expectedType actualType : string) : string :=
  "Type mismatch at " ++ currentPath ++ ": expected " ++ expectedType
  ++ ", got " ++ actualType.

(** [Array.isArray(value) ? "array" : typeof value] *)
Definition type_tag (value : jsval) : string :=
  if isArray value then "array" else typeof value.

(** [value === undefined] and the type tag, for what [obj[key]] found. *)
Definition absent (value : member) : bool :=
  match value with
  | Own v => is_undefined v
  | Inherited _ => false
  end.

Definition member_tag (value : member) : string :=
  match value with
  | Own v => type_tag v
  | Inherited tag => tag
  end.

Fixpoint for_each {A S : Type} (f : S -> A -> result S) (l : list A) (s : S)
  : result S :=
  match l with
  | [] => Ok s
  | x :: rest => bind (f s x) (for_each f rest)
  end.

Section Validator.
Variable h : Host.

(** One turn of the [for] loop over [Object.entries(schema.properties)];
    [errors] is the array the closure pushes to. *)
Definition check_property (obj schema : jsval) (path : string)
  (errors : list string) (entry : string * jsval) : result (list string) :=
  let '(key, propSchema) := entry in
  (let* value := read h obj key in
   let currentPath := current_path path key in
   let* required := get schema "required" in
   let* listed := listed_in required key in
   if listed && absent value then
     Ok (errors ++ [missing_required currentPath])%list
   else if negb (absent value) then
     let* expectedType := get propSchema "type" in
     let actualType := member_tag value in
     if negb (is_string expectedType actualType) then
       let* expected := to_string expectedType in
       Ok (errors ++ [type_mismatch currentPath expected actualType])%list
     else Ok errors
   else Ok errors)%res.

(** [validateObject(obj, schema, path)], returning the [errors] array as it
    stands after the call. *)
Definition validateObject (obj schema : jsval) (path : string)
  (errors : list string) : result (list string) :=
  (let* type := get schema "type" in
   if is_string type "object" then
     let* properties := get schema "properties" in
     if truthy properties then
       for_each (check_property obj schema path) (entries properties) errors
     else Ok errors
   else Ok errors)%res.

(** The validator as the tool uses it: [errors = []], then
    [validateObject(value, shape)] with the default [path]. *)
Definition validate (value shape : jsval) : result (list string) :=
  validateObject value shape EmptyString [].

End Validator.

(** *** The statistics of [performance_test] *)

(** A number that need not be an integer or finite.  Durations are whole
    milliseconds, so that their sum, their minimum and their maximum are
    exact; [Finite q] with a quotient [q] stands for the result of the
    one division, the double nearest to [q]. *)
Inductive jsnum : Type :=
| Finite (q : Q)
| NaN
| PosInfinity
| NegInfinity.

Record Stats : Type := {
  totalRequests : jsval;
  successfulRequests : nat;
  failedRequests : nat;
  averageTime : jsnum;
  minTime : jsnum;
  maxTime : jsnum;
  times : list Z;
  errors : list string
}.

(** [times.reduce((a, b) => a + b, 0)] *)
Definition total (times : list Z) : Z := fold_left Z.add times 0%Z.

(** [total / times.length]: the quotient, which the division rounds to
    the nearest double; 0/0 is NaN. *)
Definition average (times : list Z) : jsnum :=
  match times with
  | [] => NaN
  | _ :: _ => Finite (Qmake (total times) (Pos.of_nat (length times)))
  end.

(** [Math.min(...times)] and [Math.max(...times)] *)
Definition minimum (times : list Z) : jsnum :=
  match times with
  | [] => PosInfinity
  | d :: rest => Finite (inject_Z (fold_left Z.min rest d))
  end.

Definition maximum (times : list Z) : jsnum :=
  match times with
  | [] => NegInfinity
  | d :: rest => Finite (inject_Z (fold_left Z.max rest d))
  end.



Section Handlers.
Variable h : Host.
(** [JSON.stringify(stats, null, 2)] *)
Variable stringify_stats : Stats -> string.

(** How often [for (let i = 0; i < requests; i++)] runs its body; the
    comparison converts [requests] to a number, which can throw, and is
    false against NaN. *)
Definition iterations (requests : jsval) : result nat :=
  (let* n := to_numeric h requests in
   Ok match n with
      | Some n => Z.to_nat n
      | None => 0
      end)%res.

(** The loop from turn [i] on, with [count] turns left. *)
Fixpoint request_loop (method url body : jsval) (i count : nat)
  (times : list Z) (errors : list string) : list Z * list string :=
  match count with
  | O => (times, errors)
  | S count' =>
      match make_request h i method url body with
      | Responded duration =>
          request_loop method url body (S i) count' (times ++ [duration])%list errors
      | RequestFailed message =>
          request_loop method url body (S i) count' times (errors ++ [message])%list
      end
  end.

Definition performance_stats (args : jsval) : result Stats :=
  (let* requests := get args "requests" in
   let requests := or_else requests (JNum 10) in
   let* count := iterations requests in
   let* method := get args "method" in
   let* url := get args "url" in
   let* body := get args "body" in
   let (times, errors) := request_loop method url body 0 count [] [] in
   Ok {| totalRequests := requests;
         successfulRequests := length times;
         failedRequests := length errors;
         averageTime := average times;
         minTime := minimum times;
         maxTime := maximum times;
         times := times;
         errors := errors |})%res.

Definition performance_test (args : jsval) : outcome :=
  (let* stats := performance_stats args in
   Returned (ok (stringify_stats stats)))%out.

Definition validate_response (args : jsval) : outcome :=
  (let* response := get args "response" in
   let* schema := get args "schema" in
   let* errors := validate h response schema in
   Returned
     (ok (json_stringify h
            (JObj [("valid", JBool (length errors =? 0)%nat);
                   ("errors", JArr (map JStr errors))]))))%out.

End Handlers.
End ApiTesting.

(** ** Synthetic annotated streams *)

Module BlameStream.
Import JsString Js HostEnv.

(** One commit-info block: the header line, the text after the [author ]
    and [author-time ] tags, and the content lines that follow (without
    their leading tab). *)
Record block : Type := {
  header : string;
  author : string;
  author_time : string;
  contents : list string
}.

Definition block_lines (b : block) : list string :=
  header b :: ("author " ++ author b) :: ("author-time " ++ author_time b)
  :: map (String TAB) (contents b).

(** The stream: all lines joined by newlines, with or without a final
    newline. *)
Definition stream (final_newline : bool) (blocks : list block) : string :=
  join nl (flat_map block_lines blocks
           ++ (if final_newline then [EmptyString] else []))%list.

Fixpoint no_newline (s : string) : bool :=
  match s with
  | EmptyString => true
  | String c s' => negb (Ascii.eqb c LF) && no_newline s'
  end.

(** A block is well formed when its header starts with 40 characters of
    [[0-9a-f]] and none of its pieces contains a newline. *)
Definition well_formed (b : block) : bool :=
  matches_hex40 (header b) && no_newline (header b) && no_newline (author b)
  && no_newline (author_time b) && forallb no_newline (contents b).

(** The date string of a block. *)
Definition date_of (h : Host) (b : block) : string :=
  locale_date h (option_map (fun t => t * 1000)%Z (parseInt (author_time b))).

(** The record expected of [git-server.js] for content line [c] of [b]. *)
Definition attributed (h : Host) (b : block) (c : string) : jsval :=
  JObj [("hash", JStr (substringTo 8 (header b)));
        ("line", nth 2 (map JStr (split SPACE (header b))) JUndefined);
        ("author", JStr (author b));
        ("date", JStr (date_of h b));
        ("content", JStr c)].

(** The record expected of the earlier server, which keeps no line number. *)
Definition attributed_early (h : Host) (b : block) (c : string) : jsval :=
  JObj [("hash", JStr (substringTo 8 (header b)));
        ("author", JStr (author b));
        ("date", JStr (date_of h b));
        ("content", JStr c)].

(** A record without any attribution. *)
Definition unattributed (c : string) : jsval := JObj [("content", JStr c)].

(** The lines of a stream before its first commit-info line. *)
Fixpoint before_first_header (lines : list string) : list string :=
  match lines with
  | [] => []
  | l :: rest => if matches_hex40 l then [] else l :: before_first_header rest
  end.

Definition is_tag (l : string) : bool :=
  startsWith l "author " || startsWith l "author-time ".

Definition is_content (l : string) : bool := startsWith l tab.

(** A record without a [line] property. *)
Definition lineless (v : jsval) : Prop :=
  exists fields, v = JObj fields /\ lookup fields "line" = JUndefined.

(** The texts of the content lines among [lines]. *)
Definition content_texts (lines : list string) : list string :=
  map (substringFrom 1) (filter is_content lines).

End BlameStream.

(** ** The validator, in the words of its specification *)

Module ValidatorSpec.
Import JsString Js HostEnv.

Definition nullish (v : jsval) : bool :=
  match v with
  | JUndefined | JNull => true
  | _ => false
  end.

(** The field of [v] named [key]; [undefined] when absent. *)
Definition field (v : jsval) (key : string) : jsval :=
  match get v key with
  | Ok x => x
  | Throw _ => JUndefined
  end.

(** The runtime type tag of a value, ["array"] taking precedence over
    ["object"]. *)
Definition tag (v : jsval) : string :=
  match v with
  | JUndefined => "undefined"
  | JNull => "object"
  | JBool _ => "boolean"
  | JNum _ => "number"
  | JStr _ => "string"
  | JArr _ => "array"
  | JObj _ => "object"
  end.

(** The tag of the field [key] of [value], [None] when the field is
    absent: the value has no such property of its own, or one that is
    [undefined], and inherits none under this name. *)
Definition field_tag (h : Host) (value : jsval) (key : string) : option string :=
  match own value key with
  | Some JUndefined => None
  | Some v => Some (tag v)
  | None => inherited h value key
  end.

(** [shape.required] lists [key]: as an item when it is an array; a
    string lists what it contains. *)
Definition required_key (shape : jsval) (key : string) : bool :=
  match field shape "required" with
  | JArr items => existsb (fun item => is_string item key) items
  | JStr s => negb (String.eqb s EmptyString) && includes s key
  | _ => false
  end.

(** [shape.required] is given and cannot be searched: it is neither an
    array nor a string. *)
Definition unsearchable (required : jsval) : bool :=
  match required with
  | JArr _ | JStr _ => false
  | _ => truthy required
  end.

(** What the validator makes of one declared property: nothing, one
    finding, or a [TypeError] that ends the validation. *)
Inductive verdict : Type :=
| Pass
| Finding (message : string)
| Fault (message : string).

(** A declared property [key], described by [description]:
    - the value must have properties at all, and [shape.required] must be
      searchable;
    - when the field is absent, it is reported missing if it is required,
      and not checked further;
    - when the field is present, its tag is compared with the declared
      type, and a difference is reported with both. *)
Definition property_verdict (h : Host) (value shape : jsval)
  (entry : string * jsval) : verdict :=
  let key := fst entry in
  let description := snd entry in
  if nullish value then Fault (cannot_read (to_str value) key)
  else if unsearchable (field shape "required") then
    Fault (not_a_function "schema.required.includes")
  else
    match field_tag h value key with
    | None =>
        if required_key shape key
        then Finding ("Missing required field: " ++ key)
        else Pass
    | Some actual =>
        if nullish description then Fault (cannot_read (to_str description) "type")
        else if is_string (field description "type") actual then Pass
        else
          match to_string (field description "type") with
          | Ok declared =>
              Finding ("Type mismatch at " ++ key ++ ": expected " ++ declared
                       ++ ", got " ++ actual)
          | Throw message => Fault message
          end
    end.

(** A description that can be consulted: it is there, and its [type] can
    be shown in a message. *)
Definition describable (entry : string * jsval) : bool :=
  negb (nullish (snd entry))
  && match to_string (field (snd entry) "type") with
     | Ok _ => true
     | Throw _ => false
     end.

(** The properties that the shape declares, in the order of their
    enumeration; a shape of another type than ["object"] declares none. *)
Definition declared (shape : jsval) : list (string * jsval) :=
  if is_string (field shape "type") "object" && truthy (field shape "properties")
  then entries (field shape "properties")
  else [].

Definition verdicts (h : Host) (value shape : jsval) : list verdict :=
  map (property_verdict h value shape) (declared shape).

Fixpoint first_fault (l : list verdict) : option string :=
  match l with
  | [] => None
  | Fault message :: _ => Some message
  | _ :: rest => first_fault rest
  end.

Definition reported (v : verdict) : list string :=
  match v with
  | Finding message => [message]
  | _ => []
  end.

(** All findings, property by property. *)
Definition findings (h : Host) (value shape : jsval) : list string :=
  flat_map reported (verdicts h value shape).

(** The validation comes to its end: the shape is there, and no declared
    property ends it by a [TypeError]. *)
Definition returns (h : Host) (value shape : jsval) : bool :=
  negb (nullish shape)
  && match first_fault (verdicts h value shape) with
     | None => true
     | Some _ => false
     end.

(** What the validator answers. *)
Definition outcome (h : Host) (value shape : jsval) : result (list string) :=
  if nullish shape then Throw (cannot_read (to_str shape) "type")
  else
    match first_fault (verdicts h value shape) with
    | Some message => Throw message
    | None => Ok (findings h value shape)
    end.

End ValidatorSpec.

(** ** Concrete hosts and inputs *)

Module Samples.
Import JsString Js HostEnv.

(** The members that every value inherits from [Object.prototype]; the
    methods of the other built-in prototypes are left out. *)
Definition object_prototype (base : jsval) (key : string) : option string :=
  if existsb (String.eqb key)
       ["constructor"; "hasOwnProperty"; "isPrototypeOf";
        "propertyIsEnumerable"; "toLocaleString"; "toString"; "valueOf"]
  then Some "function"
  else None.

(** A host in which every process exits with [code], printing [stdout]
    and [stderr], no file can be read, no string converts to a number, a
    date is shown as its number of milliseconds, and the [i]-th request
    takes [durations[i]] milliseconds. *)
Definition host (code : Z) (stdout stderr : string) (durations : list Z) : Host :=
  {| run_process := fun _ _ => Exited code stdout stderr;
     read_file := fun _ => inr "ENOENT: no such file or directory";
     json_parse := fun _ => inr "Unexpected end of JSON input";
     json_stringify := to_str;
     string_to_number := fun _ => None;
     locale_date := fun ms => match ms with
                              | Some z => of_Z z
                              | None => "Invalid Date"
                              end;
     make_request := fun i _ _ _ =>
                       match nth_error durations i with
                       | Some d => Responded d
                       | None => RequestFailed "fetch failed"
                       end;
     inherited := object_prototype |}.


(** A host whose [package.json] can be read and parsed. *)
Definition project_host : Host :=
  {| run_process := fun _ _ => Exited 0 EmptyString EmptyString;
     read_file := fun _ => inl "{}";
     json_parse := fun _ => inl (JObj []);
     json_stringify := to_str;
     string_to_number := fun _ => None;
     locale_date := fun _ => "1/1/1970";
     make_request := fun _ _ _ _ => RequestFailed "fetch failed";
     inherited := object_prototype |}.

Definition hex40 : string := "0123456789abcdef0123456789abcdef01234567".

Definition blocks : list BlameStream.block :=
  [ {| BlameStream.header := hex40 ++ " 1 1 2";
       BlameStream.author := "Ada";
       BlameStream.author_time := "1700000000";
       BlameStream.contents := ["first line"; "second line"] |};
    {| BlameStream.header := "89abcdef0123456789abcdef0123456789abcdef 3 3 1";
       BlameStream.author := "Grace";
       BlameStream.author_time := "1700000100";
       BlameStream.contents := ["third line"] |} ].

(** [{type: "object", properties: {id: {type: "number"}}, required: ["id"]}] *)
Definition id_shape : jsval :=
  JObj [("type", JStr "object");
        ("properties", JObj [("id", JObj [("type", JStr "number")])]);
        ("required", JArr [JStr "id"])].

End Samples.

(** ** The registries: the names each [ListTools] handler advertises *)

Module Registry.

(** [git-server.js] *)
Definition git_server : list string :=
  ["git_status"; "git_log"; "git_diff"; "git_branches";
   "generate_commit_message"; "git_blame"; "git_search_commits";
   "git_stage"; "git_commit"; "git_push"].

(** The earlier git server *)
Definition early_git_server : list string :=
  ["git_status"; "git_log"; "git_diff"; "git_branches";
   "generate_commit_message"; "git_blame"; "git_search_commits"].

(** The dev-tools server *)
Definition devtools_server : list string :=
  ["docker_ps"; "docker_logs"; "docker_exec"; "docker_compose";
   "docker_stats"; "run_command"; "monitor_logs"; "check_ports";
   "npm_scripts"].

(** [api-testing-server.js] *)
Definition api_testing_server : list string :=
  ["http_request"; "test_endpoint"; "generate_test_cases";
   "performance_test"; "validate_response"].

(** Whether [name] is among [names]. *)
Definition advertises (names : list string) (name : string) : bool :=
  existsb (String.eqb name) names.

End Registry.

(** ** The other tools of the earlier git server *)

Module EarlyGitTools.
Import JsString Js HostEnv Dispatch Runner.
Local Open Scope outcome_scope.

(** [files.filter(f => f.startsWith(prefix)).length] *)
Definition count_prefixed (prefix : string) (files : list string) : nat :=
  length (filter (fun f => startsWith f prefix) files).

(** The [changes] array: one phrase per kind of change that occurs. *)
Definition phrase (verb : string) (count : nat) : list string :=
  if (0 <? count)%nat then [verb ++ " " ++ of_nat count ++ " file(s)"] else [].

Definition change_phrases (files : list string) : list string :=
  (phrase "add" (count_prefixed "A " files)
   ++ phrase "modify" (count_prefixed "M " files)
   ++ phrase "delete" (count_prefixed "D " files))%list.

(** [status.split("\n").filter(Boolean)]: the non-empty lines. *)
Definition status_lines (status : string) : list string :=
  filter (fun l => negb (String.eqb l EmptyString)) (split LF status).

(** [`chore: ${changes.join(", ")}`] *)
Definition suggested_message (status : string) : string :=
  "chore: " ++ join ", " (change_phrases (status_lines status)).

Section Handlers.
Variable h : Host.

Definition generate_commit_message (args : jsval) : outcome :=
  let* repoPath := get args "repoPath" in
  let* (diff, _) :=
    exec_line h ("git -C " ++ quoted (to_str repoPath) ++ " diff --staged") in
  let* (status, _) :=
    exec_line h ("git -C " ++ quoted (to_str repoPath) ++ " status --short") in
  if String.eqb diff EmptyString && String.eqb status EmptyString then
    Returned (ok "No staged changes to commit")
  else
    Returned
      (ok ("Suggested commit message:" ++ nl ++ suggested_message status ++ nl
           ++ nl ++ "Files changed:" ++ nl ++ status ++ nl ++ nl
           ++ "You can customize this message based on the actual changes.")).

(** The clauses of the [switch], in source order; the blocks of
    [git_status], [git_log], [git_diff], [git_branches] and
    [git_search_commits] are those of [git-server.js], word for word. *)
Definition cases : case_table :=
  [ ("git_status", GitServer.git_status h);
    ("git_log", GitServer.git_log h);
    ("git_diff", GitServer.git_diff h);
    ("git_branches", GitServer.git_branches h);
    ("generate_commit_message", generate_commit_message);
    ("git_blame", GitServerEarly.git_blame h);
    ("git_search_commits", GitServer.git_search_commits h) ].

Definition call_tool (name : string) (args : jsval) : outcome :=
  handle cases name args.

End Handlers.
End EarlyGitTools.

(** ** The request tools of the API-testing server *)

Module ApiRequests.
Import JsString Js HostEnv Dispatch Runner.

(** [a === b] on values that come from different allocations: arrays and
    objects are equal only to themselves, so never here. *)
Definition strict_equal (a b : jsval) : bool :=
  match a, b with
  | JUndefined, JUndefined => true
  | JNull, JNull => true
  | JBool x, JBool y => Bool.eqb x y
  | JNum x, JNum y => (x =? y)%Z
  | JStr x, JStr y => String.eqb x y
  | _, _ => false
  end.

(** [{"Content-Type": "application/json", ...headers}] *)
Definition request_headers (headers : jsval) : list (string * jsval) :=
  fold_left (fun acc entry => set_prop acc (fst entry) (snd entry))
    (entries headers) [("Content-Type", JStr "application/json")].

(** [/\/\d+/]: a slash followed by at least one digit. *)
Definition is_digit (c : ascii) : bool :=
  let n := nat_of_ascii c in ((48 <=? n) && (n <=? 57))%nat.

Definition starts_with_digit (s : string) : bool :=
  match s with
  | String c _ => is_digit c
  | EmptyString => false
  end.

Fixpoint skip_digits (s : string) : string :=
  match s with
  | EmptyString => EmptyString
  | String c s' => if is_digit c then skip_digits s' else s
  end.

(** [endpoint.replace(/\/\d+/, "/999999")]: the first slash that digits
    follow is replaced, together with all of those digits. *)
Fixpoint replace_numeric_segment (endpoint : string) : string :=
  match endpoint with
  | EmptyString => EmptyString
  | String c rest =>
      if Ascii.eqb c "/"%char && starts_with_digit rest
      then "/999999" ++ skip_digits rest
      else String c (replace_numeric_segment rest)
  end.

(** Somewhere in [s] a slash is followed by a digit. *)
Fixpoint has_numeric_segment (s : string) : bool :=
  match s with
  | EmptyString => false
  | String c rest =>
      (Ascii.eqb c "/"%char && starts_with_digit rest) || has_numeric_segment rest
  end.

Fixpoint all_digits (s : string) : bool :=
  match s with
  | EmptyString => true
  | String c rest => is_digit c && all_digits rest
  end.

(** [for (const x of v)]: arrays and strings can be iterated. *)
Definition iterate (v : jsval) (expr : string) : result (list jsval) :=
  match v with
  | JArr items => Ok items
  | JStr s => Ok (chars s)
  | _ => Throw (expr ++ " is not iterable")
  end.

(** [try { r } catch (error) { handler(error.message) }] on expressions. *)
Definition catch {A : Type} (r : result A) (handler : string -> result A)
  : result A :=
  match r with
  | Throw m => handler m
  | value => value
  end.

(** [results.filter(r => r.passed).length] and its negation. *)
Definition passed_flag (r : jsval) : bool :=
  match r with
  | JObj fields => truthy (lookup fields "passed")
  | _ => false
  end.

Definition count_passed (results : list jsval) : nat :=
  length (filter passed_flag results).

Definition count_failed (results : list jsval) : nat :=
  length (filter (fun r => negb (passed_flag r)) results).

Section Handlers.
Variable h : Host.
(** [JSON.stringify(v)] *)
Variable stringify : jsval -> string.
(** The [i]-th [makeRequest(method, url, headers, body, timeout)] of an
    invocation: the record it resolves with, or the message of the error
    it rejects with. *)
Variable request : nat -> jsval -> jsval -> jsval -> jsval -> jsval -> jsval + string.
(** [JSON.stringify(stats, null, 2)] *)
Variable stringify_stats : ApiTesting.Stats -> string.

(** The [options] that [makeRequest] hands to [fetch], before the abort
    signal is added. *)
Definition request_options (method headers body : jsval) : jsval :=
  let options :=
    [("method", method); ("headers", JObj (request_headers headers))] in
  if truthy body && negb (is_string method "GET") then
    JObj (options
          ++ [("body", JStr (match body with
                             | JStr s => s
                             | _ => stringify body
                             end))])%list
  else JObj options.

Definition http_request (args : jsval) : outcome :=
  (let* method := get args "method" in
   let* url := get args "url" in
   let* headers := get args "headers" in
   let* body := get args "body" in
   let* timeout := get args "timeout" in
   match request 0 method url headers body timeout with
   | inr message => Threw message
   | inl result => Returned (ok (json_stringify h result))
   end)%out.

(** One turn of the loop of [test_endpoint]: the entry pushed to
    [results], from the [try] block or from its [catch]. *)
Definition run_test (i : nat) (baseUrl endpoint test : jsval) : result jsval :=
  catch
    (let* base := to_string baseUrl in
     let* path := to_string endpoint in
     let url := base ++ path in
     let* method := get test "method" in
     let* body := get test "body" in
     match request i method (JStr url) (JObj []) body JUndefined with
     | inr message => Throw message
     | inl result =>
         let* actual := get result "status" in
         let* expected := get test "expectedStatus" in
         let passed := strict_equal actual expected in
         let* name := get test "name" in
         let* duration := get result "duration" in
         let* response := get result "body" in
         Ok (JObj [("name", name); ("passed", JBool passed);
                   ("expected", expected); ("actual", actual);
                   ("duration", duration); ("response", response)])
     end)%res
    (fun message =>
       (let* name := get test "name" in
        Ok (JObj [("name", name); ("passed", JBool false);
                  ("error", JStr message)]))%res).

Fixpoint run_tests (i : nat) (baseUrl endpoint : jsval) (tests : list jsval)
  : result (list jsval) :=
  match tests with
  | [] => Ok []
  | test :: rest =>
      (let* entry := run_test i baseUrl endpoint test in
       let* entries := run_tests (S i) baseUrl endpoint rest in
       Ok (entry :: entries))%res
  end.

Definition test_summary (results : list jsval) : jsval :=
  JObj [("total", JNum (Z.of_nat (length results)));
        ("passed", JNum (Z.of_nat (count_passed results)));
        ("failed", JNum (Z.of_nat (count_failed results)));
        ("results", JArr results)].

Definition test_endpoint (args : jsval) : outcome :=
  (let* tests := get args "tests" in
   let* tests := iterate tests "args.tests" in
   let* baseUrl := get args "baseUrl" in
   let* endpoint := get args "endpoint" in
   let* results := run_tests 0 baseUrl endpoint tests in
   Returned (ok (json_stringify h (test_summary results))))%out.

(** The [testCases] array of [generate_test_cases] for a string
    [endpoint]; [title] is [`${args.method} ${args.endpoint}`]. *)
Definition test_cases (method endpoint requestSchema : jsval)
  (title path : string) : list jsval :=
  let success :=
    JObj [("name", JStr (title ++ " - Success"));
          ("description", JStr "Test successful request with valid data");
          ("method", method);
          ("endpoint", endpoint);
          ("expectedStatus", JNum (if is_string method "POST" then 201 else 200));
          ("body", if truthy requestSchema
                   then JStr "// Valid request body based on schema"
                   else JNull)] in
  let invalid_body :=
    JObj [("name", JStr (title ++ " - Invalid Body"));
          ("description", JStr "Test with invalid request body");
          ("method", method);
          ("endpoint", endpoint);
          ("expectedStatus", JNum 400);
          ("body", JStr "{}")] in
  let not_found :=
    JObj [("name", JStr (title ++ " - Not Found"));
          ("description", JStr "Test with non-existent resource");
          ("method", method);
          ("endpoint", JStr (replace_numeric_segment path));
          ("expectedStatus", JNum 404)] in
  let unauthorized :=
    JObj [("name", JStr (title ++ " - Unauthorized"));
          ("description", JStr "Test without authentication");
          ("method", method);
          ("endpoint", endpoint);
          ("expectedStatus", JNum 401);
          ("headers", JObj [])] in
  (success :: (if negb (is_string method "GET") then [invalid_body] else [])
   ++ [not_found; unauthorized])%list.

(** The names are built by templates, which convert [args.method] and
    [args.endpoint] to strings, the first of them before anything else
    is done. *)
Definition generate_test_cases (args : jsval) : outcome :=
  (let* method := get args "method" in
   let* shown_method := to_string method in
   let* endpoint := get args "endpoint" in
   let* shown_endpoint := to_string endpoint in
   let* requestSchema := get args "requestSchema" in
   let* path := receiver endpoint "args.endpoint" "replace" in
   Returned
     (ok (json_stringify h
            (JObj [("testCases",
                    JArr (test_cases method endpoint requestSchema
                            (shown_method ++ " " ++ shown_endpoint) path))]))))%out.

(** The clauses of the [switch], in source order. *)
Definition cases : case_table :=
  [ ("http_request", http_request);
    ("test_endpoint", test_endpoint);
    ("generate_test_cases", generate_test_cases);
    ("performance_test", ApiTesting.performance_test h stringify_stats);
    ("validate_response", ApiTesting.validate_response h) ].

Definition call_tool (name : string) (args : jsval) : outcome :=
  handle cases name args.

End Handlers.
End ApiRequests.

(** ** What [test_endpoint] records for a scenario *)

Module ScenarioSpec.
Import JsString Js.

(** A scenario whose request could not be made or was rejected. *)
Definition failed (test : jsval) (message : string) : jsval :=
  JObj [("name", ValidatorSpec.field test "name");
        ("passed", JBool false);
        ("error", JStr message)].

(** A scenario whose request got the response [result]: it passed when
    the status is the expected one. *)
Definition answered (test result : jsval) : jsval :=
  JObj [("name", ValidatorSpec.field test "name");
        ("passed",
         JBool (ApiRequests.strict_equal (ValidatorSpec.field result "status")
                  (ValidatorSpec.field test "expectedStatus")));
        ("expected", ValidatorSpec.field test "expectedStatus");
        ("actual", ValidatorSpec.field result "status");
        ("duration", ValidatorSpec.field result "duration");
        ("response", ValidatorSpec.field result "body")].

(** The entry for scenario number [i]: the request goes to the address
    made of [baseUrl] and [endpoint], without headers and with the
    method and body of the scenario. *)
Definition recorded
  (request : nat -> jsval -> jsval -> jsval -> jsval -> jsval -> jsval + string)
  (baseUrl endpoint : jsval) (numbered : nat * jsval) : jsval :=
  let (i, test) := numbered in
  match to_string baseUrl, to_string endpoint with
  | Throw message, _ => failed test message
  | Ok _, Throw message => failed test message
  | Ok base, Ok path =>
      match request i (ValidatorSpec.field test "method") (JStr (base ++ path))
              (JObj []) (ValidatorSpec.field test "body") JUndefined with
      | inr message => failed test message
      | inl result =>
          if ValidatorSpec.nullish result
          then failed test (cannot_read (to_str result) "status")
          else answered test result
      end
  end.

(** The scenarios with their numbers, from [i] on. *)
Definition numbered (i : nat) (tests : list jsval) : list (nat * jsval) :=
  combine (seq i (length tests)) tests.

End ScenarioSpec.

(** ** The database server ([database-server.js]) *)

Module Database.
Import JsString Js HostEnv Dispatch Runner.

(** [s.replace(/[-:]/g, "")] *)
Fixpoint remove_dashes_colons (s : string) : string :=
  match s with
  | EmptyString => EmptyString
  | String c s' =>
      if Ascii.eqb c "-"%char || Ascii.eqb c ":"%char
      then remove_dashes_colons s'
      else String c (remove_dashes_colons s')
  end.

(** [iso.replace(/[-:]/g, "").split(".")[0]] *)
Definition migration_timestamp (iso : string) : string :=
  hd EmptyString (split "."%char (remove_dashes_colons iso)).

(** [s.replace(/\s+/g, "_")]: every run of white space becomes one
    underscore; [in_run] tells that the previous character was white
    space. *)
Fixpoint underscore_runs (in_run : bool) (s : string) : string :=
  match s with
  | EmptyString => EmptyString
  | String c s' =>
      if is_space c then
        if in_run then underscore_runs true s'
        else String "_"%char (underscore_runs true s')
      else String c (underscore_runs false s')
  end.

(** [description.toLowerCase().replace(/\s+/g, "_")] *)
Definition migration_name (description : string) : string :=
  underscore_runs false (toLowerCase description).

(** Every character of [s] satisfies [p]. *)
Fixpoint all_chars (p : ascii -> bool) (s : string) : bool :=
  match s with
  | EmptyString => true
  | String c s' => p c && all_chars p s'
  end.

(** A character of the ASCII range, on which [toLowerCase] and the class
    [\s] of the language are those of the model. *)
Definition ascii_char (c : ascii) : bool := (nat_of_ascii c <? 128)%nat.

(** Neither white space nor a capital letter. *)
Definition name_char (c : ascii) : bool :=
  negb (is_space c) && Ascii.eqb (lower_char c) c.

Definition migration_template (description created dbType : string) : string :=
  "-- Migration: " ++ description ++ nl
  ++ "-- Created: " ++ created ++ nl
  ++ "-- Database: " ++ dbType ++ nl ++ nl
  ++ "-- Up Migration" ++ nl ++ "BEGIN;" ++ nl ++ nl
  ++ "-- Add your migration SQL here" ++ nl ++ nl ++ "COMMIT;" ++ nl ++ nl
  ++ "-- Down Migration (Rollback)" ++ nl ++ "BEGIN;" ++ nl ++ nl
  ++ "-- Add your rollback SQL here" ++ nl ++ nl ++ "COMMIT;" ++ nl.

Section Handlers.
Variable h : Host.
(** The [k]-th [new Date().toISOString()] of an invocation. *)
Variable now_iso : nat -> string.
Definition migration_file_name (description : string) : string :=
  migration_timestamp (now_iso 0) ++ "_" ++ migration_name description ++ ".sql".

Definition generate_migration (args : jsval) : outcome :=
  (let* description := get args "description" in
   let* text := receiver description "args.description" "toLowerCase" in
   let* dbType := get args "dbType" in
   let* dbType := to_string dbType in
   Returned
     (ok ("Migration file generated: " ++ migration_file_name text ++ nl ++ nl
          ++ migration_template text (now_iso 1) dbType)))%out.

End Handlers.
End Database.

(** ** The blame table and the classifier, in their own words *)

Module BlameTable.
Import JsString Js HostEnv BlameStream.

(** The header of [b] has a third token, the line number. *)
Definition has_line_token (b : block) : bool :=
  (2 <? length (split SPACE (header b)))%nat.

(** The table row expected for content line [c] of block [b]. *)
Definition row (h : Host) (b : block) (c : string) : string :=
  "| " ++ padEnd 4 (nth 2 (split SPACE (header b)) EmptyString) ++ " | "
  ++ substringTo 8 (header b) ++ " | "
  ++ substringTo 13 (padEnd 13 (author b)) ++ " | "
  ++ padEnd 10 (date_of h b) ++ " | "
  ++ backtick ++ escape_bars c ++ backtick ++ " |".

(** A string, or nothing at all. *)
Definition stringly (v : jsval) : bool :=
  match v with
  | JStr _ | JUndefined => true
  | _ => false
  end.

(** Every property of the running attribution is a string or absent. *)
Definition stringly_fields (fields : list (string * jsval)) : Prop :=
  forall k, stringly (lookup fields k) = true.

(** What the parser emits: objects with a string [content] and otherwise
    string or absent properties. *)
Definition parsed_record (r : jsval) : Prop :=
  exists fields,
    r = JObj fields /\ stringly_fields fields
    /\ exists c, lookup fields "content" = JStr c.

(** The [content] of a record. *)
Definition content_of (r : jsval) : jsval :=
  match r with
  | JObj fields => lookup fields "content"
  | _ => JUndefined
  end.

End BlameTable.

Module ClassifierRules.
Import JsString Js GitServer.

Definition path_of (f : ChangeRecord) : string :=
  match file f with
  | JStr p => p
  | _ => EmptyString
  end.

(** A documentation-like name: [.md] suffix, or "readme" in any case. *)
Definition doc_like (f : ChangeRecord) : bool :=
  endsWith (path_of f) ".md" || includes (toLowerCase (path_of f)) "readme".

Definition test_like (f : ChangeRecord) : bool :=
  includes (path_of f) "test" || includes (path_of f) "spec".

(** [N things], or the quoted path of the only one. *)
Definition count_or_path (noun : string) (group : list ChangeRecord) : string :=
  match group with
  | [f] => "'" ++ path_of f ++ "'"
  | _ => of_nat (length group) ++ noun
  end.

(** The decision policy as a list of rules, the override first. *)
Definition rules (files : list ChangeRecord) : string * string :=
  if existsb is_manifest files then
    ("chore", "update dependencies or project config")
  else if existsb (has_status "A") files
          && negb (existsb (has_status "M") files)
          && negb (existsb (has_status "D") files) then
    ("feat", "add " ++ count_or_path " new files" (with_status "A" files))
  else if forallb doc_like files then ("docs", "update documentation")
  else if existsb test_like files then ("test", "update tests")
  else if existsb (has_status "M") files then
    ("fix", "update " ++ count_or_path " files" (with_status "M" files))
  else ("chore", "update project structure").

(** One line of [git diff --name-status] for a record with a path. *)
Definition name_status_line (f : ChangeRecord) : string :=
  status f ++ String TAB (path_of f).

(** [c] does not occur in [s]. *)
Fixpoint lacks (c : ascii) (s : string) : bool :=
  match s with
  | EmptyString => true
  | String d s' => negb (Ascii.eqb d c) && lacks c s'
  end.

(** A record that [git diff --name-status] can print on one line and that
    is read back as it was. *)
Definition printable (f : ChangeRecord) : bool :=
  has_path f && lacks TAB (status f) && lacks LF (status f)
  && lacks TAB (path_of f) && lacks LF (path_of f).

(** The listing of [files], one line each, without the final newline. *)
Definition listing (files : list ChangeRecord) : string :=
  join nl (map name_status_line files).

(** [s] starts, respectively ends, with a character that is not white
    space. *)
Definition starts_clean (s : string) : bool :=
  match s with
  | String c _ => negb (is_space c)
  | EmptyString => false
  end.

Fixpoint ends_clean (s : string) : bool :=
  match s with
  | EmptyString => false
  | String c EmptyString => negb (is_space c)
  | String _ s' => ends_clean s'
  end.

End ClassifierRules.

(** ** What the requests of one [performance_test] gave *)

Module PerformanceSpec.
Import Js HostEnv.

(** The outcomes of the requests numbered [0] to [count - 1]. *)
Definition outcomes (h : Host) (method url body : jsval) (count : nat)
  : list request_outcome :=
  map (fun i => make_request h i method url body) (seq 0 count).

(** The durations of the requests that got a response, in order. *)
Fixpoint durations_of (l : list request_outcome) : list Z :=
  match l with
  | [] => []
  | Responded d :: rest => d :: durations_of rest
  | RequestFailed _ :: rest => durations_of rest
  end.

(** The messages of the requests that failed, in order. *)
Fixpoint messages_of (l : list request_outcome) : list string :=
  match l with
  | [] => []
  | Responded _ :: rest => messages_of rest
  | RequestFailed m :: rest => m :: messages_of rest
  end.

End PerformanceSpec.

(** * Properties *)

Import JsString Js HostEnv Dispatch Runner.

(** ** Strings *)

Lemma split_nonempty (sep : ascii) (s : string) : split sep s <> [].
Proof.
  destruct s as [|c s]; simpl; [discriminate|].
  destruct (Ascii.eqb c sep); [discriminate|].
  destruct (split sep s); discriminate.
Qed.

Lemma split_no_sep (s : string) :
  BlameStream.no_newline s = true -> split LF s = [s].
Proof.
  induction s as [|c s IH]; simpl; [reflexivity|].
  intros H. apply andb_true_iff in H as [Hc Hs].
  apply negb_true_iff in Hc. rewrite Hc, (IH Hs). reflexivity.
Qed.

Lemma split_append_line (s t : string) :
  BlameStream.no_newline s = true ->
  split LF (s ++ String LF t) = s :: split LF t.
Proof.
  induction s as [|c s IH]; simpl; intros H.
  - reflexivity.
  - apply andb_true_iff in H as [Hc Hs].
    apply negb_true_iff in Hc. rewrite Hc, (IH Hs). reflexivity.
Qed.

(** Splitting undoes joining when no line holds a newline. *)
Lemma split_join (lines : list string) :
  lines <> [] ->
  forallb BlameStream.no_newline lines = true ->
  split LF (join nl lines) = lines.
Proof.
  induction lines as [|l rest IH]; [congruence|].
  intros _ H. simpl in H. apply andb_true_iff in H as [Hl Hrest].
  destruct rest as [|l' rest'].
  - simpl. apply split_no_sep, Hl.
  - change (join nl (l :: l' :: rest'))
      with (l ++ String LF (join nl (l' :: rest'))).
    rewrite split_append_line by exact Hl.
    rewrite IH; [reflexivity|discriminate|exact Hrest].
Qed.

Lemma hex_is_not_space (c : ascii) :
  is_hex_lower c = true -> Ascii.eqb c SPACE = false.
Proof.
  intros H. destruct (Ascii.eqb_spec c SPACE) as [->|]; [|reflexivity].
  discriminate H.
Qed.

(** The piece before the first space keeps every leading hex character. *)
Lemma first_piece_leading (n k : nat) (s : string) :
  leading is_hex_lower n s = true -> k <= n ->
  substringTo k (hd EmptyString (split SPACE s)) = substringTo k s.
Proof.
  revert k s. induction n as [|n IH]; intros k s H Hk.
  - assert (k = 0) as -> by lia. destruct (hd _ _), s; reflexivity.
  - destruct s as [|c s]; [discriminate H|].
    simpl in H. apply andb_true_iff in H as [Hc Hs].
    destruct k as [|k]; [destruct (hd _ _); reflexivity|].
    simpl. rewrite (hex_is_not_space _ Hc).
    specialize (IH k s Hs ltac:(lia)).
    destruct (split SPACE s) as [|p ps] eqn:E.
    + exfalso. exact (split_nonempty _ _ E).
    + simpl in *. now rewrite IH.
Qed.

Lemma short_hash (s : string) :
  matches_hex40 s = true ->
  substringTo 8 (hd EmptyString (split SPACE s)) = substringTo 8 s.
Proof.
  intros H. apply (first_piece_leading 40); [exact H|lia].
Qed.

(** ** The blame parser of [git-server.js] *)

Section GitBlame.
Import BlameStream.
Variable h : Host.

Lemma step_header (l : string) cur out :
  matches_hex40 l = true ->
  GitServer.blame_step h (cur, out) l
  = ([("hash", JStr (substringTo 8 l));
      ("line", nth 2 (map JStr (split SPACE l)) JUndefined)], out).
Proof.
  intros H. unfold GitServer.blame_step. rewrite H, (short_hash _ H). reflexivity.
Qed.

Lemma step_author (a : string) cur out :
  GitServer.blame_step h (cur, out) ("author " ++ a)
  = (set_prop cur "author" (JStr a), out).
Proof. reflexivity. Qed.

Lemma step_author_time (t : string) cur out :
  GitServer.blame_step h (cur, out) ("author-time " ++ t)
  = (set_prop cur "date"
       (JStr (locale_date h (option_map (fun t => t * 1000)%Z (parseInt t)))), out).
Proof. reflexivity. Qed.

Lemma step_content (c : string) cur out :
  GitServer.blame_step h (cur, out) (String TAB c)
  = (cur, (out ++ [JObj (set_prop cur "content" (JStr c))])%list).
Proof. reflexivity. Qed.

(** Content lines leave the current attribution alone and append one
    record each. *)
Lemma fold_blame_contents (cs : list string) cur out :
  fold_left (GitServer.blame_step h) (map (String TAB) cs) (cur, out)
  = (cur, (out ++ map (fun c => JObj (set_prop cur "content" (JStr c))) cs)%list).
Proof.
  revert out. induction cs as [|c cs IH]; intros out.
  - simpl. now rewrite app_nil_r.
  - cbn [map fold_left]. rewrite step_content, IH, <- app_assoc. reflexivity.
Qed.

(** A whole block replaces the attribution and appends its records. *)
Lemma fold_blame_block (b : block) cur out :
  matches_hex40 (header b) = true ->
  exists cur',
    fold_left (GitServer.blame_step h) (block_lines b) (cur, out)
    = (cur', (out ++ map (attributed h b) (contents b))%list).
Proof.
  intros Hh. unfold block_lines. cbn [fold_left].
  rewrite (step_header _ _ _ Hh), step_author, step_author_time.
  rewrite fold_blame_contents. eexists. reflexivity.
Qed.

Lemma fold_blame_blocks (blocks : list block) cur out :
  forallb well_formed blocks = true ->
  snd (fold_left (GitServer.blame_step h) (flat_map block_lines blocks) (cur, out))
  = (out ++ flat_map (fun b => map (attributed h b) (contents b)) blocks)%list.
Proof.
  revert cur out. induction blocks as [|b blocks IH]; intros cur out H.
  - simpl. now rewrite app_nil_r.
  - simpl in H. apply andb_true_iff in H as [Hb Hrest].
    cbn [flat_map]. rewrite fold_left_app.
    assert (Hh : matches_hex40 (header b) = true).
    { unfold well_formed in Hb. repeat (apply andb_true_iff in Hb as [Hb _]). exact Hb. }
    destruct (fold_blame_block b cur out Hh) as [cur' ->].
    rewrite IH by exact Hrest. now rewrite app_assoc.
Qed.

End GitBlame.

(** ** The blame parser of the earlier server *)

Section EarlyBlame.
Import BlameStream.
Variable h : Host.

Lemma early_loop_app (l1 l2 : list string) (st : GitServerEarly.blame_state) :
  GitServerEarly.blame_loop h (l1 ++ l2)%list st
  = bind (GitServerEarly.blame_loop h l1 st) (GitServerEarly.blame_loop h l2).
Proof.
  revert st. induction l1 as [|l l1 IH]; intros st; [reflexivity|].
  simpl. destruct (GitServerEarly.blame_step h st l); simpl; [apply IH|reflexivity].
Qed.

Lemma early_step_header (l : string) cur out :
  matches_hex40 l = true ->
  GitServerEarly.blame_step h (cur, out) l
  = Ok (Some [("hash", JStr (substringTo 8 l))], out).
Proof.
  intros H. unfold GitServerEarly.blame_step.
  rewrite H, (short_hash _ H). reflexivity.
Qed.

Lemma early_step_content (c : string) cur out :
  GitServerEarly.blame_step h (cur, out) (String TAB c)
  = Ok (cur, (out ++ [JObj (set_prop (GitServerEarly.spread cur) "content"
                             (JStr c))])%list).
Proof. reflexivity. Qed.

Lemma early_loop_contents (cs : list string) cur out :
  GitServerEarly.blame_loop h (map (String TAB) cs) (cur, out)
  = Ok (cur,
        (out ++ map (fun c => JObj (set_prop (GitServerEarly.spread cur) "content"
                                      (JStr c))) cs)%list).
Proof.
  revert out. induction cs as [|c cs IH]; intros out.
  - simpl. now rewrite app_nil_r.
  - cbn [map GitServerEarly.blame_loop]. rewrite early_step_content.
    cbn [bind]. rewrite IH, <- app_assoc. reflexivity.
Qed.

Lemma early_step_author (a : string) fields out :
  GitServerEarly.blame_step h (Some fields, out) ("author " ++ a)
  = Ok (Some (set_prop fields "author" (JStr a)), out).
Proof. reflexivity. Qed.

Lemma early_step_author_time (t : string) fields out :
  GitServerEarly.blame_step h (Some fields, out) ("author-time " ++ t)
  = Ok (Some (set_prop fields "date"
                (JStr (locale_date h (option_map (fun t => t * 1000)%Z
                                        (parseInt t))))), out).
Proof. reflexivity. Qed.

Lemma early_loop_block (b : block) cur out :
  matches_hex40 (header b) = true ->
  exists cur',
    GitServerEarly.blame_loop h (block_lines b) (cur, out)
    = Ok (cur', (out ++ map (attributed_early h b) (contents b))%list).
Proof.
  intros Hh. unfold block_lines. cbn [GitServerEarly.blame_loop].
  rewrite (early_step_header _ _ _ Hh). cbn [bind].
  rewrite early_step_author. cbn [bind].
  rewrite early_step_author_time. cbn [bind].
  rewrite early_loop_contents. eexists. reflexivity.
Qed.

Lemma early_loop_blocks (blocks : list block) cur out :
  forallb well_formed blocks = true ->
  exists cur',
    GitServerEarly.blame_loop h (flat_map block_lines blocks) (cur, out)
    = Ok (cur',
          (out ++ flat_map (fun b => map (attributed_early h b) (contents b))
                    blocks)%list).
Proof.
  revert cur out. induction blocks as [|b blocks IH]; intros cur out H.
  - simpl. exists cur. now rewrite app_nil_r.
  - simpl in H. apply andb_true_iff in H as [Hb Hrest].
    cbn [flat_map]. rewrite early_loop_app.
    assert (Hh : matches_hex40 (header b) = true).
    { unfold well_formed in Hb. repeat (apply andb_true_iff in Hb as [Hb _]). exact Hb. }
    destruct (early_loop_block b cur out Hh) as [cur1 ->]. cbn [bind].
    destruct (IH cur1 (out ++ map (attributed_early h b) (contents b))%list Hrest)
      as [cur2 ->].
    exists cur2. now rewrite app_assoc.
Qed.

End EarlyBlame.

(** ** Streams built from blocks *)

Section Streams.
Import BlameStream.

Lemma no_newline_block_lines (b : block) :
  well_formed b = true -> forallb no_newline (block_lines b) = true.
Proof.
  unfold well_formed. intros H.
  apply andb_true_iff in H as [H Hc]. apply andb_true_iff in H as [H Ht].
  apply andb_true_iff in H as [H Ha]. apply andb_true_iff in H as [_ Hh].
  unfold block_lines. cbn [forallb]. rewrite Hh.
  change (no_newline ("author " ++ author b)) with (no_newline (author b)).
  change (no_newline ("author-time " ++ author_time b))
    with (no_newline (author_time b)).
  rewrite Ha, Ht. cbn [andb].
  clear -Hc. induction (contents b) as [|c cs IH]; [reflexivity|].
  simpl in Hc. apply andb_true_iff in Hc as [Hc Hcs].
  cbn [map forallb]. change (no_newline (String TAB c)) with (no_newline c).
  now rewrite Hc, IH.
Qed.

Lemma no_newline_stream_lines (blocks : list block) :
  forallb well_formed blocks = true ->
  forallb no_newline (flat_map block_lines blocks) = true.
Proof.
  induction blocks as [|b blocks IH]; [reflexivity|].
  cbn [flat_map forallb]. intros H. apply andb_true_iff in H as [Hb Hrest].
  rewrite forallb_app, (no_newline_block_lines _ Hb), (IH Hrest). reflexivity.
Qed.

(** The lines of a stream: those of its blocks, then what the final
    newline or the empty stream leaves behind, which is one empty line at
    most. *)
Lemma stream_lines (final_newline : bool) (blocks : list block) :
  forallb well_formed blocks = true ->
  exists rest,
    split LF (stream final_newline blocks)
    = (flat_map block_lines blocks ++ rest)%list
    /\ (rest = [] \/ rest = [EmptyString]).
Proof.
  intros H. unfold stream.
  pose proof (no_newline_stream_lines _ H) as Hn.
  destruct final_newline.
  - exists [EmptyString]. split; [|now right].
    apply split_join.
    + destruct (flat_map block_lines blocks); discriminate.
    + rewrite forallb_app, Hn. reflexivity.
  - rewrite app_nil_r.
    destruct (flat_map block_lines blocks) as [|l ls] eqn:E.
    + exists [EmptyString]. split; [reflexivity|now right].
    + exists []. rewrite app_nil_r. split; [|now left].
      apply split_join; [discriminate|exact Hn].
Qed.

End Streams.

(** ** Claims about the blame parser *)

(** C3: a stream of K well-formed commit-info blocks, each followed by its
    content lines, parses into exactly one record per content line, in
    input order, and every record carries the short hash (the first 8
    characters of the header), the author and the formatted date of its
    own block, the nearest one above it.  This holds for the parse loop of
    [git-server.js] and for the loop of the earlier server, with or without
    a final newline; the number of records is the sum of the block sizes. *)
Theorem blame_blocks_attribution
  (h : Host) (final_newline : bool) (blocks : list BlameStream.block) :
  forallb BlameStream.well_formed blocks = true ->
  GitServer.parse_blame h (BlameStream.stream final_newline blocks)
  = flat_map (fun b => map (BlameStream.attributed h b) (BlameStream.contents b))
      blocks
  /\ GitServerEarly.parse_blame h (BlameStream.stream final_newline blocks)
     = Ok (flat_map (fun b => map (BlameStream.attributed_early h b)
                               (BlameStream.contents b)) blocks)
  /\ length (GitServer.parse_blame h (BlameStream.stream final_newline blocks))
     = list_sum (map (fun b => length (BlameStream.contents b)) blocks).
Proof.
  intros H.
  destruct (stream_lines final_newline blocks H) as (rest & Hsplit & Hrest).
  assert (Hgit :
    GitServer.parse_blame h (BlameStream.stream final_newline blocks)
    = flat_map (fun b => map (BlameStream.attributed h b) (BlameStream.contents b))
        blocks).
  { unfold GitServer.parse_blame, GitServer.parse_lines.
    rewrite Hsplit, fold_left_app.
    pose proof (fold_blame_blocks h blocks [] [] H) as Hfold.
    destruct (fold_left (GitServer.blame_step h)
                (flat_map BlameStream.block_lines blocks) ([], [])) as [cur out].
    simpl in Hfold. subst out.
    destruct Hrest as [-> | ->]; reflexivity. }
  split; [exact Hgit|]. split.
  - unfold GitServerEarly.parse_blame, GitServerEarly.parse_lines.
    rewrite Hsplit, early_loop_app.
    destruct (early_loop_blocks h blocks None [] H) as [cur ->].
    destruct Hrest as [-> | ->]; reflexivity.
  - rewrite Hgit. clear. induction blocks as [|b blocks IH]; [reflexivity|].
    cbn [flat_map map list_sum]. now rewrite length_app, length_map, IH.
Qed.

(** Two blocks with two and one content lines, and a final newline:
    three records, the last attributed to the second block. *)
Lemma blame_blocks_attribution_witness :
  GitServer.parse_blame (Samples.host 0 EmptyString EmptyString [])
    (BlameStream.stream true Samples.blocks)
  = [ JObj [("hash", JStr "01234567"); ("line", JStr "1"); ("author", JStr "Ada");
            ("date", JStr "1700000000000"); ("content", JStr "first line")];
      JObj [("hash", JStr "01234567"); ("line", JStr "1"); ("author", JStr "Ada");
            ("date", JStr "1700000000000"); ("content", JStr "second line")];
      JObj [("hash", JStr "89abcdef"); ("line", JStr "3"); ("author", JStr "Grace");
            ("date", JStr "1700000100000"); ("content", JStr "third line")] ]
  /\ length (GitServer.parse_blame (Samples.host 0 EmptyString EmptyString [])
               (BlameStream.stream true Samples.blocks)) = 3.
Proof.
  destruct (blame_blocks_attribution (Samples.host 0 EmptyString EmptyString [])
              true Samples.blocks) as (Hrecords & _ & Hcount).
  - reflexivity.
  - split; [exact Hrecords|exact Hcount].
Defined.

(** ** Content lines ahead of the first commit-info line *)

Section BeforeFirstHeader.
Import BlameStream.
Variable h : Host.

Lemma lines_before_and_after (lines : list string) :
  exists rest,
    lines = (before_first_header lines ++ rest)%list
    /\ (rest = [] \/ exists l rest', rest = l :: rest' /\ matches_hex40 l = true).
Proof.
  induction lines as [|l lines (rest & Heq & Hrest)].
  - exists []. split; [reflexivity|now left].
  - simpl. destruct (matches_hex40 l) eqn:E.
    + exists (l :: lines). split; [reflexivity|]. right. now exists l, lines.
    + exists rest. split; [simpl; congruence|exact Hrest].
Qed.

(** Every step of the [git-server.js] loop only appends to [blameLines]. *)
Lemma blame_step_extends (l : string) cur out :
  exists cur' extra,
    GitServer.blame_step h (cur, out) l = (cur', (out ++ extra)%list).
Proof.
  unfold GitServer.blame_step.
  destruct (matches_hex40 l); [eexists _, []; now rewrite app_nil_r|].
  destruct (startsWith l "author "); [eexists _, []; now rewrite app_nil_r|].
  destruct (startsWith l "author-time "); [eexists _, []; now rewrite app_nil_r|].
  destruct (startsWith l tab); [now eexists _, [_]|].
  eexists _, []; now rewrite app_nil_r.
Qed.

Lemma fold_blame_extends (lines : list string) cur out :
  exists cur' extra,
    fold_left (GitServer.blame_step h) lines (cur, out)
    = (cur', (out ++ extra)%list).
Proof.
  revert cur out. induction lines as [|l lines IH]; intros cur out.
  - exists cur, []. simpl. now rewrite app_nil_r.
  - cbn [fold_left]. destruct (blame_step_extends l cur out) as (cur1 & e1 & ->).
    destruct (IH cur1 (out ++ e1)%list) as (cur2 & e2 & ->).
    exists cur2, (e1 ++ e2)%list. now rewrite app_assoc.
Qed.

(** Before any header and without tag lines the attribution stays empty,
    and each content line yields a record that holds its text only. *)
Lemma fold_blame_unattributed (pre : list string) out :
  forallb (fun l => negb (matches_hex40 l)) pre = true ->
  forallb (fun l => negb (is_tag l)) pre = true ->
  fold_left (GitServer.blame_step h) pre ([], out)
  = ([], (out ++ map unattributed (content_texts pre))%list).
Proof.
  revert out. induction pre as [|l pre IH]; intros out Hh Ht.
  - simpl. now rewrite app_nil_r.
  - simpl in Hh, Ht.
    apply andb_true_iff in Hh as [Hl Hh]. apply andb_true_iff in Ht as [Hl' Ht].
    apply negb_true_iff in Hl, Hl'. unfold is_tag in Hl'.
    apply orb_false_iff in Hl' as [Ha Hat].
    cbn [fold_left]. unfold GitServer.blame_step at 2. rewrite Hl, Ha, Hat.
    unfold content_texts. cbn [filter]. unfold is_content.
    destruct (startsWith l tab).
    + rewrite IH by assumption. cbn [map]. now rewrite <- app_assoc.
    + rewrite IH by assumption. reflexivity.
Qed.

Lemma before_first_header_no_header (lines : list string) :
  forallb (fun l => negb (matches_hex40 l)) (before_first_header lines) = true.
Proof.
  induction lines as [|l lines IH]; [reflexivity|].
  simpl. destruct (matches_hex40 l) eqn:E; [reflexivity|].
  simpl. now rewrite E, IH.
Qed.

(** Once a commit-info line has been seen, the earlier server's loop
    cannot throw any more, and it only appends. *)
Lemma early_loop_total (lines : list string) fields out :
  exists cur' extra,
    GitServerEarly.blame_loop h lines (Some fields, out)
    = Ok (cur', (out ++ extra)%list).
Proof.
  revert fields out. induction lines as [|l lines IH]; intros fields out.
  - eexists _, []. simpl. now rewrite app_nil_r.
  - cbn [GitServerEarly.blame_loop]. unfold GitServerEarly.blame_step.
    destruct (matches_hex40 l).
    { cbn [bind]. destruct (IH [("hash", JStr (substringTo 8 (hd EmptyString (split SPACE l))))] out)
        as (c & e & ->). now exists c, e. }
    destruct (startsWith l "author ").
    { cbn [bind GitServerEarly.assign].
      destruct (IH (set_prop fields "author" (JStr (substringFrom 7 l))) out)
        as (c & e & ->). now exists c, e. }
    destruct (startsWith l "author-time ").
    { cbn [bind GitServerEarly.assign].
      match goal with
      | |- context [GitServerEarly.blame_loop h lines (Some ?f, out)] =>
          destruct (IH f out) as (c & e & ->)
      end. now exists c, e. }
    destruct (startsWith l tab).
    { cbn [bind].
      match goal with
      | |- context [GitServerEarly.blame_loop h lines (Some fields, ?o)] =>
          destruct (IH fields o) as (c & e & ->)
      end. eexists c, (_ ++ e)%list. now rewrite <- app_assoc. }
    cbn [bind]. destruct (IH fields out) as (c & e & ->). now exists c, e.
Qed.

Lemma early_loop_unattributed (pre : list string) out :
  forallb (fun l => negb (matches_hex40 l)) pre = true ->
  forallb (fun l => negb (is_tag l)) pre = true ->
  GitServerEarly.blame_loop h pre (None, out)
  = Ok (None, (out ++ map unattributed (content_texts pre))%list).
Proof.
  revert out. induction pre as [|l pre IH]; intros out Hh Ht.
  - simpl. now rewrite app_nil_r.
  - simpl in Hh, Ht.
    apply andb_true_iff in Hh as [Hl Hh]. apply andb_true_iff in Ht as [Hl' Ht].
    apply negb_true_iff in Hl, Hl'. unfold is_tag in Hl'.
    apply orb_false_iff in Hl' as [Ha Hat].
    cbn [GitServerEarly.blame_loop]. unfold GitServerEarly.blame_step.
    rewrite Hl, Ha, Hat.
    unfold content_texts. cbn [filter]. unfold is_content.
    destruct (startsWith l tab); cbn [bind].
    + rewrite IH by assumption. cbn [map]. now rewrite <- app_assoc.
    + rewrite IH by assumption. reflexivity.
Qed.

End BeforeFirstHeader.

(** C8, amended: when no [author ] or [author-time ] line stands before the
    first commit-info line of the stream, every content line before that
    first commit-info line yields, in input order, a record that holds its
    text and nothing else (hash, author, date and line number are absent,
    no placeholder is made up), and neither parse loop throws on the
    stream. *)
Theorem blame_content_before_any_commit (h : Host) (stdout : string) :
  forallb (fun l => negb (BlameStream.is_tag l))
    (BlameStream.before_first_header (split LF stdout)) = true ->
  (exists rest,
     GitServer.parse_blame h stdout
     = (map BlameStream.unattributed
          (BlameStream.content_texts
             (BlameStream.before_first_header (split LF stdout))) ++ rest)%list)
  /\ (exists rest,
        GitServerEarly.parse_blame h stdout
        = Ok (map BlameStream.unattributed
                (BlameStream.content_texts
                   (BlameStream.before_first_header (split LF stdout)))
              ++ rest)%list).
Proof.
  intros Ht.
  unfold GitServer.parse_blame, GitServer.parse_lines,
    GitServerEarly.parse_blame, GitServerEarly.parse_lines.
  destruct (lines_before_and_after (split LF stdout)) as (rest & Heq & Hrest).
  pose proof (before_first_header_no_header (split LF stdout)) as Hh.
  set (pre := BlameStream.before_first_header (split LF stdout)) in *.
  rewrite Heq. split.
  - rewrite fold_left_app, (fold_blame_unattributed h pre [] Hh Ht).
    destruct (fold_blame_extends h rest []
                ([] ++ map BlameStream.unattributed (BlameStream.content_texts pre))%list)
      as (cur & extra & ->).
    now exists extra.
  - rewrite early_loop_app, (early_loop_unattributed h pre [] Hh Ht). cbn [bind].
    destruct Hrest as [-> | (l & rest' & -> & Hl)].
    + exists []. simpl. now rewrite app_nil_r.
    + cbn [GitServerEarly.blame_loop].
      rewrite (early_step_header h l _ _ Hl). cbn [bind].
      destruct (early_loop_total h rest' [("hash", JStr (substringTo 8 l))]
                  ([] ++ map BlameStream.unattributed
                           (BlameStream.content_texts pre))%list)
        as (cur & extra & ->).
      now exists extra.
Qed.

(** A content line, an ignored line and a second content line ahead of
    the first commit-info line. *)
Lemma blame_content_before_any_commit_witness :
  exists rest,
    GitServer.parse_blame (Samples.host 0 EmptyString EmptyString [])
      (tab ++ "orphan" ++ nl ++ "summary x" ++ nl ++ tab ++ "second" ++ nl
       ++ Samples.hex40 ++ " 1 1 1" ++ nl ++ tab ++ "third")
    = ([BlameStream.unattributed "orphan"; BlameStream.unattributed "second"]
       ++ rest)%list.
Proof.
  destruct (blame_content_before_any_commit
              (Samples.host 0 EmptyString EmptyString [])
              (tab ++ "orphan" ++ nl ++ "summary x" ++ nl ++ tab ++ "second" ++ nl
               ++ Samples.hex40 ++ " 1 1 1" ++ nl ++ tab ++ "third"))
    as [Hgit _].
  - reflexivity.
  - exact Hgit.
Defined.

(** C8 as stated fails when a tag line comes before the content line and
    no commit-info line has been seen yet: [git-server.js] attaches the
    author to the record, and the earlier server throws on the tag line. *)
Lemma tag_before_commit_is_attributed :
  let stdout := "author Bob" ++ nl ++ tab ++ "orphan" in
  BlameStream.before_first_header (split LF stdout) = split LF stdout
  /\ existsb BlameStream.is_content (split LF stdout) = true
  /\ GitServer.parse_blame (Samples.host 0 EmptyString EmptyString []) stdout
     = [JObj [("author", JStr "Bob"); ("content", JStr "orphan")]]
  /\ GitServerEarly.parse_blame (Samples.host 0 EmptyString EmptyString []) stdout
     = Throw "Cannot set properties of null (setting 'author')".
Proof. repeat split. Qed.

(** ** Rendering the blame table *)

Section BlameTable.
Import BlameStream.
Variable h : Host.

Lemma lookup_set_prop_other (fields : list (string * jsval)) (k k' : string) v :
  String.eqb k k' = false ->
  lookup (set_prop fields k v) k' = lookup fields k'.
Proof.
  intros Hk. induction fields as [|[k0 v0] fields IH]; simpl.
  - now rewrite Hk.
  - destruct (String.eqb k0 k) eqn:E0; simpl.
    + apply String.eqb_eq in E0. subst k0. now rewrite Hk.
    + destruct (String.eqb k0 k'); [reflexivity|exact IH].
Qed.

Lemma tag_is_not_content (l p : string) :
  startsWith l (String "a" p) = true -> startsWith l tab = false.
Proof.
  destruct l as [|c l]; cbn [startsWith]; [discriminate|].
  intros H. apply andb_true_iff in H as [H _].
  apply Ascii.eqb_eq in H. subst c. reflexivity.
Qed.

(** Until a commit-info line is seen, no record gets a [line]. *)
Lemma fold_blame_lineless (pre : list string) cur out :
  forallb (fun l => negb (matches_hex40 l)) pre = true ->
  lookup cur "line" = JUndefined ->
  exists cur' recs,
    fold_left (GitServer.blame_step h) pre (cur, out) = (cur', (out ++ recs)%list)
    /\ Forall lineless recs
    /\ length recs = length (filter is_content pre).
Proof.
  revert cur out. induction pre as [|l pre IH]; intros cur out Hh Hcur.
  - exists cur, []. simpl. rewrite app_nil_r. repeat split. constructor.
  - simpl in Hh. apply andb_true_iff in Hh as [Hl Hh]. apply negb_true_iff in Hl.
    cbn [fold_left filter]. unfold GitServer.blame_step at 2. rewrite Hl.
    unfold is_content.
    destruct (startsWith l "author ") eqn:Ea.
    { destruct (IH (set_prop cur "author" (JStr (substringFrom 7 l))) out Hh)
        as (c & r & -> & Hr & Hlen).
      - now rewrite lookup_set_prop_other.
      - exists c, r. repeat split; [exact Hr|].
        now rewrite (tag_is_not_content _ _ Ea). }
    destruct (startsWith l "author-time ") eqn:Eat.
    { match goal with
      | |- context [fold_left _ pre (set_prop cur "date" ?v, out)] =>
          destruct (IH (set_prop cur "date" v) out Hh) as (c & r & -> & Hr & Hlen)
      end.
      - now rewrite lookup_set_prop_other.
      - exists c, r. repeat split; [exact Hr|].
        now rewrite (tag_is_not_content _ _ Eat). }
    destruct (startsWith l tab) eqn:Et.
    { match goal with
      | |- context [fold_left _ pre (cur, (out ++ [?r0])%list)] =>
          destruct (IH cur (out ++ [r0])%list Hh Hcur) as (c & r & -> & Hr & Hlen);
          exists c, (r0 :: r)
      end.
      rewrite <- app_assoc. repeat split.
      - constructor; [|exact Hr]. eexists. split; [reflexivity|].
        now rewrite lookup_set_prop_other.
      - simpl. now rewrite Hlen. }
    destruct (IH cur out Hh Hcur) as (c & r & -> & Hr & Hlen).
    now exists c, r.
Qed.

Lemma render_row_lineless (v : jsval) :
  lineless v -> GitServer.render_row v = Throw (cannot_read "undefined" "padEnd").
Proof.
  intros (fields & -> & Hline). unfold GitServer.render_row.
  cbn [get bind]. rewrite Hline. reflexivity.
Qed.

End BlameTable.

(** C10: in [git-server.js], when the output of [git blame] has a content
    line before any commit-info line, the parse loop emits a record without
    a line number, the table rendering calls [padEnd] on that undefined
    field, and the [git_blame] invocation ends as a failure envelope that
    carries the type error instead of the parsed records. *)
Theorem git_blame_unattributed_line_fails
  (h : Host) (fields : list (string * jsval)) (stdout stderr : string) :
  run_process h
    (JStr (GitServer.blame_command (lookup fields "repoPath") (lookup fields "file")))
    JUndefined = Exited 0 stdout stderr ->
  existsb BlameStream.is_content
    (BlameStream.before_first_header (split LF stdout)) = true ->
  GitServer.call_tool h "git_blame" (JObj fields)
  = Returned (failure ("Error: " ++ cannot_read "undefined" "padEnd"))
  /\ isError (failure ("Error: " ++ cannot_read "undefined" "padEnd")) = true.
Proof.
  intros Hrun Hcontent. split; [|reflexivity].
  unfold GitServer.call_tool, handle, GitServer.cases.
  cbn [switch String.eqb Ascii.eqb Bool.eqb run_from].
  unfold GitServer.git_blame at 1. cbn [get and_then].
  unfold exec_line, execAsync. rewrite Hrun. cbn [and_then].
  unfold GitServer.parse_blame, GitServer.parse_lines.
  destruct (lines_before_and_after (split LF stdout)) as (rest & Heq & _).
  pose proof (before_first_header_no_header (split LF stdout)) as Hh.
  set (pre := BlameStream.before_first_header (split LF stdout)) in *.
  rewrite Heq, fold_left_app.
  destruct (fold_blame_lineless h pre [] [] Hh eq_refl)
    as (cur & recs & -> & Hrecs & Hlen).
  destruct (fold_blame_extends h rest cur ([] ++ recs)%list) as (cur' & extra & ->).
  cbn [snd app].
  destruct recs as [|r recs].
  - exfalso. simpl in Hlen. clear -Hcontent Hlen.
    induction pre as [|l pre IH]; [discriminate|].
    simpl in *. destruct (BlameStream.is_content l); [discriminate|auto].
  - inversion Hrecs as [|? ? Hr _]. subst.
    cbn [app traverse]. rewrite (render_row_lineless r Hr). reflexivity.
Qed.

(** The output of [git blame] starts with a content line. *)
Lemma git_blame_unattributed_line_fails_witness :
  GitServer.call_tool
    (Samples.host 0 (tab ++ "orphan" ++ nl ++ Samples.hex40 ++ " 1 1 1") EmptyString [])
    "git_blame" (JObj [("repoPath", JStr "/srv/app"); ("file", JStr "README.md")])
  = Returned (failure "Error: Cannot read properties of undefined (reading 'padEnd')").
Proof.
  destruct (git_blame_unattributed_line_fails
              (Samples.host 0 (tab ++ "orphan" ++ nl ++ Samples.hex40 ++ " 1 1 1")
                 EmptyString [])
              [("repoPath", JStr "/srv/app"); ("file", JStr "README.md")]
              (tab ++ "orphan" ++ nl ++ Samples.hex40 ++ " 1 1 1") EmptyString)
    as [H _].
  - reflexivity.
  - reflexivity.
  - exact H.
Defined.

(** ** The dispatch handler *)

Lemma switch_unmatched (clauses : case_table) (name : string) (args : jsval) :
  matched name clauses = None ->
  switch name clauses args = default_clause name.
Proof.
  induction clauses as [|[label body] rest IH]; [reflexivity|].
  simpl. destruct (String.eqb name label); [discriminate|exact IH].
Qed.

Lemma switch_matched (clauses : case_table) (name : string) (args : jsval)
  (body : case_body) :
  matched name clauses = Some body ->
  exists rest,
    switch name clauses args
    = match body args with
      | Completed => run_from name rest args
      | o => o
      end.
Proof.
  induction clauses as [|[label body'] rest IH]; [discriminate|].
  simpl. destruct (String.eqb name label).
  - intros [= ->]. now exists rest.
  - exact IH.
Qed.

Lemma handle_returns (clauses : case_table) (name : string) (args : jsval) :
  exists e, handle clauses name args = Returned e.
Proof.
  assert (Hrun : forall rest, exists e,
             try_catch (run_from name rest args)
               (fun message => Returned (failure ("Error: " ++ message)))
             = Returned e).
  { induction rest as [|[label body] rest IH]; [now eexists|].
    simpl. destruct (body args); [now eexists|now eexists|exact IH]. }
  unfold handle.
  induction clauses as [|[label body] rest IH]; [now eexists|].
  cbn [switch]. destruct (String.eqb name label); [apply Hrun|exact IH].
Qed.

(** C1, amended: every invocation request gives exactly one result
    envelope and no exception leaves the handler.  When [name] matches no
    clause of the switch, the envelope is the failure whose single text
    block reports the unknown tool; when the matched block throws, it is
    the failure carrying the error's message; when the matched block
    returns an envelope, it is that envelope unchanged, be it a success or
    a failure that the block built itself. *)
Theorem dispatch_one_envelope
  (clauses : case_table) (name : string) (args : jsval) :
  exists e,
    handle clauses name args = Returned e
    /\ (matched name clauses = None ->
        e = failure ("Error: Unknown tool: " ++ name))
    /\ (forall body message,
          matched name clauses = Some body -> body args = Threw message ->
          e = failure ("Error: " ++ message))
    /\ (forall body r,
          matched name clauses = Some body -> body args = Returned r ->
          e = r).
Proof.
  destruct (handle_returns clauses name args) as [e He].
  exists e. split; [exact He|]. unfold handle in He. repeat split.
  - intros Hnone. rewrite (switch_unmatched _ _ _ Hnone) in He.
    injection He as <-. reflexivity.
  - intros body message Hsome Hthrew.
    destruct (switch_matched _ _ args _ Hsome) as [rest Hs].
    rewrite Hs, Hthrew in He. injection He as <-. reflexivity.
  - intros body r Hsome Hret.
    destruct (switch_matched _ _ args _ Hsome) as [rest Hs].
    rewrite Hs, Hret in He. injection He as <-. reflexivity.
Qed.

(** The theorem at the git server and at the dev-tools server: an unknown
    name, a block that throws because [git push] exits with status 1, and
    a block that returns. *)
Lemma dispatch_one_envelope_witness :
  GitServer.call_tool (Samples.host 1 EmptyString "rejected" []) "git_fetch" (JObj [])
  = Returned (failure "Error: Unknown tool: git_fetch")
  /\ GitServer.call_tool (Samples.host 1 EmptyString "rejected" []) "git_push"
       (JObj [("repoPath", JStr "/srv/app")])
     = Returned (failure ("Error: Command failed: git -C " ++ dquote ++ "/srv/app"
                          ++ dquote ++ " push  origin" ++ nl ++ "rejected"))
  /\ DevTools.call_tool (Samples.host 0 "up" EmptyString []) "docker_ps" (JObj [])
     = Returned (ok "up").
Proof.
  split; [|split].
  - destruct (dispatch_one_envelope
                (GitServer.cases (Samples.host 1 EmptyString "rejected" []))
                "git_fetch" (JObj [])) as (e & He & Hnone & _).
    unfold GitServer.call_tool. rewrite He, (Hnone eq_refl). reflexivity.
  - destruct (dispatch_one_envelope
                (GitServer.cases (Samples.host 1 EmptyString "rejected" []))
                "git_push" (JObj [("repoPath", JStr "/srv/app")]))
      as (e & He & _ & Hthrew & _).
    unfold GitServer.call_tool. rewrite He.
    rewrite (Hthrew (GitServer.git_push (Samples.host 1 EmptyString "rejected" []))
               ("Command failed: git -C " ++ dquote ++ "/srv/app" ++ dquote
                ++ " push  origin" ++ nl ++ "rejected") eq_refl eq_refl).
    reflexivity.
  - destruct (dispatch_one_envelope
                (DevTools.cases (Samples.host 0 "up" EmptyString []))
                "docker_ps" (JObj [])) as (e & He & _ & _ & Hret).
    unfold DevTools.call_tool. rewrite He.
    rewrite (Hret (DevTools.docker_ps (Samples.host 0 "up" EmptyString []))
               (ok "up") eq_refl eq_refl).
    reflexivity.
Defined.

(** C1 as stated fails in the dev-tools server: [monitor_logs] matches a
    clause and its block does not throw, yet what it returns for an
    unreadable log file is a failure envelope, not a success. *)
Lemma monitor_logs_returns_failure :
  let h := Samples.host 0 EmptyString EmptyString [] in
  let args := JObj [("logPath", JStr "/var/log/app.log")] in
  matched "monitor_logs" (DevTools.cases h) = Some (DevTools.monitor_logs h)
  /\ DevTools.monitor_logs h args
     = Returned (failure "Error reading log file: ENOENT: no such file or directory")
  /\ DevTools.call_tool h "monitor_logs" args
     = Returned (failure "Error reading log file: ENOENT: no such file or directory")
  /\ isError (failure "Error reading log file: ENOENT: no such file or directory")
     = true.
Proof. repeat split. Qed.

(** In the dev-tools server the block of [npm_scripts] runs off its end
    when [action] is neither ["list"] nor ["run"], and control reaches the
    [default] clause. *)
Lemma npm_scripts_other_action_reaches_default :
  let args := JObj [("projectPath", JStr "/srv/app"); ("action", JStr "build")] in
  DevTools.npm_scripts Samples.project_host args = Completed
  /\ DevTools.call_tool Samples.project_host "npm_scripts" args
     = Returned (failure "Error: Unknown tool: npm_scripts").
Proof. split; reflexivity. Qed.

(** ** The process runner *)

(** Which outcomes of a process make the runner resolve, and with what it
    rejects on the others. *)
Lemma execAsync_cases (h : Host) (c o : jsval) :
  execAsync h c o
  = match run_process h c o with
    | Exited code stdout stderr =>
        if (code =? 0)%Z then Ok (stdout, stderr)
        else Throw ("Command failed: " ++ to_str c ++ nl ++ stderr)
    | Overflowed stream => Throw (stream ++ " maxBuffer length exceeded")
    | NotSpawned message => Throw message
    end.
Proof.
  unfold execAsync. destruct (run_process h c o) as [[| |] ? ?| |]; reflexivity.
Qed.

(** C2, amended: the runner hands both streams to the handler exactly when
    the process exits with status 0 with both streams within the buffer
    of [exec], whatever it wrote to stderr; any other exit status, like a
    stream beyond the buffer or a process that cannot be spawned, is
    reported to the handler as a failure.  So [git_push] and [run_command]
    answer a command that exits with status 0 by an envelope showing both
    streams, and a command that exits with another status by a failure
    envelope that carries the command and what it wrote to stderr, and
    nothing of its stdout. *)
Theorem runner_exit_status (h : Host) (fields : list (string * jsval)) :
  let command := lookup fields "command" in
  let options :=
    if truthy (lookup fields "workingDir")
    then JObj [("cwd", lookup fields "workingDir")] else JObj [] in
  (forall c o stdout stderr,
     execAsync h c o = Ok (stdout, stderr)
     <-> run_process h c o = Exited 0 stdout stderr)
  /\ GitServer.call_tool h "git_push" (JObj fields)
     = Returned
         match GitServer.push_command (lookup fields "repoPath")
                 (lookup fields "remote") (lookup fields "branch")
                 (lookup fields "force") with
         | Throw message => failure ("Error: " ++ message)
         | Ok push =>
             match run_process h (JStr push) JUndefined with
             | Exited code stdout stderr =>
                 if (code =? 0)%Z
                 then ok ("Push command executed." ++ nl ++ nl
                          ++ DevTools.streams stdout stderr)
                 else failure ("Error: Command failed: " ++ push ++ nl ++ stderr)
             | Overflowed stream =>
                 failure ("Error: " ++ stream ++ " maxBuffer length exceeded")
             | NotSpawned message => failure ("Error: " ++ message)
             end
         end
  /\ DevTools.call_tool h "run_command" (JObj fields)
     = Returned
         match run_process h command options with
         | Exited code stdout stderr =>
             if (code =? 0)%Z
             then ok (DevTools.streams stdout stderr)
             else failure ("Error: Command failed: " ++ to_str command ++ nl
                           ++ stderr)
         | Overflowed stream =>
             failure ("Error: " ++ stream ++ " maxBuffer length exceeded")
         | NotSpawned message => failure ("Error: " ++ message)
         end.
Proof.
  intros command options. split; [|split].
  - intros c o stdout stderr. rewrite execAsync_cases.
    destruct (run_process h c o) as [code out err| |].
    + destruct (code =? 0)%Z eqn:Hcode.
      * apply Z.eqb_eq in Hcode. subst code.
        split; intros H; injection H as <- <-; reflexivity.
      * split; [discriminate|]. intros H. injection H as -> _ _.
        discriminate Hcode.
    + split; discriminate.
    + split; discriminate.
  - unfold GitServer.call_tool, handle, GitServer.cases.
    cbn [switch String.eqb Ascii.eqb Bool.eqb run_from].
    unfold GitServer.git_push at 1. cbn [get and_then].
    destruct (GitServer.push_command _ _ _ _) as [push|message];
      [|reflexivity].
    cbn [and_then]. unfold exec_line. rewrite execAsync_cases.
    destruct (run_process h (JStr push) JUndefined) as [code ? ?| |];
      [destruct (code =? 0)%Z| |]; reflexivity.
  - unfold DevTools.call_tool, handle, DevTools.cases.
    cbn [switch String.eqb Ascii.eqb Bool.eqb run_from].
    unfold DevTools.run_command at 1. cbn [get and_then].
    rewrite execAsync_cases. fold command options.
    destruct (run_process h command options) as [code ? ?| |];
      [destruct (code =? 0)%Z| |]; reflexivity.
Qed.

(** A push that exits with status 0 after writing its progress to
    stderr is handed over with both streams. *)
Lemma runner_exit_status_witness :
  execAsync
    (Samples.host 0 "Everything up-to-date" "To origin" [])
    (JStr "git push") JUndefined
  = Ok ("Everything up-to-date", "To origin").
Proof.
  destruct (runner_exit_status
              (Samples.host 0 "Everything up-to-date" "To origin" []) [])
    as [Hrunner _].
  apply Hrunner. reflexivity.
Defined.

(** C2 as stated fails: a command that exits with status 1 while writing
    advisory text to stderr makes the runner reject, and [run_command]
    and [git_push] end as failure envelopes. *)
Lemma nonzero_exit_rejects :
  let h := Samples.host 1 "partial output" "warning: advisory" [] in
  execAsync h (JStr "npm test") (JObj [])
  = Throw ("Command failed: npm test" ++ nl ++ "warning: advisory")
  /\ DevTools.call_tool h "run_command" (JObj [("command", JStr "npm test")])
     = Returned (failure ("Error: Command failed: npm test" ++ nl
                          ++ "warning: advisory"))
  /\ GitServer.call_tool h "git_push" (JObj [("repoPath", JStr "/srv/app")])
     = Returned (failure ("Error: Command failed: git -C " ++ dquote ++ "/srv/app"
                          ++ dquote ++ " push  origin" ++ nl ++ "warning: advisory")).
Proof. repeat split. Qed.
(** ** The commit classifier *)

Section Classifier.
Import GitServer.

Lemma is_doc_total (f : ChangeRecord) :
  has_path f = true -> exists b, is_doc f = Ok b.
Proof.
  unfold has_path, is_doc. destruct (file f); try discriminate. now eexists.
Qed.

Lemma is_test_total (f : ChangeRecord) :
  has_path f = true -> exists b, is_test f = Ok b.
Proof.
  unfold has_path, is_test. destruct (file f); try discriminate. now eexists.
Qed.

Lemma every_total {A : Type} (p : A -> result bool) (l : list A) :
  Forall (fun x => exists b, p x = Ok b) l -> exists b, every p l = Ok b.
Proof.
  induction 1 as [|x l [b Hb] _ [b' IH]]; [now eexists|].
  simpl. rewrite Hb. simpl. destruct b; [now exists b'|now eexists].
Qed.

Lemma some_total {A : Type} (p : A -> result bool) (l : list A) :
  Forall (fun x => exists b, p x = Ok b) l -> exists b, some p l = Ok b.
Proof.
  induction 1 as [|x l [b Hb] _ [b' IH]]; [now eexists|].
  simpl. rewrite Hb. simpl. destruct b; [now eexists|now exists b'].
Qed.

(** With a path in every record the chain always picks a type and a
    summary. *)
Lemma classify_chain_total (files : list ChangeRecord) :
  forallb has_path files = true ->
  exists chosen, classify_chain files = Ok chosen.
Proof.
  intros Hpaths. rewrite forallb_forall in Hpaths.
  unfold classify_chain.
  destruct (_ && _ && _); [now eexists|].
  destruct (every_total is_doc files) as [docs ->].
  { apply Forall_forall. intros f Hf. apply is_doc_total, Hpaths, Hf. }
  cbn [bind]. destruct docs; [now eexists|].
  destruct (some_total is_test files) as [tests ->].
  { apply Forall_forall. intros f Hf. apply is_test_total, Hpaths, Hf. }
  cbn [bind]. destruct tests; [now eexists|].
  destruct (0 <? _)%nat; now eexists.
Qed.

Lemma with_status_none (letter : string) (files : list ChangeRecord) :
  existsb (has_status letter) files = false -> with_status letter files = [].
Proof.
  unfold with_status. induction files as [|f files IH]; [reflexivity|].
  simpl. destruct (has_status letter f); [discriminate|exact IH].
Qed.

Lemma with_status_some (letter : string) (files : list ChangeRecord) :
  existsb (has_status letter) files = true -> with_status letter files <> [].
Proof.
  unfold with_status. induction files as [|f files IH]; [discriminate|].
  simpl. destruct (has_status letter f); [discriminate|exact IH].
Qed.

End Classifier.

(** C4, amended: when at least one record has status Added, none has
    status Modified or Deleted (Renamed and other records may be present)
    and no path is exactly a dependency-manifest filename, the classifier
    returns type [feat]; the summary is [add '<path>'] when exactly one
    record is Added and [add N new files], N the number of Added records,
    otherwise.  The branch does not require every change to be Added. *)
Theorem classify_added_files (files : list GitServer.ChangeRecord) :
  existsb (GitServer.has_status "A") files = true ->
  existsb (GitServer.has_status "M") files = false ->
  existsb (GitServer.has_status "D") files = false ->
  existsb GitServer.is_manifest files = false ->
  GitServer.classify files
  = Ok ("feat",
        match GitServer.with_status "A" files with
        | [f] => "add '" ++ to_str (GitServer.file f) ++ "'"
        | added => "add " ++ of_nat (length added) ++ " new files"
        end).
Proof.
  intros Ha Hm Hd Hman. unfold GitServer.classify, GitServer.classify_chain.
  rewrite (with_status_none _ _ Hm), (with_status_none _ _ Hd), Hman.
  pose proof (with_status_some _ _ Ha) as Hadded.
  destruct (GitServer.with_status "A" files) as [|f [|g added]];
    [congruence| |]; reflexivity.
Qed.

(** One added file, then two added files next to a renamed one. *)
Lemma classify_added_files_witness :
  GitServer.classify [ {| GitServer.status := "A"; GitServer.file := JStr "a.ts" |} ]
  = Ok ("feat", "add 'a.ts'")
  /\ GitServer.classify
       [ {| GitServer.status := "A"; GitServer.file := JStr "a.ts" |};
         {| GitServer.status := "R100"; GitServer.file := JStr "old.ts" |};
         {| GitServer.status := "A"; GitServer.file := JStr "b.ts" |} ]
     = Ok ("feat", "add 2 new files").
Proof.
  split.
  - apply (classify_added_files
             [ {| GitServer.status := "A"; GitServer.file := JStr "a.ts" |} ]);
      reflexivity.
  - apply (classify_added_files
             [ {| GitServer.status := "A"; GitServer.file := JStr "a.ts" |};
               {| GitServer.status := "R100"; GitServer.file := JStr "old.ts" |};
               {| GitServer.status := "A"; GitServer.file := JStr "b.ts" |} ]);
      reflexivity.
Defined.

(** C4 as stated fails twice: an added [package.json] is classified
    [chore] by the override, and one added file next to a renamed one is
    classified [feat] although not every change is an Added file. *)
Lemma added_manifest_is_chore :
  GitServer.classify
    [ {| GitServer.status := "A"; GitServer.file := JStr "package.json" |} ]
  = Ok ("chore", "update dependencies or project config")
  /\ GitServer.classify
       [ {| GitServer.status := "A"; GitServer.file := JStr "a.ts" |};
         {| GitServer.status := "R100"; GitServer.file := JStr "old.ts" |} ]
     = Ok ("feat", "add 'a.ts'")
  /\ forallb (GitServer.has_status "A")
       [ {| GitServer.status := "A"; GitServer.file := JStr "a.ts" |};
         {| GitServer.status := "R100"; GitServer.file := JStr "old.ts" |} ]
     = false.
Proof. repeat split. Qed.

(** C9: when some record's path is exactly [package.json] or
    [package-lock.json], the classifier's final output is type [chore]
    with summary [update dependencies or project config], whatever the
    chain of rules 1 to 5 selected.  Every record carries a path, as
    change records do. *)
Theorem classify_manifest_override (files : list GitServer.ChangeRecord) :
  forallb GitServer.has_path files = true ->
  existsb GitServer.is_manifest files = true ->
  GitServer.classify files = Ok ("chore", "update dependencies or project config").
Proof.
  intros Hpaths Hman. unfold GitServer.classify.
  destruct (classify_chain_total files Hpaths) as [chosen ->].
  cbn [bind]. now rewrite Hman.
Qed.

(** The single change [{Modified, "package.json"}]. *)
Lemma classify_manifest_override_witness :
  GitServer.classify
    [ {| GitServer.status := "M"; GitServer.file := JStr "package.json" |} ]
  = Ok ("chore", "update dependencies or project config").
Proof.
  apply (classify_manifest_override
           [ {| GitServer.status := "M"; GitServer.file := JStr "package.json" |} ]);
    reflexivity.
Defined.

(** ** The structural validator *)

Section Validator.
Import ApiTesting ValidatorSpec.
Variable h : Host.

Lemma get_defined (v : jsval) (key : string) :
  nullish v = false -> get v key = Ok (field v key).
Proof.
  intros H. unfold field.
  destruct v; try discriminate H; simpl;
    try reflexivity; destruct (String.eqb key "length"); reflexivity.
Qed.

Lemma type_tag_is_tag (v : jsval) : type_tag v = tag v.
Proof. destruct v; reflexivity. Qed.

(** Searching [shape.required] for a key. *)
Lemma listed_in_required (shape : jsval) (key : string) :
  listed_in (field shape "required") key
  = if unsearchable (field shape "required")
    then Throw (not_a_function "schema.required.includes")
    else Ok (required_key shape key).
Proof.
  unfold listed_in, required_key.
  destruct (field shape "required") as [| |[|]|n|s| |];
    cbn [truthy unsearchable]; try reflexivity;
    destruct (negb _); reflexivity.
Qed.

(** What [obj[key]] finds, seen as the tag of the field. *)
Lemma read_field_tag (value : jsval) (key : string) :
  nullish value = false ->
  exists m,
    read h value key = Ok m
    /\ field_tag h value key
       = if absent m then None else Some (member_tag m).
Proof.
  intros Hvalue. unfold read, field_tag.
  destruct (own value key) as [v|] eqn:Eown.
  - exists (Own v). split; [destruct value; try discriminate Hvalue; reflexivity|].
    cbn [absent member_tag]. rewrite type_tag_is_tag. destruct v; reflexivity.
  - destruct (inherited h value key) as [t|].
    + exists (Inherited t).
      split; [destruct value; try discriminate Hvalue; reflexivity|reflexivity].
    + exists (Own JUndefined).
      split; [destruct value; try discriminate Hvalue; reflexivity|reflexivity].
Qed.

(** One turn of the loop does what the specification says of the
    property. *)
Lemma check_property_verdict (value shape : jsval) (errors : list string)
  (entry : string * jsval) :
  nullish shape = false ->
  check_property h value shape EmptyString errors entry
  = match property_verdict h value shape entry with
    | Pass => Ok errors
    | Finding message => Ok (errors ++ [message])%list
    | Fault message => Throw message
    end.
Proof.
  intros Hshape. destruct entry as [key description].
  unfold check_property, property_verdict. cbn [fst snd].
  destruct (nullish value) eqn:Hvalue.
  { destruct value; try discriminate Hvalue; reflexivity. }
  destruct (read_field_tag value key Hvalue) as (m & -> & ->). cbn [bind].
  rewrite (get_defined shape "required" Hshape). cbn [bind].
  rewrite listed_in_required.
  destruct (unsearchable (field shape "required")); [reflexivity|]. cbn [bind].
  cbn [current_path String.eqb].
  destruct (absent m); cbn [negb andb].
  { rewrite andb_true_r. destruct (required_key shape key); reflexivity. }
  rewrite andb_false_r.
  destruct (nullish description) eqn:Hdescription.
  { destruct description; try discriminate Hdescription; reflexivity. }
  rewrite (get_defined description "type" Hdescription). cbn [bind].
  destruct (is_string (field description "type") (member_tag m)); cbn [negb];
    [reflexivity|].
  destruct (to_string (field description "type")); reflexivity.
Qed.

Lemma for_each_verdicts (value shape : jsval) (properties : list (string * jsval))
  (errors : list string) :
  nullish shape = false ->
  for_each (check_property h value shape EmptyString) properties errors
  = match first_fault (map (property_verdict h value shape) properties) with
    | Some message => Throw message
    | None =>
        Ok (errors
            ++ flat_map reported
                 (map (property_verdict h value shape) properties))%list
    end.
Proof.
  intros Hshape. revert errors.
  induction properties as [|entry properties IH]; intros errors.
  - simpl. now rewrite app_nil_r.
  - cbn [for_each map first_fault flat_map].
    rewrite (check_property_verdict value shape errors entry Hshape).
    destruct (property_verdict h value shape entry) as [|message|message];
      cbn [bind reported app]; [apply IH| |reflexivity].
    rewrite IH.
    destruct (first_fault _); [reflexivity|]. now rewrite <- app_assoc.
Qed.

(** The loop of the validator and the specification agree on every
    input. *)
Lemma validate_outcome (value shape : jsval) :
  validate h value shape = outcome h value shape.
Proof.
  unfold validate, validateObject, outcome, findings, verdicts, declared.
  destruct (nullish shape) eqn:Hshape.
  { destruct shape; try discriminate Hshape; reflexivity. }
  rewrite (get_defined shape "type" Hshape). cbn [bind].
  destruct (is_string (field shape "type") "object"); [|reflexivity].
  rewrite (get_defined shape "properties" Hshape). cbn [bind andb].
  destruct (truthy (field shape "properties")); [|reflexivity].
  rewrite (for_each_verdicts _ _ _ _ Hshape). reflexivity.
Qed.

Lemma outcome_returns (value shape : jsval) :
  if returns h value shape
  then outcome h value shape = Ok (findings h value shape)
  else exists message, outcome h value shape = Throw message.
Proof.
  unfold returns, outcome. destruct (nullish shape); cbn [negb andb].
  - now eexists.
  - destruct (first_fault (verdicts h value shape)); [now eexists|reflexivity].
Qed.

(** A declared property of a value that has properties, under a
    searchable [required], faults only through its own description. *)
Lemma property_verdict_sound (value shape : jsval) (entry : string * jsval) :
  nullish value = false ->
  unsearchable (field shape "required") = false ->
  nullish (snd entry) = false ->
  (exists text, to_string (field (snd entry) "type") = Ok text) ->
  forall message, property_verdict h value shape entry <> Fault message.
Proof.
  intros Hvalue Hrequired Hdescription [text Htext] message.
  unfold property_verdict. rewrite Hvalue, Hrequired, Hdescription, Htext.
  destruct (field_tag h value (fst entry)).
  - destruct (is_string _ _); discriminate.
  - destruct (required_key shape (fst entry)); discriminate.
Qed.

Lemma first_fault_none (l : list verdict) :
  (forall v message, In v l -> v <> Fault message) -> first_fault l = None.
Proof.
  induction l as [|v l IH]; intros H; [reflexivity|].
  cbn [first_fault]. destruct v as [| |message].
  - apply IH. intros v m Hv. apply H. now right.
  - apply IH. intros v m Hv. apply H. now right.
  - exfalso. apply (H (Fault message) message); [now left|reflexivity].
Qed.

(** Keys that are no array indices are enumerated as they were
    created. *)
Lemma own_entries_named (fields : list (string * jsval)) :
  forallb is_named fields = true -> own_entries fields = fields.
Proof.
  intros Hnamed. unfold own_entries.
  assert (Hindex : forall sorted,
            fold_left (fun sorted entry =>
                         match array_index (fst entry) with
                         | Some n => insert_index n entry sorted
                         | None => sorted
                         end) fields sorted = sorted).
  { induction fields as [|entry fields IH]; intros sorted; [reflexivity|].
    cbn [forallb] in Hnamed. apply andb_true_iff in Hnamed as [He Hrest].
    cbn [fold_left]. unfold is_named in He.
    destruct (array_index (fst entry)); [discriminate He|]. now apply IH. }
  unfold index_entries. rewrite Hindex. cbn [map app].
  induction fields as [|entry fields IH]; [reflexivity|].
  cbn [forallb] in Hnamed. apply andb_true_iff in Hnamed as [He Hrest].
  cbn [filter]. rewrite He. f_equal. apply IH; [exact Hrest|].
  intros sorted. specialize (Hindex sorted). cbn [fold_left] in Hindex.
  unfold is_named in He. destruct (array_index (fst entry)); [discriminate He|].
  exact Hindex.
Qed.

End Validator.

(** C5, amended: the validator returns its accumulated error list unless
    evaluating it throws a [TypeError], which the dispatch handler turns
    into a failure envelope.  It throws exactly when the shape is [null]
    or [undefined], or when one of the declared properties faults: the
    value is [null] or [undefined]; or [required] is given and is neither
    an array nor a string; or the field is present in the value and its
    description is [null], or declares a type that differs from the
    field's tag and cannot be converted to a string.  In particular a
    value that is not an object (a number, a string, a boolean) is
    validated without a throw against every shape whose [required] can
    be searched and whose descriptions can be consulted. *)
Theorem validate_returns
  (h : Host)
  (request : nat -> jsval -> jsval -> jsval -> jsval -> jsval -> jsval + string)
  (stringify_stats : ApiTesting.Stats -> string) (value shape : jsval) :
  (if ValidatorSpec.returns h value shape
   then exists errors, ApiTesting.validate h value shape = Ok errors
   else exists message,
       ApiTesting.validate h value shape = Throw message
       /\ ApiRequests.call_tool h request stringify_stats "validate_response"
            (JObj [("response", value); ("schema", shape)])
          = Returned (failure ("Error: " ++ message)))
  /\ (ValidatorSpec.nullish value = false ->
      ValidatorSpec.nullish shape = false ->
      ValidatorSpec.unsearchable (ValidatorSpec.field shape "required") = false ->
      forallb ValidatorSpec.describable (ValidatorSpec.declared shape) = true ->
      ValidatorSpec.returns h value shape = true)
  /\ (ValidatorSpec.nullish value = true ->
      ValidatorSpec.nullish shape = false ->
      ValidatorSpec.returns h value shape
      = match ValidatorSpec.declared shape with
        | [] => true
        | _ :: _ => false
        end).
Proof.
  split; [|split].
  - pose proof (outcome_returns h value shape) as H.
    rewrite <- validate_outcome in H.
    destruct (ValidatorSpec.returns h value shape).
    + eexists. exact H.
    + destruct H as [message H]. exists message. split; [exact H|].
      unfold ApiRequests.call_tool, handle, ApiRequests.cases.
      cbn [switch String.eqb Ascii.eqb Bool.eqb run_from].
      unfold ApiTesting.validate_response at 1.
      cbn [get lookup String.eqb Ascii.eqb Bool.eqb and_then].
      rewrite H. reflexivity.
  - intros Hvalue Hshape Hrequired Hdescribable.
    unfold ValidatorSpec.returns. rewrite Hshape. cbn [negb andb].
    rewrite first_fault_none; [reflexivity|].
    intros v message Hv. unfold ValidatorSpec.verdicts in Hv.
    apply in_map_iff in Hv as (entry & <- & Hentry).
    rewrite forallb_forall in Hdescribable.
    specialize (Hdescribable entry Hentry).
    unfold ValidatorSpec.describable in Hdescribable.
    apply andb_true_iff in Hdescribable as [Hthere Htype].
    apply property_verdict_sound; try assumption.
    + now destruct (ValidatorSpec.nullish (snd entry)).
    + destruct (to_string _) as [text|]; [now exists text|discriminate].
  - intros Hvalue Hshape. unfold ValidatorSpec.returns, ValidatorSpec.verdicts.
    rewrite Hshape. cbn [negb andb].
    destruct (ValidatorSpec.declared shape) as [|entry rest]; [reflexivity|].
    cbn [map ValidatorSpec.first_fault].
    unfold ValidatorSpec.property_verdict at 1. now rewrite Hvalue.
Qed.

(** The number 5 has no [id]: it is validated without a throw, and the
    missing field is reported. *)
Lemma validate_returns_witness :
  ValidatorSpec.returns (Samples.host 0 EmptyString EmptyString [])
    (JNum 5) Samples.id_shape = true
  /\ ApiTesting.validate (Samples.host 0 EmptyString EmptyString [])
       (JNum 5) Samples.id_shape
     = Ok ["Missing required field: id"].
Proof.
  split; [|reflexivity].
  apply (validate_returns (Samples.host 0 EmptyString EmptyString [])
           (fun _ _ _ _ _ _ => inr "unused") (fun _ => EmptyString)
           (JNum 5) Samples.id_shape); reflexivity.
Defined.

(** C5 as stated fails: for [null] and for [undefined] checked against a
    shape that declares a property the read of that property throws; so
    does every validation against a missing shape, a [required] that is a
    number, a present field described by [null], and a declared type that
    has no string form. *)
Lemma validate_null_throws :
  let h := Samples.host 0 EmptyString EmptyString [] in
  let shape_of required description :=
    JObj [("type", JStr "object");
          ("properties", JObj [("id", description)]);
          ("required", required)] in
  ApiTesting.validate h JNull Samples.id_shape
  = Throw "Cannot read properties of null (reading 'id')"
  /\ ApiTesting.validate h JUndefined Samples.id_shape
     = Throw "Cannot read properties of undefined (reading 'id')"
  /\ ApiTesting.validate h (JObj []) JUndefined
     = Throw "Cannot read properties of undefined (reading 'type')"
  /\ ApiTesting.validate h (JObj [])
       (shape_of (JNum 1) (JObj [("type", JStr "number")]))
     = Throw "schema.required.includes is not a function"
  /\ ApiTesting.validate h (JObj [("id", JNum 1)]) (shape_of JUndefined JNull)
     = Throw "Cannot read properties of null (reading 'type')"
  /\ ApiTesting.validate h (JObj [("id", JNum 1)])
       (shape_of JUndefined (JObj [("type", JObj [("toString", JNum 1)])]))
     = Throw "Cannot convert object to primitive value".
Proof. repeat split. Qed.

(** C6, amended: whenever the validator returns, its errors are the
    findings of the specification, property by property in the order in
    which the declared properties are enumerated, which is the declared
    order when no declared key is an array index: a required property
    whose field is absent gives one missing-required error and is not
    checked further, a present field whose tag differs from the declared
    type gives one type-mismatch error naming both. *)
Theorem validate_declared_order
  (h : Host) (value shape : jsval) (errors : list string) :
  ApiTesting.validate h value shape = Ok errors ->
  errors
  = flat_map (fun entry =>
                ValidatorSpec.reported
                  (ValidatorSpec.property_verdict h value shape entry))
      (ValidatorSpec.declared shape)
  /\ (forall fields,
        forallb is_named fields = true -> entries (JObj fields) = fields).
Proof.
  intros H. split.
  - rewrite validate_outcome in H. unfold ValidatorSpec.outcome in H.
    destruct (ValidatorSpec.nullish shape); [discriminate H|].
    destruct (ValidatorSpec.first_fault _); [discriminate H|].
    injection H as <-. unfold ValidatorSpec.findings, ValidatorSpec.verdicts.
    now rewrite flat_map_concat_map, map_map, <- flat_map_concat_map.
  - intros fields Hnamed. cbn [entries]. now apply own_entries_named.
Qed.

(** The two boundary cases: [{}] lacks the required [id], and
    [{id: "x"}] has a string where a number is declared. *)
Lemma validate_declared_order_witness :
  let h := Samples.host 0 EmptyString EmptyString [] in
  ["Missing required field: id"]
  = flat_map (fun entry =>
                ValidatorSpec.reported
                  (ValidatorSpec.property_verdict h (JObj []) Samples.id_shape entry))
      (ValidatorSpec.declared Samples.id_shape)
  /\ ["Type mismatch at id: expected number, got string"]
     = flat_map (fun entry =>
                   ValidatorSpec.reported
                     (ValidatorSpec.property_verdict h (JObj [("id", JStr "x")])
                        Samples.id_shape entry))
         (ValidatorSpec.declared Samples.id_shape).
Proof.
  intros h. split.
  - apply (validate_declared_order h (JObj []) Samples.id_shape). reflexivity.
  - apply (validate_declared_order h (JObj [("id", JStr "x")]) Samples.id_shape).
    reflexivity.
Defined.

(** C6 as stated fails twice.  Declared after [name], the property [1] is
    checked before it, because array indices are enumerated first; and a
    required [toString] that the value lacks is not reported missing,
    because the value inherits a member of that name, whose tag is then
    compared. *)
Lemma index_keys_are_checked_first :
  let h := Samples.host 0 EmptyString EmptyString [] in
  ApiTesting.validate h
    (JObj [("name", JNum 1); ("1", JNum 2)])
    (JObj [("type", JStr "object");
           ("properties", JObj [("name", JObj [("type", JStr "string")]);
                                ("1", JObj [("type", JStr "string")])])])
  = Ok ["Type mismatch at 1: expected string, got number";
        "Type mismatch at name: expected string, got number"]
  /\ ApiTesting.validate h (JObj [])
       (JObj [("type", JStr "object");
              ("properties", JObj [("toString", JObj [("type", JStr "string")])]);
              ("required", JArr [JStr "toString"])])
     = Ok ["Type mismatch at toString: expected string, got function"].
Proof. split; reflexivity. Qed.
(** ** The statistics of [performance_test] *)

Section Performance.
Import ApiTesting.
Variable h : Host.



Lemma total_sum (times : list Z) :
  total times = fold_right Z.add 0%Z times.
Proof.
  unfold total.
  assert (H : forall a, fold_left Z.add times a = (a + fold_right Z.add 0 times)%Z).
  { induction times as [|d times IH]; intros a; simpl; [lia|]. rewrite IH. lia. }
  now rewrite H.
Qed.

Lemma fold_min_least (rest : list Z) (d : Z) :
  In (fold_left Z.min rest d) (d :: rest)
  /\ Forall (fun x => (fold_left Z.min rest d <= x)%Z) (d :: rest).
Proof.
  revert d. induction rest as [|e rest IH]; intros d.
  - simpl. split; [now left|]. constructor; [lia|constructor].
  - cbn [fold_left]. destruct (IH (Z.min d e)) as [Hin Hall]. split.
    + destruct Hin as [Hin|Hin]; [|now right; right].
      rewrite <- Hin. destruct (Z.min_spec d e) as [[_ ->]|[_ ->]];
        [now left|now right; left].
    + inversion Hall as [|? ? Hm Hrest]; subst.
      constructor; [lia|]. constructor; [lia|exact Hrest].
Qed.

Lemma fold_max_greatest (rest : list Z) (d : Z) :
  In (fold_left Z.max rest d) (d :: rest)
  /\ Forall (fun x => (x <= fold_left Z.max rest d)%Z) (d :: rest).
Proof.
  revert d. induction rest as [|e rest IH]; intros d.
  - simpl. split; [now left|]. constructor; [lia|constructor].
  - cbn [fold_left]. destruct (IH (Z.max d e)) as [Hin Hall]. split.
    + destruct Hin as [Hin|Hin]; [|now right; right].
      rewrite <- Hin. destruct (Z.max_spec d e) as [[_ ->]|[_ ->]];
        [now right; left|now left].
    + inversion Hall as [|? ? Hm Hrest]; subst.
      constructor; [lia|]. constructor; [lia|exact Hrest].
Qed.


End Performance.



(** ** Every content line becomes one record *)

Section BlameContents.
Import BlameStream BlameTable.
Variable h : Host.

Lemma lookup_set_prop_same (fields : list (string * jsval)) (k : string) v :
  lookup (set_prop fields k v) k = v.
Proof.
  induction fields as [|[k0 v0] fields IH]; simpl.
  - now rewrite String.eqb_refl.
  - destruct (String.eqb k0 k) eqn:E; simpl; rewrite E; [reflexivity|exact IH].
Qed.

(** A line that starts with a tab is neither a commit-info line nor a tag
    line. *)
Lemma content_line_only (l : string) :
  startsWith l tab = true ->
  matches_hex40 l = false
  /\ startsWith l "author " = false
  /\ startsWith l "author-time " = false.
Proof.
  destruct l as [|c l]; cbn [startsWith]; [discriminate|].
  intros H. apply andb_true_iff in H as [H _].
  apply Ascii.eqb_eq in H. subst c. repeat split.
Qed.

Lemma blame_step_contents (l : string) cur out :
  map content_of (snd (GitServer.blame_step h (cur, out) l))
  = (map content_of out ++ map JStr (content_texts [l]))%list.
Proof.
  unfold content_texts, is_content. cbn [filter].
  destruct (startsWith l tab) eqn:Et.
  - destruct (content_line_only l Et) as (Hh & Ha & Hat).
    unfold GitServer.blame_step. rewrite Hh, Ha, Hat, Et. cbn [snd map].
    rewrite map_app. cbn [map content_of]. now rewrite lookup_set_prop_same.
  - unfold GitServer.blame_step. rewrite Et.
    destruct (matches_hex40 l), (startsWith l "author "),
      (startsWith l "author-time "); cbn [snd map]; now rewrite app_nil_r.
Qed.

Lemma content_texts_cons (l : string) (lines : list string) :
  content_texts (l :: lines) = (content_texts [l] ++ content_texts lines)%list.
Proof.
  unfold content_texts. cbn [filter]. destruct (is_content l); reflexivity.
Qed.

Lemma fold_blame_contents_all (lines : list string) (st : GitServer.blame_state) :
  map content_of (snd (fold_left (GitServer.blame_step h) lines st))
  = (map content_of (snd st) ++ map JStr (content_texts lines))%list.
Proof.
  revert st. induction lines as [|l lines IH]; intros [cur out].
  - simpl. now rewrite app_nil_r.
  - cbn [fold_left]. rewrite IH, (content_texts_cons l lines), map_app, app_assoc.
    f_equal. apply blame_step_contents.
Qed.

Lemma early_step_contents (l : string) (st st' : GitServerEarly.blame_state) :
  GitServerEarly.blame_step h st l = Ok st' ->
  map content_of (snd st')
  = (map content_of (snd st) ++ map JStr (content_texts [l]))%list.
Proof.
  destruct st as [cur out]. unfold content_texts, is_content. cbn [filter].
  destruct (startsWith l tab) eqn:Et.
  - destruct (content_line_only l Et) as (Hh & Ha & Hat).
    unfold GitServerEarly.blame_step. rewrite Hh, Ha, Hat, Et.
    intros [= <-]. cbn [snd map]. rewrite map_app. cbn [map content_of].
    now rewrite lookup_set_prop_same.
  - unfold GitServerEarly.blame_step. rewrite Et.
    destruct (matches_hex40 l); [intros [= <-]; cbn; now rewrite app_nil_r|].
    destruct (startsWith l "author ").
    { destruct cur; cbn; [intros [= <-]; cbn; now rewrite app_nil_r|discriminate]. }
    destruct (startsWith l "author-time ").
    { destruct cur; cbn; [intros [= <-]; cbn; now rewrite app_nil_r|discriminate]. }
    intros [= <-]. cbn. now rewrite app_nil_r.
Qed.

Lemma early_loop_contents_all (lines : list string)
  (st st' : GitServerEarly.blame_state) :
  GitServerEarly.blame_loop h lines st = Ok st' ->
  map content_of (snd st')
  = (map content_of (snd st) ++ map JStr (content_texts lines))%list.
Proof.
  revert st. induction lines as [|l lines IH]; intros st.
  - intros [= <-]. cbn. symmetry. apply app_nil_r.
  - cbn [GitServerEarly.blame_loop].
    destruct (GitServerEarly.blame_step h st l) as [st1|m] eqn:E; [|discriminate].
    cbn [bind]. intros H. rewrite (IH _ H), (early_step_contents _ _ _ E).
    now rewrite (content_texts_cons l lines), map_app, app_assoc.
Qed.

(** While no commit-info line has been seen, the earlier loop throws at
    the first tag line. *)
Lemma early_loop_tag_throws (pre : list string) out :
  forallb (fun l => negb (matches_hex40 l)) pre = true ->
  existsb is_tag pre = true ->
  exists key,
    GitServerEarly.blame_loop h pre (None, out) = Throw (cannot_set "null" key)
    /\ (key = "author" \/ key = "date").
Proof.
  revert out. induction pre as [|l pre IH]; intros out Hh Ht; [discriminate|].
  cbn [forallb existsb] in Hh, Ht.
  apply andb_true_iff in Hh as [Hl Hh]. apply negb_true_iff in Hl.
  cbn [GitServerEarly.blame_loop]. unfold GitServerEarly.blame_step. rewrite Hl.
  unfold is_tag in Ht.
  destruct (startsWith l "author ").
  { exists "author". split; [reflexivity|now left]. }
  destruct (startsWith l "author-time ").
  { exists "date". split; [reflexivity|now right]. }
  cbn [orb] in Ht.
  destruct (startsWith l tab); cbn [bind]; apply (IH _ Hh Ht).
Qed.

End BlameContents.

(** X1: for every output of [git blame], well formed or not, the parse loop
    of [git-server.js] emits exactly one record per tab-prefixed line, in
    input order, and the record's content is the line without its tab. *)
Theorem blame_record_per_content_line (h : Host) (stdout : string) :
  map BlameTable.content_of (GitServer.parse_blame h stdout)
  = map JStr (BlameStream.content_texts (split LF stdout))
  /\ length (GitServer.parse_blame h stdout)
     = length (filter BlameStream.is_content (split LF stdout)).
Proof.
  assert (H : map BlameTable.content_of (GitServer.parse_blame h stdout)
              = map JStr (BlameStream.content_texts (split LF stdout))).
  { unfold GitServer.parse_blame, GitServer.parse_lines.
    now rewrite fold_blame_contents_all. }
  split; [exact H|].
  apply (f_equal (@length jsval)) in H.
  unfold BlameStream.content_texts in H. now rewrite !length_map in H.
Qed.

(** X2: the parse loop of the earlier server throws exactly when an
    [author ] or [author-time ] line stands before the first commit-info
    line (its [currentCommit] is still [null] there); otherwise it returns
    one record per tab-prefixed line, in input order. *)
Theorem early_blame_throws_iff_tag_first (h : Host) (stdout : string) :
  if existsb BlameStream.is_tag
       (BlameStream.before_first_header (split LF stdout))
  then exists key,
         GitServerEarly.parse_blame h stdout = Throw (cannot_set "null" key)
         /\ (key = "author" \/ key = "date")
  else exists records,
         GitServerEarly.parse_blame h stdout = Ok records
         /\ map BlameTable.content_of records
            = map JStr (BlameStream.content_texts (split LF stdout)).
Proof.
  unfold GitServerEarly.parse_blame, GitServerEarly.parse_lines.
  destruct (lines_before_and_after (split LF stdout)) as (rest & Heq & Hrest).
  pose proof (before_first_header_no_header (split LF stdout)) as Hh.
  destruct (existsb BlameStream.is_tag
              (BlameStream.before_first_header (split LF stdout))) eqn:Et.
  - destruct (early_loop_tag_throws h _ [] Hh Et) as (key & Hthrow & Hkey).
    exists key. split; [|exact Hkey].
    rewrite Heq, early_loop_app, Hthrow. reflexivity.
  - assert (Hnt : forallb (fun l => negb (BlameStream.is_tag l))
                    (BlameStream.before_first_header (split LF stdout)) = true).
    { clear -Et. induction (BlameStream.before_first_header (split LF stdout))
        as [|l pre IH]; [reflexivity|].
      cbn [existsb forallb] in *. apply orb_false_iff in Et as [-> Et].
      now rewrite IH. }
    assert (Hok : exists st,
               GitServerEarly.blame_loop h (split LF stdout) (None, []) = Ok st).
    { rewrite Heq, early_loop_app,
        (early_loop_unattributed h _ [] Hh Hnt). cbn [bind].
      destruct Hrest as [-> | (l & rest' & -> & Hl)]; [now eexists|].
      cbn [GitServerEarly.blame_loop].
      rewrite (early_step_header h l _ _ Hl). cbn [bind].
      destruct (early_loop_total h rest' [("hash", JStr (substringTo 8 l))]
                  ([] ++ map BlameStream.unattributed
                           (BlameStream.content_texts
                              (BlameStream.before_first_header (split LF stdout))))%list)
        as (cur & extra & ->). now eexists. }
    destruct Hok as [st Hst]. exists (snd st). rewrite Hst. split; [reflexivity|].
    now rewrite (early_loop_contents_all h _ _ _ Hst).
Qed.

(** ** The blame table *)

Section BlameRows.
Import BlameStream BlameTable.
Variable h : Host.

Lemma lookup_set_prop (fields : list (string * jsval)) (k k' : string) v :
  lookup (set_prop fields k v) k'
  = if String.eqb k k' then v else lookup fields k'.
Proof.
  destruct (String.eqb k k') eqn:E.
  - apply String.eqb_eq in E. subst k'. apply lookup_set_prop_same.
  - now apply lookup_set_prop_other.
Qed.

Lemma stringly_set_prop (fields : list (string * jsval)) (k s : string) :
  stringly_fields fields -> stringly_fields (set_prop fields k (JStr s)).
Proof.
  intros H k'. rewrite lookup_set_prop. destruct (String.eqb k k'); [reflexivity|apply H].
Qed.

Lemma stringly_nth (parts : list string) (n : nat) :
  stringly (nth n (map JStr parts) JUndefined) = true.
Proof.
  revert n. induction parts as [|p parts IH]; intros [|n]; try reflexivity.
  apply IH.
Qed.

Lemma blame_step_parsed (l : string) cur out :
  stringly_fields cur -> Forall parsed_record out ->
  stringly_fields (fst (GitServer.blame_step h (cur, out) l))
  /\ Forall parsed_record (snd (GitServer.blame_step h (cur, out) l)).
Proof.
  intros Hcur Hout. unfold GitServer.blame_step.
  destruct (matches_hex40 l).
  { split; [|exact Hout]. intros k. cbn [fst lookup].
    destruct (String.eqb "hash" k); [reflexivity|].
    destruct (String.eqb "line" k); [apply stringly_nth|reflexivity]. }
  destruct (startsWith l "author ").
  { split; [|exact Hout]. now apply stringly_set_prop. }
  destruct (startsWith l "author-time ").
  { split; [|exact Hout]. now apply stringly_set_prop. }
  destruct (startsWith l tab); [|now split].
  split; [exact Hcur|]. cbn [snd]. apply Forall_app. split; [exact Hout|].
  constructor; [|constructor].
  eexists. split; [reflexivity|]. split; [now apply stringly_set_prop|].
  eexists. apply lookup_set_prop_same.
Qed.

Lemma parse_lines_parsed (lines : list string) :
  Forall parsed_record (GitServer.parse_lines h lines).
Proof.
  unfold GitServer.parse_lines.
  assert (H : forall st,
             stringly_fields (fst st) -> Forall parsed_record (snd st) ->
             Forall parsed_record (snd (fold_left (GitServer.blame_step h) lines st))).
  { induction lines as [|l lines IH]; intros [cur out] Hc Ho; [exact Ho|].
    cbn [fold_left]. destruct (blame_step_parsed l cur out Hc Ho) as [Hc' Ho'].
    destruct (GitServer.blame_step h (cur, out) l) as [cur' out'].
    now apply IH. }
  apply H; [intros k; reflexivity|constructor].
Qed.

(** A row is rendered, or [padEnd] is called on [undefined]. *)
Lemma render_row_parsed (r : jsval) :
  parsed_record r ->
  (exists row, GitServer.render_row r = Ok row)
  \/ GitServer.render_row r = Throw (cannot_read "undefined" "padEnd").
Proof.
  intros (fields & -> & Hs & c & Hc). unfold GitServer.render_row.
  cbn [get bind]. rewrite Hc.
  pose proof (Hs "line") as Hl. pose proof (Hs "author") as Ha.
  pose proof (Hs "date") as Hd.
  destruct (lookup fields "line"); try discriminate Hl; [now right|].
  destruct (lookup fields "author"); try discriminate Ha; [now right|].
  destruct (lookup fields "date"); try discriminate Hd; [now right|].
  left. eexists. reflexivity.
Qed.

Lemma traverse_rows_parsed (records : list jsval) :
  Forall parsed_record records ->
  (exists rows, traverse GitServer.render_row records = Ok rows)
  \/ traverse GitServer.render_row records
     = Throw (cannot_read "undefined" "padEnd").
Proof.
  induction 1 as [|r records Hr _ IH]; [left; now eexists|].
  cbn [traverse].
  destruct (render_row_parsed r Hr) as [[row ->] | ->]; [|now right].
  cbn [bind]. destruct IH as [[rows ->] | ->]; [left; now eexists|now right].
Qed.

(** The records of a stream of well-formed blocks. *)
Lemma parse_blame_blocks (final_newline : bool) (blocks : list block) :
  forallb well_formed blocks = true ->
  GitServer.parse_blame h (stream final_newline blocks)
  = flat_map (fun b => map (attributed h b) (contents b)) blocks.
Proof.
  intros H.
  destruct (stream_lines final_newline blocks H) as (rest & Hsplit & Hrest).
  unfold GitServer.parse_blame, GitServer.parse_lines.
  rewrite Hsplit, fold_left_app.
  pose proof (fold_blame_blocks h blocks [] [] H) as Hfold.
  destruct (fold_left (GitServer.blame_step h) (flat_map block_lines blocks)
              ([], [])) as [cur out].
  simpl in Hfold. subst out.
  destruct Hrest as [-> | ->]; reflexivity.
Qed.

Lemma nth_map_JStr (parts : list string) (n : nat) :
  (n <? length parts)%nat = true ->
  nth n (map JStr parts) JUndefined = JStr (nth n parts EmptyString).
Proof.
  revert n. induction parts as [|p parts IH]; intros [|n] H;
    try discriminate H; [reflexivity|].
  apply IH. exact H.
Qed.

Lemma render_attributed (b : block) (c : string) :
  has_line_token b = true ->
  GitServer.render_row (attributed h b c) = Ok (row h b c).
Proof.
  intros H. unfold GitServer.render_row, attributed. cbn [get bind lookup String.eqb
    Ascii.eqb Bool.eqb].
  rewrite (nth_map_JStr _ _ H). reflexivity.
Qed.

Lemma traverse_attributed (blocks : list block) :
  forallb has_line_token blocks = true ->
  traverse GitServer.render_row
    (flat_map (fun b => map (attributed h b) (contents b)) blocks)
  = Ok (flat_map (fun b => map (row h b) (contents b)) blocks).
Proof.
  assert (Happ : forall (l1 l2 : list jsval) r1 r2,
             traverse GitServer.render_row l1 = Ok r1 ->
             traverse GitServer.render_row l2 = Ok r2 ->
             traverse GitServer.render_row (l1 ++ l2)%list = Ok (r1 ++ r2)%list).
  { induction l1 as [|x l1 IH]; intros l2 r1 r2 H1 H2.
    - injection H1 as <-. exact H2.
    - cbn [app traverse] in *.
      destruct (GitServer.render_row x); [|discriminate]. cbn [bind] in *.
      destruct (traverse GitServer.render_row l1) as [r1'|] eqn:E; [|discriminate].
      cbn [bind] in H1. injection H1 as <-.
      now rewrite (IH l2 r1' r2 eq_refl H2). }
  induction blocks as [|b blocks IH]; intros H; [reflexivity|].
  cbn [forallb] in H. apply andb_true_iff in H as [Hb Hrest].
  cbn [flat_map]. apply Happ; [|now apply IH].
  induction (contents b) as [|c cs IHc]; [reflexivity|].
  cbn [map traverse]. rewrite (render_attributed b c Hb). cbn [bind].
  now rewrite IHc.
Qed.

End BlameRows.

(** X3: when [git blame] succeeds with a stream of well-formed blocks whose
    headers carry a line number, [git_blame] of [git-server.js] returns a
    success envelope: the title, the two header lines and one table row
    per content line, in input order, each row built from its own block. *)
Theorem git_blame_table_of_blocks
  (h : Host) (fields : list (string * jsval)) (final_newline : bool)
  (blocks : list BlameStream.block) (stderr : string) :
  forallb BlameStream.well_formed blocks = true ->
  forallb BlameTable.has_line_token blocks = true ->
  run_process h
    (JStr (GitServer.blame_command (lookup fields "repoPath") (lookup fields "file")))
    JUndefined
  = Exited 0 (BlameStream.stream final_newline blocks) stderr ->
  GitServer.call_tool h "git_blame" (JObj fields)
  = Returned
      (ok ("Blame for " ++ to_str (lookup fields "file") ++ ":" ++ nl ++ nl
           ++ GitServer.table_header ++ nl ++ GitServer.table_separator ++ nl
           ++ join nl (flat_map (fun b => map (BlameTable.row h b)
                                            (BlameStream.contents b)) blocks))).
Proof.
  intros Hwf Htok Hrun.
  unfold GitServer.call_tool, handle, GitServer.cases.
  cbn [switch String.eqb Ascii.eqb Bool.eqb run_from].
  unfold GitServer.git_blame at 1. cbn [get and_then].
  unfold exec_line, execAsync. rewrite Hrun. cbn [and_then].
  rewrite (parse_blame_blocks h final_newline blocks Hwf).
  rewrite (traverse_attributed h blocks Htok). reflexivity.
Qed.

(** Two blocks, three rows. *)
Lemma git_blame_table_of_blocks_witness :
  GitServer.call_tool
    (Samples.host 0 (BlameStream.stream true Samples.blocks) EmptyString [])
    "git_blame" (JObj [("repoPath", JStr "/srv/app"); ("file", JStr "a.txt")])
  = Returned
      (ok ("Blame for a.txt:" ++ nl ++ nl
           ++ GitServer.table_header ++ nl ++ GitServer.table_separator ++ nl
           ++ "| 1    | 01234567 | Ada           | 1700000000000 | `first line` |"
           ++ nl
           ++ "| 1    | 01234567 | Ada           | 1700000000000 | `second line` |"
           ++ nl
           ++ "| 3    | 89abcdef | Grace         | 1700000100000 | `third line` |")).
Proof.
  apply (git_blame_table_of_blocks
           (Samples.host 0 (BlameStream.stream true Samples.blocks) EmptyString [])
           [("repoPath", JStr "/srv/app"); ("file", JStr "a.txt")]
           true Samples.blocks EmptyString); reflexivity.
Defined.

(** X4: once [git blame] itself has succeeded, [git_blame] of
    [git-server.js] has one way to fail only: [padEnd] called on an absent
    line number, author or date.  Whatever the output looks like, the
    result is a success envelope or the failure carrying that type
    error. *)
Theorem git_blame_fails_on_padEnd_only
  (h : Host) (fields : list (string * jsval)) (stdout stderr : string) :
  run_process h
    (JStr (GitServer.blame_command (lookup fields "repoPath") (lookup fields "file")))
    JUndefined = Exited 0 stdout stderr ->
  (exists text, GitServer.call_tool h "git_blame" (JObj fields) = Returned (ok text))
  \/ GitServer.call_tool h "git_blame" (JObj fields)
     = Returned (failure ("Error: " ++ cannot_read "undefined" "padEnd")).
Proof.
  intros Hrun.
  unfold GitServer.call_tool, handle, GitServer.cases.
  cbn [switch String.eqb Ascii.eqb Bool.eqb run_from].
  unfold GitServer.git_blame. cbn [get and_then].
  unfold exec_line, execAsync. rewrite Hrun. cbn [and_then].
  destruct (traverse_rows_parsed (GitServer.parse_blame h stdout)
              (parse_lines_parsed h (split LF stdout))) as [[rows ->] | ->].
  - left. now eexists.
  - right. reflexivity.
Qed.

(** A header without a line number: the row cannot be rendered. *)
Lemma git_blame_fails_on_padEnd_only_witness :
  GitServer.call_tool
    (Samples.host 0 (Samples.hex40 ++ nl ++ "author Ada" ++ nl ++ tab ++ "x")
       EmptyString [])
    "git_blame" (JObj [("repoPath", JStr "/srv/app"); ("file", JStr "a.txt")])
  = Returned (failure ("Error: " ++ cannot_read "undefined" "padEnd")).
Proof.
  destruct (git_blame_fails_on_padEnd_only
              (Samples.host 0 (Samples.hex40 ++ nl ++ "author Ada" ++ nl ++ tab ++ "x")
                 EmptyString [])
              [("repoPath", JStr "/srv/app"); ("file", JStr "a.txt")]
              (Samples.hex40 ++ nl ++ "author Ada" ++ nl ++ tab ++ "x") EmptyString
              eq_refl) as [[text H] | H].
  - discriminate H.
  - exact H.
Defined.

(** ** The classifier as a list of rules *)

Section ClassifierAsRules.
Import GitServer ClassifierRules.

Lemma has_path_file (f : ChangeRecord) :
  has_path f = true -> file f = JStr (path_of f).
Proof. unfold has_path, path_of. destruct (file f); try discriminate. reflexivity. Qed.

Lemma every_is_doc (files : list ChangeRecord) :
  forallb has_path files = true ->
  every is_doc files = Ok (forallb doc_like files).
Proof.
  induction files as [|f files IH]; [reflexivity|].
  cbn [forallb]. intros H. apply andb_true_iff in H as [Hf Hrest].
  cbn [every]. unfold is_doc at 1, doc_like at 1.
  rewrite (has_path_file f Hf). cbn [receiver bind].
  destruct (_ || _); [now apply IH|reflexivity].
Qed.

Lemma some_is_test (files : list ChangeRecord) :
  forallb has_path files = true ->
  some is_test files = Ok (existsb test_like files).
Proof.
  induction files as [|f files IH]; [reflexivity|].
  cbn [forallb]. intros H. apply andb_true_iff in H as [Hf Hrest].
  cbn [some existsb]. unfold is_test at 1, test_like at 1.
  rewrite (has_path_file f Hf). cbn [receiver bind].
  destruct (_ || _); [reflexivity|now apply IH].
Qed.

Lemma with_status_length (letter : string) (files : list ChangeRecord) :
  (0 <? length (with_status letter files))%nat = existsb (has_status letter) files
  /\ (length (with_status letter files) =? 0)%nat
     = negb (existsb (has_status letter) files).
Proof.
  unfold with_status. induction files as [|f files [IH1 IH2]]; [now split|].
  cbn [filter existsb]. destruct (has_status letter f); [now split|].
  now split.
Qed.

Lemma with_status_paths (letter : string) (files : list ChangeRecord) :
  forallb has_path files = true ->
  forallb has_path (with_status letter files) = true.
Proof.
  unfold with_status. induction files as [|f files IH]; [reflexivity|].
  cbn [forallb filter]. intros H. apply andb_true_iff in H as [Hf Hrest].
  destruct (has_status letter f); [cbn [forallb]; now rewrite Hf, IH|now apply IH].
Qed.

Lemma count_or_first (noun : string) (group : list ChangeRecord) :
  group <> [] -> forallb has_path group = true ->
  (if (1 <? length group)%nat then of_nat (length group) ++ noun
   else first_file group)
  = count_or_path noun group.
Proof.
  destruct group as [|f [|g group]]; [congruence| |reflexivity].
  intros _ H. cbn [forallb] in H. apply andb_true_iff in H as [Hf _].
  cbn. now rewrite (has_path_file f Hf).
Qed.

(** With a path in every record the classifier follows the rules. *)
Lemma classify_follows_rules (files : list ChangeRecord) :
  forallb has_path files = true ->
  classify files = Ok (rules files).
Proof.
  intros Hp. unfold classify, classify_chain, rules.
  destruct (with_status_length "A" files) as [-> _].
  destruct (with_status_length "M" files) as [HM ->].
  destruct (with_status_length "D" files) as [_ ->].
  rewrite HM.
  destruct (existsb (has_status "A") files) eqn:Ea;
    destruct (existsb (has_status "M") files) eqn:Em;
    destruct (existsb (has_status "D") files) eqn:Ed; cbn [andb negb bind].
  all: rewrite ?(every_is_doc files Hp), ?(some_is_test files Hp); cbn [bind].
  all: try (rewrite (count_or_first " new files" (with_status "A" files)
                       (with_status_some _ _ Ea) (with_status_paths _ _ Hp))).
  all: try (rewrite (count_or_first " files" (with_status "M" files)
                       (with_status_some _ _ Em) (with_status_paths _ _ Hp))).
  all: destruct (existsb is_manifest files); try reflexivity.
  all: destruct (forallb doc_like files); cbn [bind]; try reflexivity.
  all: rewrite ?(some_is_test files Hp); cbn [bind].
  all: destruct (existsb test_like files); reflexivity.
Qed.

End ClassifierAsRules.

(** X5: on change records that all carry a path, the commit classifier of
    [git-server.js] computes exactly the decision policy read as a list of
    rules with the dependency override first: chore for a manifest, else
    feat for additions without modifications or deletions, else docs when
    every path is documentation-like, else test when some path contains
    "test" or "spec", else fix when something is modified, else chore. *)
Theorem classify_is_rule_list (files : list GitServer.ChangeRecord) :
  forallb GitServer.has_path files = true ->
  GitServer.classify files = Ok (ClassifierRules.rules files)
  /\ In (fst (ClassifierRules.rules files)) ["feat"; "docs"; "test"; "fix"; "chore"].
Proof.
  intros Hp. split; [now apply classify_follows_rules|].
  unfold ClassifierRules.rules.
  repeat match goal with
         | |- context [if ?b then _ else _] => destruct b
         end; simpl; tauto.
Qed.

(** A modified README is documentation; a modified test next to a source
    file is a test change. *)
Lemma classify_is_rule_list_witness :
  GitServer.classify
    [ {| GitServer.status := "M"; GitServer.file := JStr "README.md" |} ]
  = Ok ("docs", "update documentation")
  /\ GitServer.classify
       [ {| GitServer.status := "M"; GitServer.file := JStr "src/app.ts" |};
         {| GitServer.status := "M"; GitServer.file := JStr "src/app.test.ts" |} ]
     = Ok ("test", "update tests").
Proof.
  split.
  - apply (classify_is_rule_list
             [ {| GitServer.status := "M"; GitServer.file := JStr "README.md" |} ]).
    reflexivity.
  - apply (classify_is_rule_list
             [ {| GitServer.status := "M"; GitServer.file := JStr "src/app.ts" |};
               {| GitServer.status := "M";
                  GitServer.file := JStr "src/app.test.ts" |} ]).
    reflexivity.
Defined.

(** ** Reading the staged listing *)

Section StagedListing.
Import GitServer ClassifierRules.

Lemma split_lacks (c : ascii) (s : string) :
  lacks c s = true -> split c s = [s].
Proof.
  induction s as [|d s IH]; [reflexivity|].
  cbn [lacks split]. intros H. apply andb_true_iff in H as [Hd Hs].
  apply negb_true_iff in Hd. rewrite Hd, (IH Hs). reflexivity.
Qed.

Lemma split_at_sep (c : ascii) (s t : string) :
  lacks c s = true -> split c (s ++ String c t) = s :: split c t.
Proof.
  induction s as [|d s IH]; cbn [lacks split append].
  - intros _. now rewrite Ascii.eqb_refl.
  - intros H. apply andb_true_iff in H as [Hd Hs].
    apply negb_true_iff in Hd. rewrite Hd, (IH Hs). reflexivity.
Qed.

Lemma split_join_lines (lines : list string) :
  lines <> [] -> forallb (lacks LF) lines = true ->
  split LF (join nl lines) = lines.
Proof.
  induction lines as [|l rest IH]; [congruence|].
  intros _ H. cbn [forallb] in H. apply andb_true_iff in H as [Hl Hrest].
  destruct rest as [|l' rest'].
  - apply split_lacks, Hl.
  - change (join nl (l :: l' :: rest'))
      with (l ++ String LF (join nl (l' :: rest'))).
    rewrite (split_at_sep LF _ _ Hl), IH; [reflexivity|discriminate|exact Hrest].
Qed.

Lemma trimStart_clean (s : string) : starts_clean s = true -> trimStart s = s.
Proof.
  destruct s as [|c s]; [discriminate|]. cbn [starts_clean trimStart].
  intros H. apply negb_true_iff in H. now rewrite H.
Qed.

Lemma trimEnd_clean (s : string) :
  ends_clean s = true -> trimEnd (s ++ nl) = s.
Proof.
  induction s as [|c s IH]; [discriminate|].
  destruct s as [|c' s'].
  - cbn [ends_clean]. intros H. apply negb_true_iff in H.
    cbn. now rewrite H.
  - intros H. change (ends_clean (String c (String c' s')))
      with (ends_clean (String c' s')) in H.
    specialize (IH H).
    change (trimEnd (String c (String c' s') ++ nl))
      with (match trimEnd (String c' s' ++ nl) with
            | EmptyString => if is_space c then EmptyString else String c EmptyString
            | rest => String c rest
            end).
    now rewrite IH.
Qed.

Lemma trim_listing (s : string) :
  starts_clean s = true -> ends_clean s = true -> trim (s ++ nl) = s.
Proof.
  intros Hs He. unfold trim.
  rewrite trimStart_clean; [now apply trimEnd_clean|].
  destruct s; [discriminate|exact Hs].
Qed.

Lemma parse_printed (f : ChangeRecord) :
  printable f = true -> parse_change (name_status_line f) = f.
Proof.
  unfold printable. intros H.
  apply andb_true_iff in H as [H _]. apply andb_true_iff in H as [H Hp].
  apply andb_true_iff in H as [H _]. apply andb_true_iff in H as [Hpath Hs].
  unfold parse_change, name_status_line.
  rewrite (split_at_sep TAB _ _ Hs), (split_lacks TAB _ Hp).
  destruct f as [s v]. cbn [status file] in *.
  unfold has_path, path_of in *. cbn [file] in *.
  destruct v; try discriminate. reflexivity.
Qed.

Lemma printable_line (f : ChangeRecord) :
  printable f = true -> lacks LF (name_status_line f) = true.
Proof.
  unfold printable, name_status_line. intros H.
  apply andb_true_iff in H as [H Hp]. apply andb_true_iff in H as [H _].
  apply andb_true_iff in H as [_ Hs].
  induction (status f) as [|c s IH]; [exact Hp|].
  cbn [lacks append] in *. apply andb_true_iff in Hs as [-> Hs]. now apply IH.
Qed.

Lemma printable_paths (files : list ChangeRecord) :
  forallb printable files = true -> forallb has_path files = true.
Proof.
  induction files as [|f files IH]; [reflexivity|].
  cbn [forallb]. intros H. apply andb_true_iff in H as [Hf Hrest].
  rewrite (IH Hrest), andb_true_r.
  unfold printable in Hf. repeat (apply andb_true_iff in Hf as [Hf _]). exact Hf.
Qed.

Lemma read_listing (files : list ChangeRecord) :
  files <> [] -> forallb printable files = true ->
  starts_clean (listing files) = true -> ends_clean (listing files) = true ->
  map parse_change (split LF (trim (listing files ++ nl))) = files.
Proof.
  intros Hne Hp Hs He. rewrite (trim_listing _ Hs He). unfold listing.
  rewrite split_join_lines.
  - rewrite map_map. clear -Hp. induction files as [|f files IH]; [reflexivity|].
    cbn [forallb map] in *. apply andb_true_iff in Hp as [Hf Hrest].
    now rewrite (parse_printed f Hf), IH.
  - destruct files; [congruence|discriminate].
  - clear -Hp. induction files as [|f files IH]; [reflexivity|].
    cbn [forallb map] in *. apply andb_true_iff in Hp as [Hf Hrest].
    now rewrite (printable_line f Hf), IH.
Qed.

End StagedListing.

(** X6: a line of [git diff --name-status] is read by its first two
    tab-separated fields: the record of a rename line
    [status TAB old TAB new] carries the old path, and a line without a
    tab gives a record whose file is undefined. *)
Theorem parse_change_first_two_fields (s p rest : string) :
  ClassifierRules.lacks TAB s = true ->
  ClassifierRules.lacks TAB p = true ->
  GitServer.parse_change (s ++ String TAB p)
  = {| GitServer.status := s; GitServer.file := JStr p |}
  /\ GitServer.parse_change (s ++ String TAB (p ++ String TAB rest))
     = {| GitServer.status := s; GitServer.file := JStr p |}
  /\ GitServer.parse_change s
     = {| GitServer.status := s; GitServer.file := JUndefined |}.
Proof.
  intros Hs Hp. unfold GitServer.parse_change. repeat split.
  - now rewrite (split_at_sep TAB _ _ Hs), (split_lacks TAB _ Hp).
  - rewrite (split_at_sep TAB _ _ Hs), (split_at_sep TAB _ _ Hp).
    destruct (split TAB rest); reflexivity.
  - now rewrite (split_lacks TAB _ Hs).
Qed.

(** A rename from [old.ts] to [new.ts]. *)
Lemma parse_change_first_two_fields_witness :
  GitServer.parse_change ("R100" ++ String TAB ("old.ts" ++ String TAB "new.ts"))
  = {| GitServer.status := "R100"; GitServer.file := JStr "old.ts" |}.
Proof.
  destruct (parse_change_first_two_fields "R100" "old.ts" "new.ts")
    as (_ & H & _); [reflexivity|reflexivity|exact H].
Defined.

(** X7: [generate_commit_message] of [git-server.js] reads the staged
    listing back exactly: when [git diff --staged --name-status] prints
    one line per record (status, tab, path, with no tab or newline inside
    them and no white space at either end of the listing), the envelope
    shows the type and summary that the rules give for these records,
    followed by the list of changes in input order. *)
Theorem generate_commit_message_of_listing
  (h : Host) (fields : list (string * jsval))
  (files : list GitServer.ChangeRecord) (stderr : string) :
  files <> [] ->
  forallb ClassifierRules.printable files = true ->
  ClassifierRules.starts_clean (ClassifierRules.listing files) = true ->
  ClassifierRules.ends_clean (ClassifierRules.listing files) = true ->
  run_process h
    (JStr (GitServer.git_c (lookup fields "repoPath")
           ++ " diff --staged --name-status")) JUndefined
  = Exited 0 (ClassifierRules.listing files ++ nl) stderr ->
  GitServer.call_tool h "generate_commit_message" (JObj fields)
  = Returned
      (ok ("Suggested commit message:" ++ nl ++ nl
           ++ (fst (ClassifierRules.rules files) ++ ": "
               ++ snd (ClassifierRules.rules files))
           ++ nl ++ nl ++ "Changes:" ++ nl ++ GitServer.change_list files)).
Proof.
  intros Hne Hp Hs He Hrun.
  unfold GitServer.call_tool, handle, GitServer.cases.
  cbn [switch String.eqb Ascii.eqb Bool.eqb run_from].
  unfold GitServer.generate_commit_message. cbn [get and_then].
  unfold exec_line, execAsync. rewrite Hrun. cbn [and_then].
  replace (String.eqb (ClassifierRules.listing files ++ nl) EmptyString) with false.
  - rewrite (read_listing files Hne Hp Hs He).
    rewrite (classify_follows_rules files (printable_paths files Hp)).
    cbn [and_then]. destruct (ClassifierRules.rules files) as [type summary].
    reflexivity.
  - destruct (ClassifierRules.listing files); reflexivity.
Qed.

(** An added source file and a modified README. *)
Lemma generate_commit_message_of_listing_witness :
  GitServer.call_tool
    (Samples.host 0 ("A" ++ tab ++ "src/a.ts" ++ nl ++ "M" ++ tab ++ "README.md" ++ nl)
       EmptyString [])
    "generate_commit_message" (JObj [("repoPath", JStr "/srv/app")])
  = Returned
      (ok ("Suggested commit message:" ++ nl ++ nl
           ++ "fix: update 'README.md'" ++ nl ++ nl ++ "Changes:" ++ nl
           ++ "- A: src/a.ts" ++ nl ++ "- M: README.md")).
Proof.
  apply (generate_commit_message_of_listing
           (Samples.host 0
              ("A" ++ tab ++ "src/a.ts" ++ nl ++ "M" ++ tab ++ "README.md" ++ nl)
              EmptyString [])
           [("repoPath", JStr "/srv/app")]
           [ {| GitServer.status := "A"; GitServer.file := JStr "src/a.ts" |};
             {| GitServer.status := "M"; GitServer.file := JStr "README.md" |} ]
           EmptyString); try reflexivity.
  discriminate.
Defined.

(** ** More on the structural validator *)

(** X8: the validator reports at most one error per declared property:
    whenever it returns, the error list is no longer than the list of
    properties the shape declares. *)
Theorem validate_error_count
  (h : Host) (value shape : jsval) (errors : list string) :
  ApiTesting.validate h value shape = Ok errors ->
  length errors
  <= length (entries (ValidatorSpec.field shape "properties")).
Proof.
  rewrite validate_outcome. unfold ValidatorSpec.outcome.
  destruct (ValidatorSpec.nullish shape); [discriminate|].
  destruct (ValidatorSpec.first_fault _); [discriminate|].
  intros [= <-]. unfold ValidatorSpec.findings, ValidatorSpec.verdicts.
  assert (Hone : forall l, length (flat_map ValidatorSpec.reported l) <= length l).
  { induction l as [|v l IH]; [simpl; lia|].
    cbn [flat_map]. rewrite length_app. destruct v; simpl in *; lia. }
  etransitivity; [apply Hone|]. rewrite length_map.
  unfold ValidatorSpec.declared. destruct (_ && _); simpl; lia.
Qed.

(** Two declared properties, one error. *)
Lemma validate_error_count_witness :
  length ["Type mismatch at tags: expected object, got array"] <= 2.
Proof.
  apply (validate_error_count
           (Samples.host 0 EmptyString EmptyString [])
           (JObj [("tags", JArr []); ("id", JNum 1)])
           (JObj [("type", JStr "object");
                  ("properties", JObj [("tags", JObj [("type", JStr "object")]);
                                       ("id", JObj [("type", JStr "number")])]);
                  ("required", JArr [JStr "id"])])).
  reflexivity.
Defined.

(** X9: for a [null] or [undefined] value the validator throws as soon as
    the shape declares a property: the read of the first property, in the
    order of enumeration, fails, and the message names it.  Against a
    shape that declares none (it has another type than ["object"], or no
    [properties]) it returns the empty error list, and against a shape
    that is itself [null] or [undefined] it throws on the read of
    [type]. *)
Theorem validate_null_value (h : Host) (value shape : jsval) :
  ValidatorSpec.nullish value = true ->
  ApiTesting.validate h value shape
  = if ValidatorSpec.nullish shape
    then Throw (cannot_read (to_str shape) "type")
    else match ValidatorSpec.declared shape with
         | [] => Ok []
         | (key, _) :: _ => Throw (cannot_read (to_str value) key)
         end.
Proof.
  intros Hnull. rewrite validate_outcome.
  unfold ValidatorSpec.outcome, ValidatorSpec.findings, ValidatorSpec.verdicts.
  destruct (ValidatorSpec.nullish shape); [reflexivity|].
  destruct (ValidatorSpec.declared shape) as [|[key description] rest];
    [reflexivity|].
  cbn [map ValidatorSpec.first_fault].
  unfold ValidatorSpec.property_verdict at 1. rewrite Hnull. reflexivity.
Qed.

(** [null] against a shape of type [string], against the shape with a
    required [id], against a shape whose property [0] is declared last,
    and against no shape. *)
Lemma validate_null_value_witness :
  let h := Samples.host 0 EmptyString EmptyString [] in
  ApiTesting.validate h JNull (JObj [("type", JStr "string")]) = Ok []
  /\ ApiTesting.validate h JNull Samples.id_shape = Throw (cannot_read "null" "id")
  /\ ApiTesting.validate h JNull
       (JObj [("type", JStr "object");
              ("properties", JObj [("id", JObj []); ("0", JObj [])])])
     = Throw (cannot_read "null" "0")
  /\ ApiTesting.validate h JNull JUndefined
     = Throw (cannot_read "undefined" "type").
Proof.
  intros h. split; [|split; [|split]].
  - apply (validate_null_value h JNull (JObj [("type", JStr "string")])).
    reflexivity.
  - apply (validate_null_value h JNull Samples.id_shape). reflexivity.
  - apply (validate_null_value h JNull
             (JObj [("type", JStr "object");
                    ("properties", JObj [("id", JObj []); ("0", JObj [])])])).
    reflexivity.
  - apply (validate_null_value h JNull JUndefined). reflexivity.
Defined.

(** X10: the validator looks at the type tags of the top-level fields and
    at nothing else of the value: two values that are neither [null] nor
    [undefined] and whose fields, own or inherited, have the same tags
    for every declared property get the same answer, whatever the fields
    contain. *)
Theorem validate_top_level_only (h : Host) (v1 v2 shape : jsval) :
  ValidatorSpec.nullish v1 = false ->
  ValidatorSpec.nullish v2 = false ->
  (forall key,
     In key (map fst (ValidatorSpec.declared shape)) ->
     ValidatorSpec.field_tag h v1 key = ValidatorSpec.field_tag h v2 key) ->
  ApiTesting.validate h v1 shape = ApiTesting.validate h v2 shape.
Proof.
  intros H1 H2 Htags. rewrite !validate_outcome.
  unfold ValidatorSpec.outcome, ValidatorSpec.findings, ValidatorSpec.verdicts.
  replace (map (ValidatorSpec.property_verdict h v1 shape)
             (ValidatorSpec.declared shape))
    with (map (ValidatorSpec.property_verdict h v2 shape)
            (ValidatorSpec.declared shape)); [reflexivity|].
  apply map_ext_in. intros entry Hentry.
  unfold ValidatorSpec.property_verdict. rewrite H1, H2.
  rewrite (Htags (fst entry)); [reflexivity|].
  apply in_map_iff. now exists entry.
Qed.

(** A nested object with a wrong inner type passes like a correct one. *)
Lemma validate_top_level_only_witness :
  let h := Samples.host 0 EmptyString EmptyString [] in
  ApiTesting.validate h
    (JObj [("user", JObj [("id", JStr "not a number")])])
    (JObj [("type", JStr "object");
           ("properties",
            JObj [("user",
                   JObj [("type", JStr "object");
                         ("properties", JObj [("id", JObj [("type", JStr "number")])])])])])
  = ApiTesting.validate h
      (JObj [("user", JObj [("id", JNum 7)])])
      (JObj [("type", JStr "object");
             ("properties",
              JObj [("user",
                     JObj [("type", JStr "object");
                           ("properties",
                            JObj [("id", JObj [("type", JStr "number")])])])])]).
Proof.
  intros h. apply validate_top_level_only; try reflexivity.
  intros key [<- | []]. reflexivity.
Defined.
(** ** More on the statistics of [performance_test] *)

Section PerformanceLoop.
Import ApiTesting PerformanceSpec.
Variable h : Host.

(** The loop sorts the outcomes into durations and messages, keeping the
    order of issue. *)
Lemma request_loop_sorts (method url body : jsval) (count : nat) :
  forall (i : nat) (times : list Z) (errors : list string),
  request_loop h method url body i count times errors
  = ((times ++ durations_of (map (fun k => make_request h k method url body)
                               (seq i count)))%list,
     (errors ++ messages_of (map (fun k => make_request h k method url body)
                               (seq i count)))%list).
Proof.
  induction count as [|count IH]; intros i times errors.
  - simpl. now rewrite !app_nil_r.
  - cbn [request_loop seq map].
    destruct (make_request h i method url body) as [d|m];
      rewrite IH; cbn [durations_of messages_of]; now rewrite <- app_assoc.
Qed.

Lemma sorted_lengths (l : list request_outcome) :
  length (durations_of l) + length (messages_of l) = length l.
Proof.
  induction l as [|[d|m] l IH]; simpl; lia.
Qed.

Lemma performance_stats_shape (fields : list (string * jsval)) :
  let requests := or_else (lookup fields "requests") (JNum 10) in
  performance_stats h (JObj fields)
  = bind (iterations h requests)
      (fun count =>
         let sent :=
           outcomes h (lookup fields "method") (lookup fields "url")
             (lookup fields "body") count in
         Ok {| totalRequests := requests;
               successfulRequests := length (durations_of sent);
               failedRequests := length (messages_of sent);
               averageTime := average (durations_of sent);
               minTime := minimum (durations_of sent);
               maxTime := maximum (durations_of sent);
               times := durations_of sent;
               errors := messages_of sent |}).
Proof.
  intros requests. unfold performance_stats. cbn [get bind].
  fold requests. destruct (iterations h requests) as [count|]; [|reflexivity].
  cbn [bind]. rewrite request_loop_sorts. reflexivity.
Qed.

Lemma total_between (times : list Z) (lo hi : Z) :
  Forall (fun d => (lo <= d)%Z) times -> Forall (fun d => (d <= hi)%Z) times ->
  (lo * Z.of_nat (length times) <= fold_right Z.add 0 times
   <= hi * Z.of_nat (length times))%Z.
Proof.
  induction times as [|d times IH]; intros Hlo Hhi; [simpl; lia|].
  inversion Hlo; inversion Hhi; subst.
  cbn [fold_right length]. rewrite Nat2Z.inj_succ.
  specialize (IH ltac:(assumption) ltac:(assumption)). lia.
Qed.

End PerformanceLoop.


(** X12: when no request succeeds (all fail, or none is issued), the
    statistics hold no number: averageTime is NaN (0/0), minTime is
    Infinity and maxTime is -Infinity; and averageTime is NaN in that case
    only. *)
Theorem performance_without_success
  (h : Host) (fields : list (string * jsval)) (stats : ApiTesting.Stats) :
  ApiTesting.performance_stats h (JObj fields) = Ok stats ->
  (ApiTesting.successfulRequests stats = 0 ->
   ApiTesting.averageTime stats = ApiTesting.NaN
   /\ ApiTesting.minTime stats = ApiTesting.PosInfinity
   /\ ApiTesting.maxTime stats = ApiTesting.NegInfinity)
  /\ (ApiTesting.averageTime stats = ApiTesting.NaN ->
      ApiTesting.successfulRequests stats = 0).
Proof.
  rewrite performance_stats_shape.
  destruct (ApiTesting.iterations h _) as [count|]; [|discriminate].
  cbn [bind]. intros [= <-].
  cbn [ApiTesting.successfulRequests ApiTesting.averageTime
         ApiTesting.minTime ApiTesting.maxTime].
  destruct (PerformanceSpec.durations_of _) as [|d rest]; split.
  - intros _. repeat split.
  - reflexivity.
  - discriminate.
  - discriminate.
Qed.

(** Three requests to a host that answers none. *)
Lemma performance_without_success_witness :
  exists stats,
    ApiTesting.performance_stats (Samples.host 0 EmptyString EmptyString [])
      (JObj [("url", JStr "http://localhost:1"); ("method", JStr "GET");
             ("requests", JNum 3)]) = Ok stats
    /\ ApiTesting.failedRequests stats = 3
    /\ ApiTesting.averageTime stats = ApiTesting.NaN
    /\ ApiTesting.minTime stats = ApiTesting.PosInfinity
    /\ ApiTesting.maxTime stats = ApiTesting.NegInfinity.
Proof.
  eexists. split; [reflexivity|]. split; [reflexivity|].
  apply (performance_without_success
           (Samples.host 0 EmptyString EmptyString [])
           [("url", JStr "http://localhost:1"); ("method", JStr "GET");
            ("requests", JNum 3)]); reflexivity.
Defined.

(** X13: as soon as one request succeeds, minTime, averageTime and maxTime
    are finite and ordered: minTime <= averageTime <= maxTime. *)
Theorem performance_average_between
  (h : Host) (fields : list (string * jsval)) (stats : ApiTesting.Stats) :
  ApiTesting.performance_stats h (JObj fields) = Ok stats ->
  0 < ApiTesting.successfulRequests stats ->
  exists least q greatest,
    ApiTesting.minTime stats = ApiTesting.Finite (inject_Z least)
    /\ ApiTesting.averageTime stats = ApiTesting.Finite q
    /\ ApiTesting.maxTime stats = ApiTesting.Finite (inject_Z greatest)
    /\ (inject_Z least <= q)%Q /\ (q <= inject_Z greatest)%Q.
Proof.
  rewrite performance_stats_shape.
  destruct (ApiTesting.iterations h _) as [count|]; [|discriminate].
  cbn [bind]. intros [= <-].
  cbn [ApiTesting.successfulRequests ApiTesting.averageTime
         ApiTesting.minTime ApiTesting.maxTime].
  destruct (PerformanceSpec.durations_of _) as [|d rest]; [simpl; lia|].
  intros _.
  destruct (fold_min_least rest d) as [_ Hlo].
  destruct (fold_max_greatest rest d) as [_ Hhi].
  exists (fold_left Z.min rest d),
    (Qmake (ApiTesting.total (d :: rest)) (Pos.of_nat (length (d :: rest)))),
    (fold_left Z.max rest d).
  repeat split.
  - pose proof (total_between (d :: rest) (fold_left Z.min rest d)
                  (fold_left Z.max rest d) Hlo Hhi) as [Hsum _].
    unfold Qle. cbn [Qnum Qden inject_Z]. rewrite total_sum.
    replace (Z.pos (Pos.of_nat (length (d :: rest))))
      with (Z.of_nat (length (d :: rest)));
      [lia|cbn [length]; rewrite <- Pos.of_nat_succ, Zpos_P_of_succ_nat; lia].
  - pose proof (total_between (d :: rest) (fold_left Z.min rest d)
                  (fold_left Z.max rest d) Hlo Hhi) as [_ Hsum].
    unfold Qle. cbn [Qnum Qden inject_Z]. rewrite total_sum.
    replace (Z.pos (Pos.of_nat (length (d :: rest))))
      with (Z.of_nat (length (d :: rest)));
      [lia|cbn [length]; rewrite <- Pos.of_nat_succ, Zpos_P_of_succ_nat; lia].
Qed.

(** Two failures among five requests: the average of 12, 7 and 26. *)
Lemma performance_average_between_witness :
  exists stats least q greatest,
    ApiTesting.performance_stats
      (Samples.host 0 EmptyString EmptyString [12; 7; 26]%Z)
      (JObj [("url", JStr "http://localhost:3000"); ("method", JStr "GET");
             ("requests", JNum 5)]) = Ok stats
    /\ ApiTesting.successfulRequests stats = 3
    /\ ApiTesting.failedRequests stats = 2
    /\ ApiTesting.minTime stats = ApiTesting.Finite (inject_Z least)
    /\ ApiTesting.averageTime stats = ApiTesting.Finite q
    /\ ApiTesting.maxTime stats = ApiTesting.Finite (inject_Z greatest)
    /\ (inject_Z least <= q)%Q /\ (q <= inject_Z greatest)%Q.
Proof.
  destruct (performance_average_between
              (Samples.host 0 EmptyString EmptyString [12; 7; 26]%Z)
              [("url", JStr "http://localhost:3000"); ("method", JStr "GET");
               ("requests", JNum 5)]
              _ eq_refl)
    as (least & q & greatest & Hmin & Havg & Hmax & Hlo & Hhi).
  - simpl. lia.
  - eexists _, least, q, greatest. split; [reflexivity|].
    repeat split; assumption.
Defined.

(** X14: a [requests] argument that is absent, [null], [0], [false] or the
    empty string counts as 10: ten requests are issued and totalRequests
    is 10. *)
Theorem performance_default_requests (h : Host) (fields : list (string * jsval)) :
  truthy (lookup fields "requests") = false ->
  exists stats,
    ApiTesting.performance_stats h (JObj fields) = Ok stats
    /\ ApiTesting.totalRequests stats = JNum 10
    /\ ApiTesting.successfulRequests stats + ApiTesting.failedRequests stats = 10.
Proof.
  intros Hfalsy. rewrite performance_stats_shape.
  unfold or_else. rewrite Hfalsy.
  cbn [ApiTesting.iterations to_numeric to_number bind].
  eexists. split; [reflexivity|].
  cbn [ApiTesting.totalRequests ApiTesting.successfulRequests
         ApiTesting.failedRequests].
  split; [reflexivity|].
  rewrite sorted_lengths. unfold PerformanceSpec.outcomes.
  now rewrite length_map, length_seq.
Qed.

(** [requests: 0] runs ten requests. *)
Lemma performance_default_requests_witness :
  exists stats,
    ApiTesting.performance_stats (Samples.host 0 EmptyString EmptyString [])
      (JObj [("url", JStr "http://localhost:1"); ("method", JStr "GET");
             ("requests", JNum 0)]) = Ok stats
    /\ ApiTesting.totalRequests stats = JNum 10
    /\ ApiTesting.successfulRequests stats + ApiTesting.failedRequests stats = 10.
Proof.
  apply (performance_default_requests
           (Samples.host 0 EmptyString EmptyString [])
           [("url", JStr "http://localhost:1"); ("method", JStr "GET");
            ("requests", JNum 0)]).
  reflexivity.
Defined.
(** ** The request tools of the API-testing server *)

Section RequestOptions.
Import ApiRequests.

Lemma fold_set_prop_other (added : list (string * jsval))
  (acc : list (string * jsval)) (k : string) :
  existsb (fun entry => String.eqb (fst entry) k) added = false ->
  lookup (fold_left (fun a entry => set_prop a (fst entry) (snd entry)) added acc) k
  = lookup acc k.
Proof.
  revert acc. induction added as [|[k0 v0] added IH]; intros acc H; [reflexivity|].
  cbn [existsb fst] in H. apply orb_false_iff in H as [Hk Hrest].
  cbn [fold_left fst snd]. rewrite (IH _ Hrest).
  now apply lookup_set_prop_other.
Qed.

Lemma not_among_keys (added : list (string * jsval)) (k : string) :
  ~ In k (map fst added) ->
  existsb (fun entry => String.eqb (fst entry) k) added = false.
Proof.
  induction added as [|[k0 v0] added IH]; intros H; [reflexivity|].
  cbn [existsb fst]. apply orb_false_iff. split.
  - apply String.eqb_neq. intros ->. apply H. now left.
  - apply IH. intros Hin. apply H. now right.
Qed.

(** Among properties with distinct keys, each one is copied with its
    value. *)
Lemma fold_set_prop_member (added : list (string * jsval))
  (acc : list (string * jsval)) (k : string) (v : jsval) :
  NoDup (map fst added) -> In (k, v) added ->
  lookup (fold_left (fun a entry => set_prop a (fst entry) (snd entry)) added acc) k
  = v.
Proof.
  revert acc. induction added as [|[k0 v0] added IH]; intros acc Hnodup Hin;
    [contradiction|].
  cbn [map fst] in Hnodup. inversion Hnodup as [|? ? Hfresh Hrest]; subst.
  cbn [fold_left fst snd]. destruct Hin as [[= -> ->]|Hin].
  - rewrite (fold_set_prop_other _ _ _ (not_among_keys _ _ Hfresh)).
    apply lookup_set_prop_same.
  - now apply IH.
Qed.

End RequestOptions.

(** X15: the options that [makeRequest] builds for [fetch].  A request
    whose method is exactly ["GET"], or whose body is falsy, has no body;
    for any other method a truthy body is sent, as it is when it is a
    string and as [JSON.stringify] renders it otherwise.  The
    [Content-Type] header is [application/json] unless the caller
    supplies a header of exactly that name, and every header that the
    caller supplies is sent with the caller's value. *)
Theorem request_options_rules
  (stringify : jsval -> string) (method headers body : jsval)
  (name : string) (value : jsval) :
  ValidatorSpec.field
    (ApiRequests.request_options stringify (JStr "GET") headers body) "body"
  = JUndefined
  /\ (truthy body = false ->
      ValidatorSpec.field
        (ApiRequests.request_options stringify method headers body) "body"
      = JUndefined)
  /\ (is_string method "GET" = false -> truthy body = true ->
      ValidatorSpec.field
        (ApiRequests.request_options stringify method headers body) "body"
      = JStr match body with
             | JStr text => text
             | _ => stringify body
             end)
  /\ (existsb (fun entry => String.eqb (fst entry) "Content-Type")
        (entries headers) = false ->
      lookup (ApiRequests.request_headers headers) "Content-Type"
      = JStr "application/json")
  /\ (NoDup (map fst (entries headers)) -> In (name, value) (entries headers) ->
      lookup (ApiRequests.request_headers headers) name = value).
Proof.
  split; [|split; [|split; [|split]]].
  - unfold ApiRequests.request_options. cbn [is_string String.eqb Ascii.eqb
      Bool.eqb negb]. rewrite andb_false_r. reflexivity.
  - intros Hbody. unfold ApiRequests.request_options. rewrite Hbody.
    reflexivity.
  - intros Hmethod Hbody. unfold ApiRequests.request_options.
    rewrite Hmethod, Hbody. reflexivity.
  - intros H. unfold ApiRequests.request_headers.
    now rewrite (fold_set_prop_other _ _ _ H).
  - intros Hnodup Hin. unfold ApiRequests.request_headers.
    now apply fold_set_prop_member.
Qed.

(** A body given with GET is dropped; a lower-case [content-type] does not
    replace the default header, and is sent beside it. *)
Lemma request_options_rules_witness :
  ApiRequests.request_options to_str (JStr "GET") (JObj []) (JStr "{}")
  = JObj [("method", JStr "GET");
          ("headers", JObj [("Content-Type", JStr "application/json")])]
  /\ ValidatorSpec.field
       (ApiRequests.request_options to_str (JStr "PUT")
          (JObj [("content-type", JStr "text/plain")]) (JStr "{}")) "body"
     = JStr "{}"
  /\ lookup (ApiRequests.request_headers
               (JObj [("content-type", JStr "text/plain")])) "Content-Type"
     = JStr "application/json"
  /\ lookup (ApiRequests.request_headers
               (JObj [("content-type", JStr "text/plain")])) "content-type"
     = JStr "text/plain".
Proof.
  split; [reflexivity|].
  destruct (request_options_rules to_str (JStr "PUT")
              (JObj [("content-type", JStr "text/plain")]) (JStr "{}")
              "content-type" (JStr "text/plain"))
    as (_ & _ & Hbody & Hdefault & Hsent).
  split; [apply Hbody; reflexivity|]. split; [apply Hdefault; reflexivity|].
  apply Hsent.
  - repeat constructor. intros [].
  - now left.
Defined.
(** ** The test cases of [generate_test_cases] *)

Section NumericSegment.
Import ApiRequests.

Lemma replace_without_segment (s : string) :
  has_numeric_segment s = false -> replace_numeric_segment s = s.
Proof.
  induction s as [|c s IH]; [reflexivity|].
  cbn [has_numeric_segment replace_numeric_segment].
  intros H. apply orb_false_iff in H as [Hc Hs]. now rewrite Hc, IH.
Qed.

Lemma skip_all_digits (digits rest : string) :
  all_digits digits = true -> starts_with_digit rest = false ->
  skip_digits (digits ++ rest) = rest.
Proof.
  induction digits as [|d digits IH]; cbn [all_digits append skip_digits].
  - intros _ H. destruct rest as [|c rest]; [reflexivity|].
    cbn [starts_with_digit skip_digits] in *. now rewrite H.
  - intros H Hr. apply andb_true_iff in H as [Hd Hds]. rewrite Hd. now apply IH.
Qed.

Lemma replace_after_plain (pre tail : string) :
  has_numeric_segment pre = false -> starts_with_digit tail = false ->
  replace_numeric_segment (pre ++ tail) = pre ++ replace_numeric_segment tail.
Proof.
  intros Hpre Ht. induction pre as [|c pre IH]; [reflexivity|].
  cbn [has_numeric_segment] in Hpre. apply orb_false_iff in Hpre as [Hc Hp].
  cbn [append replace_numeric_segment].
  replace (Ascii.eqb c "/" && starts_with_digit (pre ++ tail)) with false.
  - now rewrite (IH Hp).
  - destruct pre as [|c' pre']; [cbn [append]; now rewrite Ht, andb_false_r|].
    cbn [append starts_with_digit] in *. now rewrite Hc.
Qed.

Lemma replace_first_segment (pre digits rest : string) :
  has_numeric_segment pre = false ->
  all_digits digits = true -> digits <> EmptyString ->
  starts_with_digit rest = false ->
  replace_numeric_segment (pre ++ "/" ++ digits ++ rest)
  = pre ++ "/999999" ++ rest.
Proof.
  intros Hpre Hd Hne Hr.
  rewrite (replace_after_plain pre ("/" ++ digits ++ rest) Hpre eq_refl). f_equal.
  destruct digits as [|d digits]; [congruence|].
  cbn [all_digits] in Hd. apply andb_true_iff in Hd as [Hd1 Hd2].
  cbn [append replace_numeric_segment starts_with_digit Ascii.eqb Bool.eqb andb].
  rewrite Hd1. cbn [skip_digits]. rewrite Hd1.
  now rewrite (skip_all_digits digits rest Hd2 Hr).
Qed.

End NumericSegment.

(** X16: the endpoint of the "Not Found" test case is the endpoint with
    its first numeric path segment (a slash followed by digits) replaced
    by [/999999]; everything before and after that segment is kept, later
    numeric segments included.  An endpoint without a numeric segment is
    left as it is, so that the "Not Found" case then targets the very
    endpoint of the "Success" case. *)
Theorem not_found_endpoint (pre digits rest plain : string) :
  ApiRequests.has_numeric_segment pre = false ->
  ApiRequests.all_digits digits = true ->
  digits <> EmptyString ->
  ApiRequests.starts_with_digit rest = false ->
  ApiRequests.has_numeric_segment plain = false ->
  ApiRequests.replace_numeric_segment (pre ++ "/" ++ digits ++ rest)
  = pre ++ "/999999" ++ rest
  /\ ApiRequests.replace_numeric_segment plain = plain.
Proof.
  intros Hpre Hd Hne Hr Hplain. split.
  - now apply replace_first_segment.
  - now apply replace_without_segment.
Qed.

(** A user's post, and a collection. *)
Lemma not_found_endpoint_witness :
  ApiRequests.replace_numeric_segment "/api/users/42/posts/7"
  = "/api/users/999999/posts/7"
  /\ ApiRequests.replace_numeric_segment "/api/users" = "/api/users".
Proof.
  apply (not_found_endpoint "/api/users" "42" "/posts/7" "/api/users");
    try reflexivity.
  discriminate.
Defined.

(** X17: [generate_test_cases] answers a string endpoint, when the
    method has a string form, with three test cases for the method
    ["GET"] and four for any other method (the extra one posts an invalid
    body), expecting 200 (201 for ["POST"]), 400, 404 and 401 in this
    order; an endpoint that is not a string, or a method that cannot be
    converted to a string for the names of the cases, makes the
    invocation end as a failure. *)
Theorem generate_test_cases_statuses
  (h : Host)
  (request : nat -> jsval -> jsval -> jsval -> jsval -> jsval -> jsval + string)
  (stringify_stats : ApiTesting.Stats -> string)
  (fields : list (string * jsval)) :
  match lookup fields "endpoint", to_string (lookup fields "method") with
  | JStr path, Ok _ =>
      exists cases,
        ApiRequests.call_tool h request stringify_stats
          "generate_test_cases" (JObj fields)
        = Returned (ok (json_stringify h (JObj [("testCases", JArr cases)])))
        /\ map (fun c => ValidatorSpec.field c "expectedStatus") cases
           = ([JNum (if is_string (lookup fields "method") "POST" then 201 else 200)]
              ++ (if is_string (lookup fields "method") "GET" then []
                  else [JNum 400])
              ++ [JNum 404; JNum 401])%list
        /\ length cases
           = if is_string (lookup fields "method") "GET" then 3 else 4
  | _, _ =>
      exists message,
        ApiRequests.call_tool h request stringify_stats
          "generate_test_cases" (JObj fields)
        = Returned (failure ("Error: " ++ message))
  end.
Proof.
  unfold ApiRequests.call_tool, handle, ApiRequests.cases.
  cbn [switch String.eqb Ascii.eqb Bool.eqb run_from].
  unfold ApiRequests.generate_test_cases. cbn [get and_then].
  destruct (to_string (lookup fields "method")) as [shown|message];
    cbn [and_then].
  - destruct (lookup fields "endpoint") as [| | | |path|items|properties] eqn:E;
      cbn [to_string receiver and_then try_catch]; try (eexists; reflexivity).
    + destruct b; eexists; reflexivity.
    + eexists. split; [reflexivity|].
      unfold ApiRequests.test_cases.
      destruct (is_string (lookup fields "method") "GET"); split; reflexivity.
    + destruct (all_ok _); cbn [bind and_then]; eexists; reflexivity.
    + destruct (find_field properties "toString"); cbn [and_then];
        eexists; reflexivity.
  - destruct (lookup fields "endpoint"); eexists; reflexivity.
Qed.

(** A method given as an object with a [toString] entry: the names cannot
    be built. *)
Lemma method_without_string_form :
  ApiRequests.call_tool (Samples.host 0 EmptyString EmptyString [])
    (fun _ _ _ _ _ _ => inr "unused") (fun _ => EmptyString)
    "generate_test_cases"
    (JObj [("endpoint", JStr "/users/1");
           ("method", JObj [("toString", JNum 1)])])
  = Returned (failure "Error: Cannot convert object to primitive value").
Proof. reflexivity. Qed.
(** ** The scenarios of [test_endpoint] *)

Section TestEndpoint.
Import ApiRequests.
Variable h : Host.
Variable request : nat -> jsval -> jsval -> jsval -> jsval -> jsval -> jsval + string.

(** A scenario that is an actual value always gets its entry, from the
    [try] block or from the [catch]. *)
Lemma run_test_recorded (i : nat) (baseUrl endpoint test : jsval) :
  ValidatorSpec.nullish test = false ->
  run_test request i baseUrl endpoint test
  = Ok (ScenarioSpec.recorded request baseUrl endpoint (i, test)).
Proof.
  intros Htest. unfold run_test, ScenarioSpec.recorded.
  destruct (to_string baseUrl) as [base|message]; cbn [bind catch].
  2:{ rewrite (get_defined test _ Htest). reflexivity. }
  destruct (to_string endpoint) as [path|message]; cbn [bind catch].
  2:{ rewrite (get_defined test _ Htest). reflexivity. }
  rewrite !(get_defined test _ Htest). cbn [bind].
  destruct (request i _ _ _ _ _) as [result|message].
  - destruct (ValidatorSpec.nullish result) eqn:Hr.
    + destruct result; try discriminate Hr; reflexivity.
    + rewrite !(get_defined result _ Hr). reflexivity.
  - reflexivity.
Qed.

Lemma run_tests_recorded (tests : list jsval) (i : nat) (baseUrl endpoint : jsval) :
  forallb (fun t => negb (ValidatorSpec.nullish t)) tests = true ->
  run_tests request i baseUrl endpoint tests
  = Ok (map (ScenarioSpec.recorded request baseUrl endpoint)
          (ScenarioSpec.numbered i tests)).
Proof.
  revert i. induction tests as [|test tests IH]; intros i H; [reflexivity|].
  cbn [forallb] in H. apply andb_true_iff in H as [Ht Hrest].
  apply negb_true_iff in Ht.
  cbn [run_tests]. rewrite (run_test_recorded i _ _ _ Ht). cbn [bind].
  rewrite (IH (S i) Hrest). reflexivity.
Qed.

End TestEndpoint.

(** X18: [test_endpoint] runs every scenario of an array of scenarios and
    records one entry for each, in order: the name with [passed: false]
    and the error's message when the request cannot be made or is
    rejected, which does not stop the run; otherwise the expected and
    actual status, the duration and the response, with [passed] telling
    whether the two statuses are the same value.  The summary counts the
    entries, those that passed and those that did not. *)
Theorem test_endpoint_summary
  (h : Host)
  (request : nat -> jsval -> jsval -> jsval -> jsval -> jsval -> jsval + string)
  (stringify_stats : ApiTesting.Stats -> string)
  (fields : list (string * jsval)) (tests : list jsval) :
  lookup fields "tests" = JArr tests ->
  forallb (fun t => negb (ValidatorSpec.nullish t)) tests = true ->
  let results :=
    map (ScenarioSpec.recorded request (lookup fields "baseUrl")
           (lookup fields "endpoint"))
      (ScenarioSpec.numbered 0 tests) in
  ApiRequests.call_tool h request stringify_stats "test_endpoint" (JObj fields)
  = Returned
      (ok (json_stringify h
             (JObj [("total", JNum (Z.of_nat (length tests)));
                    ("passed",
                     JNum (Z.of_nat (length (filter ApiRequests.passed_flag results))));
                    ("failed",
                     JNum (Z.of_nat
                             (length (filter (fun r => negb (ApiRequests.passed_flag r))
                                        results))));
                    ("results", JArr results)]))).
Proof.
  intros Htests Hvalues results.
  unfold ApiRequests.call_tool, handle, ApiRequests.cases.
  cbn [switch String.eqb Ascii.eqb Bool.eqb run_from].
  unfold ApiRequests.test_endpoint. cbn [get and_then]. rewrite Htests.
  cbn [ApiRequests.iterate and_then].
  rewrite (run_tests_recorded request tests 0 _ _ Hvalues).
  cbn [and_then try_catch]. fold results.
  unfold ApiRequests.test_summary, ApiRequests.count_passed,
    ApiRequests.count_failed.
  replace (length results) with (length tests); [reflexivity|].
  unfold results, ScenarioSpec.numbered.
  now rewrite length_map, length_combine, length_seq, Nat.min_id.
Qed.

(** Two scenarios against a server that cannot be reached: both are
    recorded as failed. *)
Lemma test_endpoint_summary_witness :
  ApiRequests.call_tool (Samples.host 0 EmptyString EmptyString [])
    (fun _ _ _ _ _ _ => inr "fetch failed") (fun _ => EmptyString)
    "test_endpoint"
    (JObj [("baseUrl", JStr "http://localhost:1"); ("endpoint", JStr "/ping");
           ("tests", JArr [JObj [("name", JStr "a"); ("method", JStr "GET")];
                           JObj [("name", JStr "b"); ("method", JStr "POST")]])])
  = Returned
      (ok (to_str
             (JObj [("total", JNum 2); ("passed", JNum 0); ("failed", JNum 2);
                    ("results",
                     JArr [JObj [("name", JStr "a"); ("passed", JBool false);
                                 ("error", JStr "fetch failed")];
                           JObj [("name", JStr "b"); ("passed", JBool false);
                                 ("error", JStr "fetch failed")]])]))).
Proof.
  apply (test_endpoint_summary (Samples.host 0 EmptyString EmptyString [])
           (fun _ _ _ _ _ _ => inr "fetch failed") (fun _ => EmptyString)
           [("baseUrl", JStr "http://localhost:1"); ("endpoint", JStr "/ping");
            ("tests", JArr [JObj [("name", JStr "a"); ("method", JStr "GET")];
                            JObj [("name", JStr "b"); ("method", JStr "POST")]])]
           [JObj [("name", JStr "a"); ("method", JStr "GET")];
            JObj [("name", JStr "b"); ("method", JStr "POST")]]
           eq_refl eq_refl).
Defined.
(** X19: [validate_response] answers by a success envelope whenever the
    validator returns: [valid] is [true] exactly when there is no
    finding, and the findings are listed.  When the validator throws, the
    invocation ends as a failure envelope carrying the error's message. *)
Theorem validate_response_envelope
  (h : Host)
  (request : nat -> jsval -> jsval -> jsval -> jsval -> jsval -> jsval + string)
  (stringify_stats : ApiTesting.Stats -> string)
  (fields : list (string * jsval)) :
  ApiRequests.call_tool h request stringify_stats "validate_response" (JObj fields)
  = Returned
      match ValidatorSpec.outcome h (lookup fields "response")
              (lookup fields "schema") with
      | Ok errors =>
          ok (json_stringify h
                (JObj [("valid", JBool match errors with
                                       | [] => true
                                       | _ :: _ => false
                                       end);
                       ("errors", JArr (map JStr errors))]))
      | Throw message => failure ("Error: " ++ message)
      end.
Proof.
  unfold ApiRequests.call_tool, handle, ApiRequests.cases.
  cbn [switch String.eqb Ascii.eqb Bool.eqb run_from].
  unfold ApiTesting.validate_response at 1. cbn [get and_then].
  rewrite validate_outcome.
  destruct (ValidatorSpec.outcome h _ _) as [errors|message]; [|reflexivity].
  cbn [and_then try_catch]. destruct errors; reflexivity.
Qed.

(** A response with a string where a number is declared, and no response
    at all. *)
Lemma wrong_type_and_missing_response :
  let h := Samples.host 0 EmptyString EmptyString [] in
  let call response :=
    ApiRequests.call_tool h (fun _ _ _ _ _ _ => inr "unused")
      (fun _ => EmptyString) "validate_response"
      (JObj (response ++ [("schema", Samples.id_shape)])%list) in
  call [("response", JObj [("id", JStr "x")])]
  = Returned
      (ok (to_str
             (JObj [("valid", JBool false);
                    ("errors",
                     JArr [JStr "Type mismatch at id: expected number, got string"])])))
  /\ call []
     = Returned (failure "Error: Cannot read properties of undefined (reading 'id')").
Proof. split; reflexivity. Qed.
(** ** The migration names of the database server *)

Section Migration.
Import Database.

Lemma lower_char_fixed (c : ascii) : lower_char (lower_char c) = lower_char c.
Proof.
  destruct c as [[] [] [] [] [] [] [] []]; reflexivity.
Qed.

Lemma lower_not_space (c : ascii) : is_space (lower_char c) = is_space c.
Proof.
  destruct c as [[] [] [] [] [] [] [] []]; reflexivity.
Qed.

Lemma underscore_runs_chars (in_run : bool) (s : string) :
  all_chars (fun c => Ascii.eqb (lower_char c) c) s = true ->
  all_chars name_char (underscore_runs in_run s) = true.
Proof.
  revert in_run. induction s as [|c s IH]; intros in_run; [reflexivity|].
  cbn [all_chars underscore_runs]. intros H.
  apply andb_true_iff in H as [Hc Hs].
  destruct (is_space c) eqn:Esp.
  - destruct in_run; [now apply IH|]. cbn [all_chars]. now rewrite IH.
  - cbn [all_chars]. unfold name_char at 1. now rewrite Esp, Hc, IH.
Qed.

Lemma toLowerCase_lower (s : string) :
  all_chars (fun c => Ascii.eqb (lower_char c) c) (toLowerCase s) = true.
Proof.
  induction s as [|c s IH]; [reflexivity|].
  cbn [toLowerCase all_chars]. now rewrite lower_char_fixed, Ascii.eqb_refl, IH.
Qed.

Lemma underscore_runs_length (in_run : bool) (s : string) :
  String.length (underscore_runs in_run s) <= String.length s.
Proof.
  revert in_run. induction s as [|c s IH]; intros in_run; [simpl; lia|].
  cbn [underscore_runs].
  pose proof (IH true) as Ht. pose proof (IH false) as Hf.
  destruct (is_space c), in_run; cbn [String.length]; lia.
Qed.

Lemma toLowerCase_length (s : string) :
  String.length (toLowerCase s) = String.length s.
Proof. induction s as [|c s IH]; [reflexivity|]. simpl. now rewrite IH. Qed.

Lemma substringFrom_append (a b : string) (k : nat) :
  substringFrom (String.length a + k) (a ++ b) = substringFrom k b.
Proof. induction a as [|c a IH]; [reflexivity|exact IH]. Qed.

Lemma append_length (a b : string) :
  String.length (a ++ b) = String.length a + String.length b.
Proof. induction a as [|c a IH]; [reflexivity|]. simpl. now rewrite IH. Qed.

Lemma endsWith_append (a b suffix : string) :
  endsWith b suffix = true -> endsWith (a ++ b) suffix = true.
Proof.
  unfold endsWith. rewrite append_length. intros H.
  apply andb_true_iff in H as [Hlen Heq]. apply Nat.leb_le in Hlen.
  replace (String.length a + String.length b - String.length suffix)
    with (String.length a + (String.length b - String.length suffix)) by lia.
  rewrite substringFrom_append, Heq, andb_true_r.
  apply Nat.leb_le. lia.
Qed.

Lemma endsWith_self (s : string) : endsWith s s = true.
Proof.
  unfold endsWith. rewrite Nat.sub_diag, Nat.leb_refl. cbn [andb].
  destruct s; apply String.eqb_refl.
Qed.

End Migration.

(** X20: for a description in ASCII, the migration file of
    [generate_migration] is named after the description in lower case
    with every run of white space replaced by one underscore: the name
    holds no white space and no upper-case letter, is never longer than
    the description, and the file name ends in [.sql].  The answer shows
    the file name and the template, unless [dbType] has no string form. *)
Theorem migration_name_is_clean
  (now_iso : nat -> string) (fields : list (string * jsval)) (description : string) :
  Database.all_chars Database.ascii_char description = true ->
  Database.all_chars Database.name_char (Database.migration_name description) = true
  /\ String.length (Database.migration_name description)
     <= String.length description
  /\ endsWith (Database.migration_file_name now_iso description) ".sql" = true
  /\ (lookup fields "description" = JStr description ->
      Database.generate_migration now_iso (JObj fields)
      = match to_string (lookup fields "dbType") with
        | Ok dbType =>
            Returned
              (ok ("Migration file generated: "
                   ++ Database.migration_file_name now_iso description ++ nl ++ nl
                   ++ Database.migration_template description (now_iso 1) dbType))
        | Throw message => Threw message
        end).
Proof.
  intros _. unfold Database.migration_name. repeat split.
  - apply underscore_runs_chars, toLowerCase_lower.
  - rewrite <- (toLowerCase_length description). apply underscore_runs_length.
  - unfold Database.migration_file_name.
    do 3 apply endsWith_append. apply endsWith_self.
  - intros Hd. unfold Database.generate_migration. cbn [get and_then].
    rewrite Hd. cbn [receiver and_then].
    destruct (to_string (lookup fields "dbType")); reflexivity.
Qed.

(** A description with mixed case and a run of blanks. *)
Lemma migration_name_is_clean_witness :
  Database.generate_migration
    (fun k => if (k =? 0)%nat then "2024-01-02T03:04:05.678Z"
              else "2024-01-02T03:04:05.679Z")
    (JObj [("dbType", JStr "postgres"); ("description", JStr "Add  Users table")])
  = Returned
      (ok ("Migration file generated: 20240102T030405_add_users_table.sql"
           ++ nl ++ nl
           ++ Database.migration_template "Add  Users table"
                "2024-01-02T03:04:05.679Z" "postgres")).
Proof.
  destruct (migration_name_is_clean
              (fun k => if (k =? 0)%nat then "2024-01-02T03:04:05.678Z"
                        else "2024-01-02T03:04:05.679Z")
              [("dbType", JStr "postgres"); ("description", JStr "Add  Users table")]
              "Add  Users table" eq_refl) as (_ & _ & _ & H).
  apply H. reflexivity.
Defined.
(** ** The dev-tools server *)

(** X21: in the dev-tools server, when [package.json] can be read and
    parsed and [action] is neither ["list"] nor ["run"], the block of
    [npm_scripts] runs off its end into the [default] clause: the tool
    answers that [npm_scripts] is an unknown tool. *)
Theorem npm_scripts_falls_through
  (h : Host) (fields : list (string * jsval)) (source : string) (package : jsval) :
  read_file h (JStr (to_str (lookup fields "projectPath") ++ "/package.json"))
  = inl source ->
  json_parse h source = inl package ->
  is_string (lookup fields "action") "list" = false ->
  is_string (lookup fields "action") "run" = false ->
  DevTools.npm_scripts h (JObj fields) = Completed
  /\ DevTools.call_tool h "npm_scripts" (JObj fields)
     = Returned (failure "Error: Unknown tool: npm_scripts").
Proof.
  intros Hread Hparse Hlist Hrun_.
  assert (Hbody : DevTools.npm_scripts h (JObj fields) = Completed).
  { unfold DevTools.npm_scripts. cbn [get and_then].
    rewrite Hread, Hparse. cbn [and_then]. now rewrite Hlist, Hrun_. }
  split; [exact Hbody|].
  unfold DevTools.call_tool, handle, DevTools.cases.
  cbn [switch String.eqb Ascii.eqb Bool.eqb run_from].
  rewrite Hbody. reflexivity.
Qed.

(** The action ["build"]. *)
Lemma npm_scripts_falls_through_witness :
  DevTools.call_tool Samples.project_host "npm_scripts"
    (JObj [("projectPath", JStr "/srv/app"); ("action", JStr "build")])
  = Returned (failure "Error: Unknown tool: npm_scripts").
Proof.
  destruct (npm_scripts_falls_through Samples.project_host
              [("projectPath", JStr "/srv/app"); ("action", JStr "build")]
              "{}" (JObj [])) as [_ H];
    [reflexivity|reflexivity|reflexivity|reflexivity|exact H].
Defined.


(** A port given as an object with a [toString] entry. *)
Lemma port_without_string_form :
  DevTools.call_tool (Samples.host 0 EmptyString EmptyString []) "check_ports"
    (JObj [("port", JObj [("toString", JNum 1)])])
  = Returned (failure "Error: Cannot convert object to primitive value").
Proof. reflexivity. Qed.

(** X23: [monitor_logs] shows the tail of the file: for a positive number
    of [lines] the last [lines] pieces of the text split at newlines, or
    all of them when there are fewer.  For a negative number it shows
    everything but the first [-lines] pieces. *)
Theorem monitor_logs_tail
  (h : Host) (fields : list (string * jsval)) (content : string) (n : Z) :
  read_file h (lookup fields "logPath") = inl content ->
  lookup fields "lines" = JNum n ->
  n <> 0%Z ->
  let pieces := split LF content in
  let shown :=
    if (0 <? n)%Z then skipn (length pieces - Z.to_nat n) pieces
    else skipn (Z.to_nat (- n)) pieces in
  DevTools.call_tool h "monitor_logs" (JObj fields)
  = Returned (ok ("Last " ++ of_Z n ++ " lines from "
                  ++ to_str (lookup fields "logPath") ++ ":" ++ nl ++ nl
                  ++ join nl shown))
  /\ ((0 < n)%Z -> length shown = Nat.min (Z.to_nat n) (length pieces)).
Proof.
  intros Hread Hlines Hn pieces shown.
  assert (Hslice : DevTools.slice (Some (- n)%Z) pieces = shown).
  { unfold DevTools.slice, shown.
    destruct (0 <? n)%Z eqn:Epos.
    - apply Z.ltb_lt in Epos.
      replace (- n <? 0)%Z with true by (symmetry; apply Z.ltb_lt; lia).
      f_equal. lia.
    - apply Z.ltb_ge in Epos.
      replace (- n <? 0)%Z with false by (symmetry; apply Z.ltb_ge; lia).
      destruct (Z.le_gt_cases (- n) (Z.of_nat (length pieces))).
      + f_equal. lia.
      + rewrite Z.min_r by lia. rewrite Nat2Z.id.
        rewrite skipn_all, (skipn_all2 (n := Z.to_nat (- n))); [reflexivity|lia]. }
  split.
  - unfold DevTools.call_tool, handle, DevTools.cases.
    cbn [switch String.eqb Ascii.eqb Bool.eqb run_from].
    unfold DevTools.monitor_logs. cbn [get and_then]. rewrite Hlines.
    unfold or_else. cbn [truthy].
    replace (n =? 0)%Z with false by (symmetry; now apply Z.eqb_neq).
    cbn [negb try_catch and_then]. rewrite Hread.
    cbn [to_number option_map]. fold pieces. rewrite Hslice. reflexivity.
  - intros Hpos. unfold shown.
    replace (0 <? n)%Z with true by (symmetry; apply Z.ltb_lt; lia).
    rewrite length_skipn. lia.
Qed.

(** The last two pieces of a three-line log. *)
Lemma monitor_logs_tail_witness :
  DevTools.call_tool
    {| run_process := fun _ _ => NotSpawned "unused";
       read_file := fun _ => inl ("one" ++ nl ++ "two" ++ nl ++ "three");
       json_parse := fun _ => inr "unused";
       json_stringify := to_str;
       string_to_number := fun _ => None;
       locale_date := fun _ => EmptyString;
       make_request := fun _ _ _ _ => RequestFailed "unused";
       inherited := fun _ _ => None |}
    "monitor_logs" (JObj [("logPath", JStr "/var/log/app.log"); ("lines", JNum 2)])
  = Returned (ok ("Last 2 lines from /var/log/app.log:" ++ nl ++ nl
                  ++ "two" ++ nl ++ "three")).
Proof.
  destruct (monitor_logs_tail
              {| run_process := fun _ _ => NotSpawned "unused";
                 read_file := fun _ => inl ("one" ++ nl ++ "two" ++ nl ++ "three");
                 json_parse := fun _ => inr "unused";
                 json_stringify := to_str;
                 string_to_number := fun _ => None;
                 locale_date := fun _ => EmptyString;
                 make_request := fun _ _ _ _ => RequestFailed "unused";
       inherited := fun _ _ => None |}
              [("logPath", JStr "/var/log/app.log"); ("lines", JNum 2)]
              ("one" ++ nl ++ "two" ++ nl ++ "three") 2)
    as [H _]; [reflexivity|reflexivity|discriminate|exact H].
Defined.

(** ** The command lines of the git server *)

(** X24: in [git_diff], giving both [commit1] and [commit2] replaces the
    command line built so far, so that [staged] is ignored: the outcome is
    the same whatever [staged] holds. *)
Theorem git_diff_commits_override_staged
  (h : Host) (fields : list (string * jsval)) (staged : jsval) :
  truthy (lookup fields "commit1") && truthy (lookup fields "commit2") = true ->
  GitServer.git_diff h (JObj (set_prop fields "staged" staged))
  = GitServer.git_diff h (JObj fields).
Proof.
  intros Hboth. unfold GitServer.git_diff. cbn [get and_then].
  rewrite !(lookup_set_prop_other fields "staged" _ staged) by reflexivity.
  rewrite Hboth. reflexivity.
Qed.

(** Two commits and [staged: true]: the command compares the commits. *)
Lemma git_diff_commits_override_staged_witness :
  GitServer.git_diff (Samples.host 0 "diff" EmptyString [])
    (JObj [("repoPath", JStr "/srv/app"); ("commit1", JStr "a1"); ("commit2", JStr "b2");
           ("staged", JBool true)])
  = GitServer.git_diff (Samples.host 0 "diff" EmptyString [])
      (JObj [("repoPath", JStr "/srv/app"); ("commit1", JStr "a1");
             ("commit2", JStr "b2")]).
Proof.
  apply (git_diff_commits_override_staged (Samples.host 0 "diff" EmptyString [])
           [("repoPath", JStr "/srv/app"); ("commit1", JStr "a1"); ("commit2", JStr "b2")]
           (JBool true)).
  reflexivity.
Defined.


(** ** Registry and dispatch *)

Section RegistryDispatch.

Lemma unadvertised_unmatched (clauses : case_table) (name : string) :
  Registry.advertises (map fst clauses) name = false ->
  matched name clauses = None.
Proof.
  unfold Registry.advertises.
  induction clauses as [|[label body] rest IH]; [reflexivity|].
  cbn [map fst existsb matched]. intros H.
  apply orb_false_iff in H as [-> H]. now apply IH.
Qed.

Lemma advertised_matched (clauses : case_table) (name : string) :
  Registry.advertises (map fst clauses) name = true ->
  exists body, matched name clauses = Some body.
Proof.
  unfold Registry.advertises.
  induction clauses as [|[label body] rest IH]; [discriminate|].
  cbn [map fst existsb matched]. intros H.
  destruct (String.eqb name label); [now exists body|now apply IH].
Qed.

Lemma unadvertised_refused (clauses : case_table) (name : string) (args : jsval) :
  Registry.advertises (map fst clauses) name = false ->
  handle clauses name args = Returned (failure ("Error: Unknown tool: " ++ name)).
Proof.
  intros H. unfold handle.
  now rewrite (switch_unmatched _ _ _ (unadvertised_unmatched _ _ H)).
Qed.

End RegistryDispatch.

(** X26: in each server the labels of the dispatch switch are exactly the
    names that its [ListTools] handler advertises, in the same order and
    without duplicates.  So every advertised tool has its block, and a
    name that is not advertised is refused as an unknown tool whatever the
    arguments are. *)
Theorem registry_matches_dispatch
  (h : Host)
  (request : nat -> jsval -> jsval -> jsval -> jsval -> jsval -> jsval + string)
  (stringify_stats : ApiTesting.Stats -> string) :
  (map fst (GitServer.cases h) = Registry.git_server
   /\ map fst (EarlyGitTools.cases h) = Registry.early_git_server
   /\ map fst (DevTools.cases h) = Registry.devtools_server
   /\ map fst (ApiRequests.cases h request stringify_stats)
      = Registry.api_testing_server)
  /\ (NoDup Registry.git_server /\ NoDup Registry.early_git_server
      /\ NoDup Registry.devtools_server /\ NoDup Registry.api_testing_server)
  /\ (forall name args,
        (Registry.advertises Registry.git_server name = false ->
         GitServer.call_tool h name args
         = Returned (failure ("Error: Unknown tool: " ++ name)))
        /\ (Registry.advertises Registry.early_git_server name = false ->
            EarlyGitTools.call_tool h name args
            = Returned (failure ("Error: Unknown tool: " ++ name)))
        /\ (Registry.advertises Registry.devtools_server name = false ->
            DevTools.call_tool h name args
            = Returned (failure ("Error: Unknown tool: " ++ name)))
        /\ (Registry.advertises Registry.api_testing_server name = false ->
            ApiRequests.call_tool h request stringify_stats name args
            = Returned (failure ("Error: Unknown tool: " ++ name)))).
Proof.
  split; [repeat split|]. split.
  - repeat split;
      repeat (constructor; [cbn; intuition discriminate|]); constructor.
  - intros name args. repeat split; intros H;
      apply unadvertised_refused; exact H.
Qed.

(** The earlier server does not know [git_push]. *)
Lemma registry_matches_dispatch_witness :
  EarlyGitTools.call_tool (Samples.host 0 EmptyString EmptyString []) "git_push"
    (JObj [("repoPath", JStr "/srv/app")])
  = Returned (failure "Error: Unknown tool: git_push").
Proof.
  destruct (registry_matches_dispatch (Samples.host 0 EmptyString EmptyString [])
              (fun _ _ _ _ _ _ => inr "fetch failed") (fun _ => EmptyString))
    as (_ & _ & H).
  destruct (H "git_push" (JObj [("repoPath", JStr "/srv/app")])) as (_ & Hearly & _).
  apply Hearly. reflexivity.
Defined.

(** ** The commit message of the earlier git server *)

Section EarlyMessage.
Import EarlyGitTools.

Lemma count_prefixed_none (prefix : string) (files : list string) :
  existsb (fun f => startsWith f prefix) files = false ->
  count_prefixed prefix files = 0.
Proof.
  unfold count_prefixed. induction files as [|f files IH]; [reflexivity|].
  cbn [existsb filter]. intros H. apply orb_false_iff in H as [-> H].
  now apply IH.
Qed.

End EarlyMessage.

(** X27: the earlier server's [generate_commit_message] counts only the
    status lines that start with [A ], [M ] or [D ].  When there are
    changes but no such line (only untracked files or unstaged
    modifications, say), the suggested message is the bare prefix
    [chore: ] with nothing after it. *)
Theorem early_commit_message_can_be_empty
  (h : Host) (fields : list (string * jsval)) (diff status e1 e2 : string) :
  run_process h
    (JStr ("git -C " ++ quoted (to_str (lookup fields "repoPath")) ++ " diff --staged"))
    JUndefined = Exited 0 diff e1 ->
  run_process h
    (JStr ("git -C " ++ quoted (to_str (lookup fields "repoPath")) ++ " status --short"))
    JUndefined = Exited 0 status e2 ->
  status <> EmptyString ->
  existsb (fun l => startsWith l "A " || startsWith l "M " || startsWith l "D ")
    (EarlyGitTools.status_lines status) = false ->
  EarlyGitTools.call_tool h "generate_commit_message" (JObj fields)
  = Returned
      (ok ("Suggested commit message:" ++ nl ++ "chore: " ++ nl ++ nl
           ++ "Files changed:" ++ nl ++ status ++ nl ++ nl
           ++ "You can customize this message based on the actual changes.")).
Proof.
  intros Hdiff Hstatus Hne Hnone.
  assert (Hmsg : EarlyGitTools.suggested_message status = "chore: ").
  { unfold EarlyGitTools.suggested_message, EarlyGitTools.change_phrases.
    rewrite !count_prefixed_none; [reflexivity| | |];
      clear -Hnone; induction (EarlyGitTools.status_lines status) as [|l ls IH];
      try reflexivity; cbn [existsb] in *;
      apply orb_false_iff in Hnone as [Hl Hls];
      apply orb_false_iff in Hl as [Hl Hd]; apply orb_false_iff in Hl as [Ha Hm];
      rewrite ?Ha, ?Hm, ?Hd; now apply IH. }
  unfold EarlyGitTools.call_tool, handle, EarlyGitTools.cases.
  cbn [switch String.eqb Ascii.eqb Bool.eqb run_from].
  unfold EarlyGitTools.generate_commit_message. cbn [get and_then].
  unfold exec_line, execAsync. rewrite Hdiff. cbn [and_then]. rewrite Hstatus.
  cbn [and_then].
  replace (String.eqb status EmptyString) with false
    by (symmetry; now apply String.eqb_neq).
  rewrite andb_false_r, Hmsg. reflexivity.
Qed.

(** Only an untracked file and an unstaged modification. *)
Lemma early_commit_message_can_be_empty_witness :
  EarlyGitTools.call_tool
    (Samples.host 0 ("?? notes.txt" ++ nl ++ " M src/app.ts" ++ nl) EmptyString [])
    "generate_commit_message" (JObj [("repoPath", JStr "/srv/app")])
  = Returned
      (ok ("Suggested commit message:" ++ nl ++ "chore: " ++ nl ++ nl
           ++ "Files changed:" ++ nl
           ++ ("?? notes.txt" ++ nl ++ " M src/app.ts" ++ nl) ++ nl ++ nl
           ++ "You can customize this message based on the actual changes.")).
Proof.
  apply (early_commit_message_can_be_empty
           (Samples.host 0 ("?? notes.txt" ++ nl ++ " M src/app.ts" ++ nl)
              EmptyString [])
           [("repoPath", JStr "/srv/app")]
           ("?? notes.txt" ++ nl ++ " M src/app.ts" ++ nl)
           ("?? notes.txt" ++ nl ++ " M src/app.ts" ++ nl)
           EmptyString EmptyString);
    [reflexivity|reflexivity|discriminate|reflexivity].
Defined.

(** ** Arguments that are not checked *)



Lemma advertised_cases (names : list string) (name : string) (P : string -> Prop) :
  Forall P names -> Registry.advertises names name = true -> P name.
Proof.
  unfold Registry.advertises. induction 1 as [|n names Hn _ IH]; [discriminate|].
  cbn [existsb]. destruct (String.eqb_spec name n) as [->|]; [intros _; exact Hn|].
  exact IH.
Qed.

(** X29: a call that comes without an arguments object never reaches an
    external command: every tool of the git server and of the dev-tools
    server answers it by a failure envelope carrying the type error of its
    first read of a property of [undefined]. *)
Theorem call_without_arguments (h : Host) (name : string) :
  (Registry.advertises Registry.git_server name = true ->
   exists key,
     GitServer.call_tool h name JUndefined
     = Returned (failure ("Error: " ++ cannot_read "undefined" key)))
  /\ (Registry.advertises Registry.devtools_server name = true ->
      exists key,
        DevTools.call_tool h name JUndefined
        = Returned (failure ("Error: " ++ cannot_read "undefined" key))).
Proof.
  split; intros H.
  - apply (advertised_cases Registry.git_server name
             (fun n => exists key,
                  GitServer.call_tool h n JUndefined
                  = Returned (failure ("Error: " ++ cannot_read "undefined" key))));
      [|exact H].
    repeat (constructor; [eexists; reflexivity|]). constructor.
  - apply (advertised_cases Registry.devtools_server name
             (fun n => exists key,
                  DevTools.call_tool h n JUndefined
                  = Returned (failure ("Error: " ++ cannot_read "undefined" key))));
      [|exact H].
    repeat (constructor; [eexists; reflexivity|]). constructor.
Qed.

(** [git_push] and [check_ports] without arguments. *)
Lemma call_without_arguments_witness :
  (exists key,
     GitServer.call_tool (Samples.host 0 EmptyString EmptyString []) "git_push"
       JUndefined
     = Returned (failure ("Error: " ++ cannot_read "undefined" key)))
  /\ (exists key,
        DevTools.call_tool (Samples.host 0 EmptyString EmptyString []) "check_ports"
          JUndefined
        = Returned (failure ("Error: " ++ cannot_read "undefined" key))).
Proof.
  destruct (call_without_arguments (Samples.host 0 EmptyString EmptyString [])
              "git_push") as [Hgit _].
  destruct (call_without_arguments (Samples.host 0 EmptyString EmptyString [])
              "check_ports") as [_ Hdev].
  split; [apply Hgit|apply Hdev]; reflexivity.
Defined.

